(** * matterjs-ts: scoring box, wrap-around and game state

    A shallow embedding of the three classes that carry the game logic of the
    demo, and the properties of its specification that concern them:

    - [BodyWrapper]  (BodyWrapper.ts): toroidal wrap of a body's position;
    - [GameManager]  (GameManager.ts): score, attempts and the game-over flag;
    - [BoundaryBox]  (BoundaryBox.ts): the goal box, its two containment
      tests and its two collection paths (collision driven and polled).

    Conventions.  [BodyWrapper] computes new coordinates and hands them to
    [Matter.Body.setPosition], and the double a body ends up with depends
    on the rounding of each operation: there a coordinate is an IEEE 754
    binary64 double ([spec_float], with the arithmetic and the comparisons
    of the Standard Library's [SpecFloat] at precision 53).  In the other
    classes, which place walls and compare a centre with the edges of a
    box, a coordinate is a rational ([Q], exact arithmetic).  A [number]
    that holds a counter is an integer ([Z], so that a negative argument
    stays expressible).  Objects that are shared by reference (the
    engine and its world, the singleton game manager) live in one system
    state [Sys]; a body is identified by its Matter.js [id].  What the code
    prints or writes to the page is recorded, in order, in a trace of
    [Effect]s. *)

From Stdlib Require Import QArith Qround Lqa ZArith Lia List Bool SpecFloat.
From stdpp Require Import base option list gmap strings.
Import ListNotations.

Set Default Proof Using "Type".

(** ** Numbers *)

Module Num.

(** The JavaScript comparison [a < b] on coordinates. *)
Definition ltb (a b : Q) : bool :=
  match (a ?= b)%Q with
  | Lt => true
  | _ => false
  end.

(** [a > b] is [b < a]. *)
Definition gtb (a b : Q) : bool := ltb b a.

End Num.

Infix "<.?" := Num.ltb (at level 70, no associativity).
Infix ">.?" := Num.gtb (at level 70, no associativity).

(** ** Doubles *)

Module Double.

(** IEEE 754 binary64, the format of a JavaScript [number]: 53 bits of
    precision, exponents up to 1024; every operation rounds to nearest,
    ties to even. *)
Definition prec : Z := 53.
Definition emax : Z := 1024.

(** [a + b], [a - b] and [a / b] *)
Definition add (a b : spec_float) : spec_float := SFadd prec emax a b.
Definition sub (a b : spec_float) : spec_float := SFsub prec emax a b.
Definition div (a b : spec_float) : spec_float := SFdiv prec emax a b.

(** [a < b], [a > b], [a <= b] and [a === b]; each is false when an operand
    is [NaN], and [0 === -0]. *)
Definition ltb (a b : spec_float) : bool := SFltb a b.
Definition gtb (a b : spec_float) : bool := ltb b a.
Definition leb (a b : spec_float) : bool := SFleb a b.
Definition eqb (a b : spec_float) : bool := SFeqb a b.

(** The double of an integer literal (exact below [2^53]). *)
Definition ofZ (n : Z) : spec_float := binary_normalize prec emax n 0 false.

(** The double of the decimal literal [n / 10^k], for [n] and [10^k] below
    [2^53]: the nearest double of the quotient. *)
Definition decimal (n k : Z) : spec_float := div (ofZ n) (ofZ (10 ^ k)).

(** Neither [NaN] nor an infinity. *)
Definition finite (a : spec_float) : bool :=
  match a with
  | S754_zero _ | S754_finite _ _ _ => true
  | _ => false
  end.

(** The rational a finite double stands for. *)
Definition toQ (a : spec_float) : Q :=
  match a with
  | S754_finite s m e => inject_Z (cond_Zopp s (Zpos m)) * 2 ^ e
  | _ => 0
  end.

End Double.

Declare Scope double_scope.
Delimit Scope double_scope with D.
Infix "+" := Double.add : double_scope.
Infix "-" := Double.sub : double_scope.
Infix "<?" := Double.ltb : double_scope.
Infix ">?" := Double.gtb : double_scope.
Infix "<=?" := Double.leb : double_scope.
Infix "===" := Double.eqb (at level 70, no associativity) : double_scope.

(** Equal, or zeros that differ in sign at most: among finite doubles, what
    [===] does not tell apart. *)
Definition alike (a b : spec_float) : Prop :=
  a = b \/ (exists s s', a = S754_zero s /\ b = S754_zero s').

(** The double of the non-zero integer [p] or [-p], for [p] below [2^53]:
    the mantissa is [p] shifted to 53 binary digits. *)
Definition canon (s : bool) (p : positive) : spec_float :=
  S754_finite s (Z.to_pos (Zpos p * 2 ^ (52 - Z.log2 (Zpos p))))
    (Z.log2 (Zpos p) - 52)%Z.

(** ** The part of Matter.js the three classes use *)

Module Matter.

Record Vector : Type := mkVector { x : Q; y : Q }.

(** A body, as far as this code looks at it: [Common.nextId] gives every body
    its own [id]; [position] is its centre. *)
Record Body : Type := mkBody {
  id : nat;
  position : Vector;
  isStatic : bool
}.

(** [composite.bodies] of a world, in insertion order. *)
Abbreviation World := (list Body) (only parsing).

(** Reference equality of two bodies. *)
Definition same (a b : Body) : bool := Nat.eqb (id a) (id b).

(** [Array.prototype.includes] on an array of bodies. *)
Definition includes (l : list Body) (b : Body) : bool := existsb (same b) l.

(** [Matter.Composite.remove(world, body)]: [indexOf] finds the first
    occurrence of the body, which is spliced out; an absent body leaves the
    world as it is. *)
Fixpoint remove (w : World) (b : Body) : World :=
  match w with
  | [] => []
  | c :: w' => if same c b then w' else c :: remove w' b
  end.

(** [Matter.Composite.add(world, bodies)]: pushed at the end, in order. *)
Definition add (w : World) (bs : list Body) : World := w ++ bs.

(** [Matter.Bodies.rectangle(x, y, w, h, {isStatic: true, ...})]; the
    vertices play no part in what follows. *)
Definition rectangle (fresh : nat) (cx cy : Q) : Body :=
  {| id := fresh; position := mkVector cx cy; isStatic := true |}.

(** [BodyWrapper] computes new coordinates and hands them to
    [Matter.Body.setPosition]; for that class a vector is a pair of doubles
    and a body carries such a vector. *)
Module F64.

Record Vector : Type := mkVector { x : spec_float; y : spec_float }.

Record Body : Type := mkBody {
  id : nat;
  position : Vector;
  isStatic : bool
}.

(** The vector with the integer coordinates [(a, b)]. *)
Definition lattice (a b : Z) : Vector :=
  {| x := Double.ofZ a; y := Double.ofZ b |}.

(** [Matter.Body.setPosition(body, position)].  Matter.js does not store
    the target; it moves the body by the difference,
    [delta = Vector.sub(position, body.position)] followed by
    [body.position.x += delta.x] and [body.position.y += delta.y], so a
    coordinate [c] with target [t] becomes [c + (t - c)]. *)
Definition setPosition (body : Body) (target : Vector) : Body :=
  let delta :=
    {| x := (x target - x (position body))%D;
       y := (y target - y (position body))%D |} in
  {| id := id body;
     position := {| x := (x (position body) + x delta)%D;
                    y := (y (position body) + y delta)%D |};
     isStatic := isStatic body |}.

End F64.

End Matter.

Import Matter.

(** ** BodyWrapper.ts *)

Module BodyWrapper.

Import F64.

(** [bounds: { min: {x, y}, max: {x, y} }] *)
Record Bounds : Type := mkBounds { min : Vector; max : Vector }.

(** [wrapBody(body)].  The two [if]/[else if] statements run one after the
    other on the same body, the second reading the position the first may
    have written. *)
Definition wrapBody (bounds : Bounds) (body : Body) : Body :=
  let body :=
    if (x (position body) <? x (min bounds))%D then
      setPosition body
        {| x := (x (max bounds) - (x (min bounds) - x (position body)))%D;
           y := y (position body) |}
    else if (x (position body) >? x (max bounds))%D then
      setPosition body
        {| x := (x (min bounds) + (x (position body) - x (max bounds)))%D;
           y := y (position body) |}
    else body in
  if (y (position body) <? y (min bounds))%D then
    setPosition body
      {| x := x (position body);
         y := (y (max bounds) - (y (min bounds) - y (position body)))%D |}
  else if (y (position body) >? y (max bounds))%D then
    setPosition body
      {| x := x (position body);
         y := (y (min bounds) + (y (position body) - y (max bounds)))%D |}
  else body.

(** [setBounds(bounds)] replaces the stored region. *)
Definition setBounds (_ : Bounds) (bounds : Bounds) : Bounds := bounds.

End BodyWrapper.

(** The wrap of one coordinate as the specification words it, on the
    integers: below the region [max - (min - p)], above it
    [min + (p - max)], within it [p]. *)
Module Spec.

Definition wrap (lo hi p : Z) : Z :=
  if (p <? lo)%Z then (hi - (lo - p))%Z
  else if (hi <? p)%Z then (lo + (p - hi))%Z
  else p.

End Spec.

(** Where [setPosition] leaves a coordinate [c] that [wrapBody] found below
    [lo], or above [hi]: the target is computed first, then the body is
    moved by the difference between the target and [c]. *)
Definition wrappedBelow (lo hi c : spec_float) : spec_float :=
  (c + ((hi - (lo - c)) - c))%D.

Definition wrappedAbove (lo hi c : spec_float) : spec_float :=
  (c + ((lo + (c - hi)) - c))%D.

(** Integers far enough below [2^53] for the sums and differences of a wrap
    to be exact. *)
Definition small (n : Z) : Prop := (Z.abs n <= 2 ^ 50)%Z.

(** ** Shared state *)

(** An [Engine] object is a reference; what the code reads of it is its
    world. *)
Abbreviation EngineRef := nat (only parsing).

(** The identity of a function registered with [setRestartCallback]. *)
Definition Callback : Type := nat.

(** What the code writes to the page and to the console, in the order in
    which it happens. *)
Inductive Effect : Type :=
| ScoreDisplay (score : Z)         (* scoreElement.textContent = `Score: ...` *)
| AttemptsDisplay (attempts : Z)   (* attemptsElement.textContent = ... *)
| FinalStats (score attempts : Z)  (* final score and attempts of the modal *)
| ModalShown                       (* gameOverModal.style.opacity = "1" *)
| ModalHidden                      (* gameOverModal.style.opacity = "0" *)
| LogInitialBodyCount (count : Z)  (* "Initial body count set to: ..." *)
| LogScore (score : Z)             (* "Score increased! Current score: ..." *)
| LogAttempt (attempts : Z)        (* "Attempt made! Total attempts: ..." *)
| LogGameOver                      (* "Game over! All bodies collected." *)
| LogBoxA                          (* console.log("BoxA", {...}) *)
| LogEntered (body : nat)          (* "Body ... entered the box!" *)
| Restarted (callback : Callback). (* this.restartCallback() *)

(** The fields of the [GameManager] singleton (the DOM element references,
    fixed once [initializeUIElements] has run, are left out). *)
Record GameManager : Type := mkGameManager {
  score : Z;
  attempts : Z;
  engine : option EngineRef;
  initialBodyCount : Z;
  isGameOver : bool;
  restartCallback : option Callback
}.

Record Sys : Type := mkSys {
  worlds : gmap EngineRef World;  (* the world of every engine *)
  manager : GameManager;          (* GameManager.instance *)
  trace : list Effect;
  nextId : nat                    (* Matter's Common._nextId *)
}.

Definition emit (e : Effect) (s : Sys) : Sys :=
  {| worlds := worlds s; manager := manager s;
     trace := trace s ++ [e]; nextId := nextId s |}.

Definition withManager (f : GameManager -> GameManager) (s : Sys) : Sys :=
  {| worlds := worlds s; manager := f (manager s);
     trace := trace s; nextId := nextId s |}.

(** ** Engine.ts: the three methods the game logic calls *)

(** [getAllBodies()]: [Matter.Composite.allBodies(this.world)], a fresh
    array. *)
Definition getAllBodies (e : EngineRef) (s : Sys) : list Body :=
  default [] (worlds s !! e).

(** [removeBody(body)] *)
Definition removeBody (e : EngineRef) (body : Body) (s : Sys) : Sys :=
  {| worlds := alter (fun w => Matter.remove w body) e (worlds s);
     manager := manager s; trace := trace s; nextId := nextId s |}.

(** [addBody(bodies)] *)
Definition addBody (e : EngineRef) (bodies : list Body) (s : Sys) : Sys :=
  {| worlds := <[ e := Matter.add (getAllBodies e s) bodies ]> (worlds s);
     manager := manager s; trace := trace s; nextId := nextId s |}.

(** [allBodies.filter((body) => !body.isStatic)] *)
Definition nonStatic (bodies : list Body) : list Body :=
  List.filter (fun body => negb (isStatic body)) bodies.

(** ** GameManager.ts *)

(** The state right after [new GameManager()]: the field initialisers, and
    the two displays refreshed by [initializeUIElements]. *)
Definition newGameManager : GameManager :=
  {| score := 0; attempts := 0; engine := None; initialBodyCount := 0;
     isGameOver := false; restartCallback := None |}.

Definition setEngine (e : EngineRef) : Sys -> Sys :=
  withManager (fun g =>
    {| score := score g; attempts := attempts g; engine := Some e;
       initialBodyCount := initialBodyCount g; isGameOver := isGameOver g;
       restartCallback := restartCallback g |}).

Definition setRestartCallback (callback : Callback) : Sys -> Sys :=
  withManager (fun g =>
    {| score := score g; attempts := attempts g; engine := engine g;
       initialBodyCount := initialBodyCount g; isGameOver := isGameOver g;
       restartCallback := Some callback |}).

Definition setInitialBodyCount (count : Z) (s : Sys) : Sys :=
  let s := withManager (fun g =>
    {| score := score g; attempts := attempts g; engine := engine g;
       initialBodyCount := count; isGameOver := isGameOver g;
       restartCallback := restartCallback g |}) s in
  emit (LogInitialBodyCount count) s.

Definition setScore (n : Z) : Sys -> Sys :=
  withManager (fun g =>
    {| score := n; attempts := attempts g; engine := engine g;
       initialBodyCount := initialBodyCount g; isGameOver := isGameOver g;
       restartCallback := restartCallback g |}).

Definition setAttempts (n : Z) : Sys -> Sys :=
  withManager (fun g =>
    {| score := score g; attempts := n; engine := engine g;
       initialBodyCount := initialBodyCount g; isGameOver := isGameOver g;
       restartCallback := restartCallback g |}).

Definition setIsGameOver (b : bool) : Sys -> Sys :=
  withManager (fun g =>
    {| score := score g; attempts := attempts g; engine := engine g;
       initialBodyCount := initialBodyCount g; isGameOver := b;
       restartCallback := restartCallback g |}).

Definition updateScoreDisplay (s : Sys) : Sys :=
  emit (ScoreDisplay (score (manager s))) s.

Definition updateAttemptsDisplay (s : Sys) : Sys :=
  emit (AttemptsDisplay (attempts (manager s))) s.

Definition showGameOverModal (s : Sys) : Sys :=
  let s := emit (FinalStats (score (manager s)) (attempts (manager s))) s in
  emit ModalShown s.

Definition hideGameOverModal (s : Sys) : Sys := emit ModalHidden s.

(** [checkGameOver()] *)
Definition checkGameOver (s : Sys) : Sys :=
  if isGameOver (manager s) then s
  else
    match engine (manager s) with
    | None => s
    | Some e =>
      let nonStaticBodies := nonStatic (getAllBodies e s) in
      if Nat.eqb (length nonStaticBodies) 0
         && (initialBodyCount (manager s) >? 0)%Z
      then
        let s := setIsGameOver true s in
        let s := emit LogGameOver s in
        showGameOverModal s
      else s
    end.

(** [addScore(points = 1)] *)
Definition addScore (points : Z) (s : Sys) : Sys :=
  let s := setScore (score (manager s) + points) s in
  let s := updateScoreDisplay s in
  let s := emit (LogScore (score (manager s))) s in
  checkGameOver s.

(** [addAttempt(count = 1)] *)
Definition addAttempt (count : Z) (s : Sys) : Sys :=
  let s := setAttempts (attempts (manager s) + count) s in
  let s := updateAttemptsDisplay s in
  emit (LogAttempt (attempts (manager s))) s.

Definition resetScore (s : Sys) : Sys := updateScoreDisplay (setScore 0 s).

Definition resetAttempts (s : Sys) : Sys :=
  updateAttemptsDisplay (setAttempts 0 s).

(** [resetGame()] *)
Definition resetGame (s : Sys) : Sys :=
  let s := resetScore s in
  let s := resetAttempts s in
  setIsGameOver false s.

(** [restartGame()], the click handler of the restart button.  What the
    registered callback does to the system is given by [run]. *)
Definition restartGame (run : Callback -> Sys -> Sys) (s : Sys) : Sys :=
  let s := hideGameOverModal s in
  let s := resetGame s in
  match restartCallback (manager s) with
  | Some callback => run callback (emit (Restarted callback) s)
  | None => s
  end.

Definition getScore (s : Sys) : Z := score (manager s).
Definition getAttempts (s : Sys) : Z := attempts (manager s).

(** The system once [GameManager.getInstance()] has built the singleton. *)
Definition initial (ws : gmap EngineRef World) (fresh : nat) : Sys :=
  updateAttemptsDisplay (updateScoreDisplay
    {| worlds := ws; manager := newGameManager; trace := []; nextId := fresh |}).

(** ** BoundaryBox.ts *)

Module BoundaryBox.

(** [boxDimensions: { x, y, width, height }] *)
Module Box.
Record t : Type := mk { x : Q; y : Q; width : Q; height : Q }.
End Box.

(** The fields of a [BoundaryBox]; its [gameManager] is the singleton of
    [Sys]. *)
Record t : Type := mk {
  engine : EngineRef;
  boxParts : list Body;
  width : Q;
  height : Q;
  boxDimensions : Box.t
}.

Definition BoxA_width : Q := 180.
Definition BoxA_height : Q := 140.

(** [createBoxParts()]: the box is placed from the canvas size, its three
    walls are created, pushed onto [boxParts], and the whole of [boxParts]
    is handed to [addBody]. *)
Definition createBoxParts (this : t) (s : Sys) : t * Sys :=
  let BoxA_x_position := (width this - (50.5 / 1.2 + BoxA_width / 2))%Q in
  let BoxA_y_position := (height this - (50.5 / 1.2 + BoxA_height / 2))%Q in
  let dimensions :=
    {| Box.x := BoxA_x_position - BoxA_width / 2;
       Box.y := BoxA_y_position - BoxA_height / 2;
       Box.width := BoxA_width;
       Box.height := BoxA_height |} in
  let s := emit LogBoxA s in
  let bottomBox :=
    rectangle (nextId s) BoxA_x_position (BoxA_y_position + BoxA_height / 2) in
  let leftBox :=
    rectangle (S (nextId s)) (BoxA_x_position - BoxA_width / 2) BoxA_y_position in
  let rightBox :=
    rectangle (S (S (nextId s))) (BoxA_x_position + BoxA_width / 2) BoxA_y_position in
  let parts := boxParts this ++ [bottomBox; leftBox; rightBox] in
  let s :=
    {| worlds := worlds s; manager := manager s; trace := trace s;
       nextId := S (S (S (nextId s))) |} in
  ({| engine := engine this; boxParts := parts;
      width := width this; height := height this;
      boxDimensions := dimensions |},
   addBody (engine this) parts s).

(** [new BoundaryBox(engine, width, height)]; the two listeners the
    constructor registers are [checkBodiesInBox] ("afterUpdate") and
    [onCollisionStart] ("collisionStart") below. *)
Definition new (e : EngineRef) (w h : Q) (s : Sys) : t * Sys :=
  createBoxParts
    {| engine := e; boxParts := []; width := w; height := h;
       boxDimensions := Box.mk 0 0 0 0 (* assigned by createBoxParts *) |} s.

(** [isBodyInBox(body)]: the test of the polling path. *)
Definition isBodyInBox (this : t) (body : Body) : bool :=
  let x := Matter.x (position body) in
  let y := Matter.y (position body) in
  (x >.? Box.x (boxDimensions this))
  && (x <.? Box.x (boxDimensions this) + Box.width (boxDimensions this))
  && (y >.? Box.y (boxDimensions this) + 85)
  && (y <.? Box.y (boxDimensions this) + Box.height (boxDimensions this)).

(** [isBodyInsideBox(body)]: the test of the collision path. *)
Definition isBodyInsideBox (this : t) (body : Body) : bool :=
  let x := Matter.x (position body) in
  let y := Matter.y (position body) in
  (x >.? Box.x (boxDimensions this))
  && (x <.? Box.x (boxDimensions this) + Box.width (boxDimensions this))
  && (y >.? Box.y (boxDimensions this))
  && (y <.? Box.y (boxDimensions this) + Box.height (boxDimensions this)).

(** One turn of the loop of [checkBodiesInBox]. *)
Definition checkBody (this : t) (s : Sys) (body : Body) : Sys :=
  if isBodyInBox this body then
    let s := removeBody (engine this) body s in
    let s := addScore 1 s in
    emit (LogEntered (id body)) s
  else s.

(** [checkBodiesInBox()], run after every engine update: the loop goes over
    the array that [filter] built before the first removal. *)
Definition checkBodiesInBox (this : t) (s : Sys) : Sys :=
  let allBodies := getAllBodies (engine this) s in
  let bodiesToCheck := nonStatic allBodies in
  fold_left (checkBody this) bodiesToCheck s.

(** A collision pair of the engine. *)
Record Pair : Type := mkPair { bodyA : Body; bodyB : Body }.

(** One turn of the loop of the "collisionStart" listener. *)
Definition collide (this : t) (s : Sys) (pair : Pair) : Sys :=
  let isBoxPartA := includes (boxParts this) (bodyA pair) in
  let isBoxPartB := includes (boxParts this) (bodyB pair) in
  if negb isBoxPartA && negb isBoxPartB then s
  else
    let otherBody := if isBoxPartA then bodyB pair else bodyA pair in
    if isStatic otherBody then s
    else if isBodyInsideBox this otherBody then
      let s := addScore 1 s in
      let s := removeBody (engine this) otherBody s in
      checkGameOver s
    else s.

(** The "collisionStart" listener registered by [handleCollision()]. *)
Definition onCollisionStart (this : t) (pairs : list Pair) (s : Sys) : Sys :=
  fold_left (collide this) pairs s.

(** [resize(width, height)] *)
Definition resize (w h : Q) (this : t) (s : Sys) : t * Sys :=
  let this :=
    {| engine := engine this; boxParts := boxParts this;
       width := w; height := h; boxDimensions := boxDimensions this |} in
  let s := fold_left (fun s box => removeBody (engine this) box s)
                     (boxParts this) s in
  createBoxParts this s.

End BoundaryBox.

(** ** Runs and observations *)

(** A step of a game that is not a reset: a call of one of the public
    operations of the game manager, or a change of an engine's world. *)
Inductive Call : Type :=
| AddScore (points : Z)
| AddAttempt (count : Z)
| CheckGameOver
| SetInitialBodyCount (count : Z)
| RemoveBody (e : EngineRef) (body : Body)
| AddBody (e : EngineRef) (bodies : list Body).

Definition call (c : Call) : Sys -> Sys :=
  match c with
  | AddScore points => addScore points
  | AddAttempt count => addAttempt count
  | CheckGameOver => checkGameOver
  | SetInitialBodyCount count => setInitialBodyCount count
  | RemoveBody e body => removeBody e body
  | AddBody e bodies => addBody e bodies
  end.

(** The calls of a list, first to last. *)
Definition run (cs : list Call) (s : Sys) : Sys :=
  fold_left (fun s c => call c s) cs s.

(** Is the amount added by the call at least 0? *)
Definition nonNegative (c : Call) : bool :=
  match c with
  | AddScore points => (0 <=? points)%Z
  | _ => true
  end.

(** The condition under which [checkGameOver] sets the flag: the game is
    not over, an engine is set, its world holds no non-static body, and the
    initial body count is positive. *)
Definition fires (s : Sys) : bool :=
  negb (isGameOver (manager s))
  && match engine (manager s) with
     | None => false
     | Some e =>
       Nat.eqb (length (nonStatic (getAllBodies e s))) 0
       && (initialBodyCount (manager s) >? 0)%Z
     end.

(** Does the step test for the end of the game?  Only [addScore] and
    [checkGameOver] do. *)
Definition tests (c : Call) : bool :=
  match c with
  | AddScore _ | CheckGameOver => true
  | _ => false
  end.

(** How often the game-over modal was shown. *)
Definition modalsShown (t : list Effect) : nat :=
  length (List.filter (fun e => match e with ModalShown => true | _ => false end) t).

(** How often a score increase was announced. *)
Definition scoreIncreases (t : list Effect) : nat :=
  length (List.filter (fun e => match e with LogScore _ => true | _ => false end) t).

(** The bodies announced as having entered the box, first to last. *)
Definition entered (t : list Effect) : list nat :=
  flat_map (fun e => match e with LogEntered i => [i] | _ => [] end) t.

(** One collection as the polling path does it: the body is removed, then
    the score is raised. *)
Definition collectPolled (e : EngineRef) (body : Body) (s : Sys) : Sys :=
  addScore 1 (removeBody e body s).

(** One collection as the collision path does it: the score is raised, the
    body is removed, the game-over test is run once more. *)
Definition collectCollided (e : EngineRef) (body : Body) (s : Sys) : Sys :=
  checkGameOver (removeBody e body (addScore 1 s)).

(** What one collection of [b] from the world of [e] makes of a running
    game [s]: the body has left the world, the score is one higher, and the
    game is over exactly if [b] was the last non-static body. *)
Definition collected (e : EngineRef) (b : Body) (s s' : Sys) : Prop :=
  let last := Nat.eqb (length (nonStatic (getAllBodies e s))) 1 in
  engine (manager s') = Some e
  /\ initialBodyCount (manager s') = initialBodyCount (manager s)
  /\ getAllBodies e s' =
       List.filter (fun c => negb (same c b)) (getAllBodies e s)
  /\ score (manager s') = (score (manager s) + 1)%Z
  /\ isGameOver (manager s') = last
  /\ modalsShown (trace s') =
       (modalsShown (trace s) + if last then 1 else 0)%nat.

(** Is the body collected by the polling path of [this]? *)
Definition settled (this : BoundaryBox.t) (body : Body) : bool :=
  negb (isStatic body) && BoundaryBox.isBodyInBox this body.

(** ** A concrete scene *)

Module Scene.

(** The canvas whose goal box is [x: 700..880, y: 370..510]. *)
Definition canvasWidth : Q := 880 + 50.5 / 1.2.
Definition canvasHeight : Q := 510 + 50.5 / 1.2.

Definition theEngine : EngineRef := 0%nat.

(** A movable body with centre [(cx, cy)]. *)
Definition ball (i : nat) (cx cy : Q) : Body :=
  {| id := i; position := mkVector cx cy; isStatic := false |}.

(** An engine holding [bodies], the game manager wired to it, and a goal
    box built on the canvas above; the walls get the ids 100, 101, 102. *)
Definition scene (bodies : list Body) : BoundaryBox.t * Sys :=
  BoundaryBox.new theEngine canvasWidth canvasHeight
    (setEngine theEngine (initial {[ theEngine := bodies ]} 100)).

Definition box (bodies : list Body) : BoundaryBox.t := fst (scene bodies).
Definition start (bodies : list Body) : Sys := snd (scene bodies).

Definition bottomBox : Body := nth 0 (BoundaryBox.boxParts (box [])) (ball 0 0 0).
Definition leftBox : Body := nth 1 (BoundaryBox.boxParts (box [])) (ball 0 0 0).
Definition rightBox : Body := nth 2 (BoundaryBox.boxParts (box [])) (ball 0 0 0).

(** The world bounds of the wrap scenario. *)
Definition bounds800x600 : BodyWrapper.Bounds :=
  BodyWrapper.mkBounds (F64.lattice 0 0) (F64.lattice 800 600).

(** The region [0.1 .. 0.7] on both axes, a body at [(-0.2, 0.5)], and a
    body at [(-0.49999999999999994, 0.5)]: its [x] is the double next to
    [-0.5] towards 0, [-(2^53 - 1) / 2^54]. *)
Definition tenths : BodyWrapper.Bounds :=
  BodyWrapper.mkBounds
    (F64.mkVector (Double.decimal 1 1) (Double.decimal 1 1))
    (F64.mkVector (Double.decimal 7 1) (Double.decimal 7 1)).

Definition lowBall : F64.Body :=
  F64.mkBody 1 (F64.mkVector (Double.decimal (-2) 1) (Double.decimal 5 1)) false.


End Scene.

(** ** Longer games *)

(** The points a step adds to the score, and the attempts it adds. *)
Definition pointsOf (c : Call) : Z :=
  match c with
  | AddScore points => points
  | _ => 0%Z
  end.

Definition attemptsOf (c : Call) : Z :=
  match c with
  | AddAttempt count => count
  | _ => 0%Z
  end.

Definition total (f : Call -> Z) (cs : list Call) : Z :=
  fold_right Z.add 0%Z (map f cs).

(** JavaScript's safe integers, those of magnitude at most [2^53 - 1]: a
    sum of two of them that is one of them is computed exactly. *)
Definition safeInteger (n : Z) : bool := (Z.abs n <=? 2 ^ 53 - 1)%Z.

(** Do the amounts given to the calls of a run, and the score and the
    attempts before and after each call, stay safe integers? *)
Fixpoint staysSafe (cs : list Call) (s : Sys) : bool :=
  safeInteger (getScore s) && safeInteger (getAttempts s)
  && match cs with
     | [] => true
     | c :: cs' =>
         safeInteger (pointsOf c) && safeInteger (attemptsOf c)
         && staysSafe cs' (call c s)
     end.

(** Does the step leave an initial body count of at most 0 that way? *)
Definition keepsCountLow (c : Call) : bool :=
  match c with
  | SetInitialBodyCount count => (count <=? 0)%Z
  | _ => true
  end.

(** What the player does or what the page does for him: a step of the game,
    a click on the restart button, or a call of the public [resetGame]. *)
Inductive Action : Type :=
| Step (c : Call)
| ClickRestart
| ResetGame.

Definition act (run : Callback -> Sys -> Sys) (a : Action) : Sys -> Sys :=
  match a with
  | Step c => call c
  | ClickRestart => restartGame run
  | ResetGame => resetGame
  end.

Definition play (run : Callback -> Sys -> Sys) (actions : list Action)
    (s : Sys) : Sys :=
  fold_left (fun s a => act run a s) actions s.

(** The score and the attempts the page shows: the text last written to the
    two displays. *)
Definition shownScore (t : list Effect) : option Z :=
  last (flat_map (fun e => match e with ScoreDisplay n => [n] | _ => [] end) t).

Definition shownAttempts (t : list Effect) : option Z :=
  last (flat_map (fun e => match e with AttemptsDisplay n => [n] | _ => [] end) t).

(** Whether the game-over modal is up, as far as the code has set it. *)
Definition modalUp (t : list Effect) : option bool :=
  last (flat_map (fun e => match e with
                           | ModalShown => [true]
                           | ModalHidden => [false]
                           | _ => []
                           end) t).

(** The final statistics last written to the modal. *)
Definition shownFinal (t : list Effect) : option (Z * Z) :=
  last (flat_map (fun e => match e with
                           | FinalStats sc at_ => [(sc, at_)]
                           | _ => []
                           end) t).

(** The two displays show the score and the attempts of the game manager. *)
Definition displaysInSync (s : Sys) : Prop :=
  shownScore (trace s) = Some (score (manager s))
  /\ shownAttempts (trace s) = Some (attempts (manager s)).

(** The modal is up exactly if the game is over (it counts as down as long
    as the code has not touched it). *)
Definition modalInSync (s : Sys) : Prop :=
  default false (modalUp (trace s)) = isGameOver (manager s).

(** Is the action something else than a direct call of [resetGame]? *)
Definition notResetGame (a : Action) : bool :=
  match a with
  | ResetGame => false
  | _ => true
  end.

(** ** The two collection paths, pair by pair and pass by pass *)

(** The body of a collision pair that the listener looks at: the second one
    if the first is a part of the box, the first one otherwise. *)
Definition otherBody (this : BoundaryBox.t) (pair : BoundaryBox.Pair) : Body :=
  if includes (BoundaryBox.boxParts this) (BoundaryBox.bodyA pair)
  then BoundaryBox.bodyB pair
  else BoundaryBox.bodyA pair.

(** Does the listener score for the pair?  One of its bodies is a part of
    the box, the body looked at is not static, and its centre is strictly
    inside the box. *)
Definition scoring (this : BoundaryBox.t) (pair : BoundaryBox.Pair) : bool :=
  (includes (BoundaryBox.boxParts this) (BoundaryBox.bodyA pair)
   || includes (BoundaryBox.boxParts this) (BoundaryBox.bodyB pair))
  && negb (isStatic (otherBody this pair))
  && BoundaryBox.isBodyInsideBox this (otherBody this pair).

(** Has the world of the engine no body that can move? *)
Definition noneMovable (e : EngineRef) (s : Sys) : bool :=
  Nat.eqb (length (nonStatic (getAllBodies e s))) 0.

(** ** BoundaryWalls.ts *)

Module BoundaryWalls.

(** The fields of a [BoundaryWalls]. *)
Record t : Type := mk {
  engine : EngineRef;
  walls : list Body;
  width : Q;
  height : Q
}.

(** [createWalls()]: four static rectangles along the edges of the canvas;
    [this.walls] is assigned the new array, which is handed to [addBody]. *)
Definition createWalls (this : t) (s : Sys) : t * Sys :=
  let bottomWall := rectangle (nextId s) (width this / 2) (height this) in
  let leftWall := rectangle (S (nextId s)) 0 (height this / 2) in
  let rightWall := rectangle (S (S (nextId s))) (width this) (height this / 2) in
  let topWall := rectangle (S (S (S (nextId s)))) (width this / 2) 0 in
  let walls := [bottomWall; leftWall; rightWall; topWall] in
  let s :=
    {| worlds := worlds s; manager := manager s; trace := trace s;
       nextId := S (S (S (S (nextId s)))) |} in
  ({| engine := engine this; walls := walls;
      width := width this; height := height this |},
   addBody (engine this) walls s).

(** [new BoundaryWalls(engine, width, height)] *)
Definition new (e : EngineRef) (w h : Q) (s : Sys) : t * Sys :=
  createWalls {| engine := e; walls := []; width := w; height := h |} s.

(** [getWalls()] *)
Definition getWalls (this : t) : list Body := walls this.

(** [resize(width, height)] *)
Definition resize (w h : Q) (this : t) (s : Sys) : t * Sys :=
  let this :=
    {| engine := engine this; walls := walls this;
       width := w; height := h |} in
  let s := fold_left (fun s wall => removeBody (engine this) wall s)
                     (walls this) s in
  createWalls this s.

End BoundaryWalls.

(** Every identity in use in the world of [e] is below the next fresh one. *)
Definition idsBelow (e : EngineRef) (s : Sys) : Prop :=
  Forall (fun b => (id b < nextId s)%nat) (getAllBodies e s).

(** ** The page around the game *)

(** The state the input handling, the debug control and the body factory
    add to [Sys]: the constraints in the world of the page's engine (by
    identity), the number of [Matter.Mouse] objects created so far, the
    browser's local storage, the names of the events printed by
    [DebugControl.logEvent] (their payload is not recorded), and
    [window.lastCreationTime]. *)
Record App : Type := mkApp {
  sys : Sys;
  constraints : list nat;
  mice : nat;
  localStorage : gmap string string;
  console : list string;
  lastCreationTime : option Z
}.

Definition withSys (f : Sys -> Sys) (a : App) : App :=
  {| sys := f (sys a); constraints := constraints a; mice := mice a;
     localStorage := localStorage a; console := console a;
     lastCreationTime := lastCreationTime a |}.

(** [Common.nextId()]: the current counter is handed out, the counter goes
    up by one. *)
Definition takeId (s : Sys) : Sys :=
  {| worlds := worlds s; manager := manager s; trace := trace s;
     nextId := S (nextId s) |}.

(** [String(b)] of a boolean. *)
Definition stringOfBool (b : bool) : string :=
  if b then "true"%string else "false"%string.

(** [Array.prototype.indexOf] followed by [splice]: the first occurrence is
    taken out. *)
Fixpoint removeFirst (c : nat) (l : list nat) : list nat :=
  match l with
  | [] => []
  | d :: l' => if Nat.eqb d c then l' else d :: removeFirst c l'
  end.

(** ** DebugControl.ts *)

Module DebugControl.

(** The options of the renderer that the debug control writes. *)
Record RenderOptions : Type := mkOptions {
  showAngleIndicator : bool;
  wireframes : bool;
  showDebug : bool;
  showCollisions : bool;
  showPositions : bool;
  showVelocity : bool;
  showIds : bool
}.

(** The fields of a [DebugControl], with what it reaches through them:
    [checkbox.checked], [render.options] and [render.mouse].  A mouse is
    known by its rank of creation, a mouse constraint by the identity of
    its constraint. *)
Record t : Type := mk {
  checked : bool;
  options : RenderOptions;
  renderMouse : option nat;
  mouse : option nat;
  mouseConstraint : option nat;
  isDebugMode : bool;
  onChangeCallbacks : list Callback
}.

Section Callbacks.

(** What a callback registered with [onChange] does when it is called with
    the debug mode (it is taken not to call back into the debug
    control). *)
Variable run : Callback -> bool -> App -> App.

(** [updateDebugMode()] *)
Definition updateDebugMode (this : t) (a : App) : t * App :=
  let mode := checked this in
  let opts := mkOptions mode mode mode mode mode mode mode in
  let '(this, a) :=
    if mode then
      let m := mice a in
      let c := nextId (sys a) in
      ({| checked := checked this; options := opts;
          renderMouse := Some m; mouse := Some m; mouseConstraint := Some c;
          isDebugMode := mode; onChangeCallbacks := onChangeCallbacks this |},
       {| sys := takeId (sys a); constraints := constraints a ++ [c];
          mice := S m; localStorage := localStorage a; console := console a;
          lastCreationTime := lastCreationTime a |})
    else
      ({| checked := checked this; options := opts;
          renderMouse := renderMouse this; mouse := mouse this;
          mouseConstraint := mouseConstraint this;
          isDebugMode := mode; onChangeCallbacks := onChangeCallbacks this |},
       match mouseConstraint this with
       | Some c =>
         {| sys := sys a; constraints := removeFirst c (constraints a);
            mice := mice a; localStorage := localStorage a;
            console := console a; lastCreationTime := lastCreationTime a |}
       | None => a
       end) in
  let a :=
    {| sys := sys a; constraints := constraints a; mice := mice a;
       localStorage :=
         <[ "debugMode"%string := stringOfBool (isDebugMode this) ]>
           (localStorage a);
       console := console a; lastCreationTime := lastCreationTime a |} in
  (this,
   fold_left (fun a callback => run callback (isDebugMode this) a)
             (onChangeCallbacks this) a).

(** [new DebugControl(engine, render)], for a renderer with the given
    options and mouse. *)
Definition new (opts : RenderOptions) (renderMouse0 : option nat) (a : App)
    : t * App :=
  let mode :=
    bool_decide (localStorage a !! "debugMode"%string = Some "true"%string) in
  updateDebugMode
    {| checked := mode; options := opts; renderMouse := renderMouse0;
       mouse := None; mouseConstraint := None; isDebugMode := mode;
       onChangeCallbacks := [] |} a.

(** The "change" listener of the checkbox, after the user has toggled
    it. *)
Definition onCheckboxChange (this : t) (a : App) : t * App :=
  updateDebugMode
    {| checked := negb (checked this); options := options this;
       renderMouse := renderMouse this; mouse := mouse this;
       mouseConstraint := mouseConstraint this;
       isDebugMode := isDebugMode this;
       onChangeCallbacks := onChangeCallbacks this |} a.

End Callbacks.

(** [isEnabled()] *)
Definition isEnabled (this : t) : bool := isDebugMode this.

(** [onChange(callback)] *)
Definition onChange (callback : Callback) (this : t) : t :=
  {| checked := checked this; options := options this;
     renderMouse := renderMouse this; mouse := mouse this;
     mouseConstraint := mouseConstraint this;
     isDebugMode := isDebugMode this;
     onChangeCallbacks := onChangeCallbacks this ++ [callback] |}.

(** [logEvent(eventName, data)] *)
Definition logEvent (this : t) (eventName : string) (a : App) : App :=
  if isDebugMode this then
    {| sys := sys a; constraints := constraints a; mice := mice a;
       localStorage := localStorage a; console := console a ++ [eventName];
       lastCreationTime := lastCreationTime a |}
  else a.

End DebugControl.

(** ** BodyFactory.ts *)

Module BodyFactory.

(** [BodyOptions] of types.ts; an absent field is [None]. *)
Module Style.
Record t : Type := mk {
  fillStyle : option string;
  strokeStyle : option string;
  lineWidth : option Q
}.
End Style.

Module Options.
Record t : Type := mk {
  restitution : option Q;
  friction : option Q;
  render : option Style.t
}.

(** [{}] *)
Definition empty : t := mk None None None.
End Options.

(** What kind of body [Matter.Bodies] was asked for. *)
Inductive Shape : Type :=
| Circle (radius : Q)
| Polygon (sides : Z) (radius : Q)
| Rectangle (width height : Q).

(** A body as the factory hands it out: the Matter.js body and the
    attributes the factory has set on it. *)
Module Made.
Record t : Type := mk {
  body : Body;
  shape : Shape;
  restitution : Q;
  friction : Q;
  fillStyle : string;
  strokeStyle : string;
  lineWidth : Q
}.
End Made.

(** [value || fallback] on an optional number: [undefined] and [0] give the
    fallback. *)
Definition orNumber (value : option Q) (fallback : Q) : Q :=
  match value with
  | Some v => if Qeq_bool v 0 then fallback else v
  | None => fallback
  end.

(** [value || fallback] on an optional string: [undefined] and the empty
    string give the fallback. *)
Definition orString (value : option string) (fallback : string) : string :=
  match value with
  | Some v => if String.eqb v "" then fallback else v
  | None => fallback
  end.

(** [Matter.Common.random(min, max)], for the number [r] in [0, 1) that its
    generator yields. *)
Definition random (lo hi r : Q) : Q := lo + r * (hi - lo).

(** [Matter.Common.choose(choices)], likewise. *)
Definition choose (choices : list string) (r : Q) : string :=
  nth (Z.to_nat (Qfloor (r * inject_Z (Z.of_nat (length choices)))))
      choices ""%string.

(** A movable body with a fresh identity and its centre at [(x, y)], as
    [Matter.Bodies.circle], [polygon] and [rectangle] make it when
    [isStatic] is not asked for. *)
Definition movable (fresh : nat) (cx cy : Q) : Body :=
  {| id := fresh; position := mkVector cx cy; isStatic := false |}.

Section Factory.

(** The debug control given to the constructor. *)
Variable debugControl : DebugControl.t.

(** The common part of the three [create...] methods: the options are
    resolved ([colour] is what [Common.choose] draws with), the body is
    made, the creation is logged. *)
Definition create (shape : Shape) (eventName : string)
    (colours : list string) (stroke : string) (line : Q)
    (cx cy : Q) (options : Options.t) (colour : Q) (a : App)
    : Made.t * App :=
  let made :=
    {| Made.body := movable (nextId (sys a)) cx cy;
       Made.shape := shape;
       Made.restitution := orNumber (Options.restitution options) 0.9;
       Made.friction := orNumber (Options.friction options) 0.1;
       Made.fillStyle :=
         match Options.render options ≫= Style.fillStyle with
         | Some v => if String.eqb v "" then choose colours colour else v
         | None => choose colours colour
         end;
       Made.strokeStyle :=
         orString (Options.render options ≫= Style.strokeStyle) stroke;
       Made.lineWidth :=
         orNumber (Options.render options ≫= Style.lineWidth) line |} in
  (made, DebugControl.logEvent debugControl eventName (withSys takeId a)).

(** [createCircle(x, y, radius, options = {})] *)
Definition createCircle (cx cy radius : Q) (options : Options.t)
    (colour : Q) (a : App) : Made.t * App :=
  create (Circle radius) "Circle Created"
    ["#F44336"; "#E53935"; "#D32F2F"; "#C62828"; "#B71C1C"]%string
    "#B71C1C" 1 cx cy options colour a.

(** [createPolygon(x, y, sides, radius, options = {})] *)
Definition createPolygon (cx cy : Q) (sides : Z) (radius : Q)
    (options : Options.t) (colour : Q) (a : App) : Made.t * App :=
  create (Polygon sides radius) "Polygon Created"
    ["#4CAF50"; "#8BC34A"; "#66BB6A"; "#43A047"; "#388E3C"]%string
    "#2E7D32" 2 cx cy options colour a.

(** [createRectangle(x, y, width, height, options = {})] *)
Definition createRectangle (cx cy width height : Q) (options : Options.t)
    (colour : Q) (a : App) : Made.t * App :=
  create (Rectangle width height) "Rectangle Created"
    ["#2196F3"; "#64B5F6"; "#42A5F5"; "#1E88E5"; "#1565C0"]%string
    "#0D47A1" 2 cx cy options colour a.

(** The numbers in [0, 1) that one call of [createRandomBody] draws:
    [type] from [Math.random()], then up to three from the generator of
    [Matter.Common], in the order of the calls. *)
Record Draws : Type := mkDraws { type : Q; first : Q; second : Q; third : Q }.

(** [createRandomBody(x, y)] *)
Definition createRandomBody (cx cy : Q) (d : Draws) (a : App)
    : Made.t * App :=
  if type d <.? 0.33 then
    createCircle cx cy (random 10 40 (first d)) Options.empty (second d) a
  else if type d <.? 0.66 then
    let sides := Qfloor (random 3 8 (first d)) in
    createPolygon cx cy sides (random 20 50 (second d)) Options.empty
      (third d) a
  else
    let width := random 30 80 (first d) in
    let height := random 30 80 (second d) in
    createRectangle cx cy width height Options.empty (third d) a.

End Factory.

End BodyFactory.

(** ** InputHandler.ts *)

Module InputHandler.

(** The fields of a [MouseEvent] that the handlers read. *)
Record MouseEvent : Type := mkMouseEvent {
  clientX : Q;
  clientY : Q;
  button : Z;
  buttons : Z;
  ctrlKey : bool
}.

(** The fields of an [InputHandler] (its game manager is the singleton of
    [Sys]; its debug control, an object shared with the page, is given to
    each handler in its current state). *)
Record t : Type := mk {
  engine : EngineRef;
  mousePosition : Vector
}.

(** [!window.lastCreationTime]: true for [undefined] and for [0]. *)
Definition unset (time : option Z) : bool :=
  match time with
  | Some t => (t =? 0)%Z
  | None => true
  end.

(** The name [handleMouseMove] gives to the pressed buttons. *)
Definition pressed (event : MouseEvent) : string :=
  if (buttons event =? 1)%Z then "Left"%string
  else if (buttons event =? 4)%Z then "Middle"%string
  else "Right"%string.

Section Handlers.

(** The shape test of [Matter.Query.point]: is the point within the bounds
    and the vertices of the body? *)
Variable hit : Body -> Vector -> bool.

(** [Matter.Query.point(bodies, point)]: the bodies that contain the
    point, in the order of [bodies]. *)
Definition queryPoint (bodies : list Body) (point : Vector) : list Body :=
  List.filter (fun body => hit body point) bodies.

Variable this : t.
Variable debugControl : DebugControl.t.

(** [handleMouseDown(event)] *)
Definition handleMouseDown (event : MouseEvent) (a : App) : App :=
  let a := DebugControl.logEvent debugControl "Mouse Down" a in
  if (button event =? 2)%Z then
    let bodies :=
      queryPoint (getAllBodies (engine this) (sys a))
        (mkVector (clientX event) (clientY event)) in
    let a := DebugControl.logEvent debugControl "Query Bodies" a in
    fold_left
      (fun a body =>
         if negb (isStatic body) then
           let a := DebugControl.logEvent debugControl "Object Removed" a in
           withSys (removeBody (engine this) body) a
         else a)
      bodies a
  else a.

(** [handleMouseUp(event)] *)
Definition handleMouseUp (event : MouseEvent) (a : App) : App :=
  DebugControl.logEvent debugControl "Mouse Up" a.

(** [handleContextMenu(event)] *)
Definition handleContextMenu (event : MouseEvent) (a : App) : App :=
  DebugControl.logEvent debugControl "Right Click - Object Removed" a.

(** [handleClick(event)], with the corner of the canvas that
    [getBoundingClientRect()] reports and the numbers a random body would
    draw.  [Matter.Body.applyForce] adds to the force of the clicked body,
    which is not part of the state followed here. *)
Definition handleClick (rect : Vector) (draws : BodyFactory.Draws)
    (event : MouseEvent) (a : App) : t * App :=
  let mousePosition :=
    mkVector (clientX event - x rect) (clientY event - y rect) in
  let this := {| engine := engine this; mousePosition := mousePosition |} in
  let allBodies := getAllBodies (engine this) (sys a) in
  match queryPoint allBodies mousePosition with
  | clickedBody :: _ =>
    if isStatic clickedBody then (this, a)
    else
      let a := withSys (addAttempt 1) a in
      (this, DebugControl.logEvent debugControl "Body Repelled" a)
  | [] =>
    if ctrlKey event then
      let '(randomBody, a) :=
        BodyFactory.createRandomBody debugControl
          (clientX event) (clientY event) draws a in
      (this,
       withSys (addBody (engine this) [BodyFactory.Made.body randomBody]) a)
    else (this, a)
  end.

(** [handleMouseMove(event)], with the value of [Date.now()] and the
    numbers a random body would draw. *)
Definition handleMouseMove (currentTime : Z) (draws : BodyFactory.Draws)
    (event : MouseEvent) (a : App) : App :=
  if (buttons event >? 0)%Z then
    let button := pressed event in
    let a :=
      DebugControl.logEvent debugControl
        (button ++ " Mouse Move (while pressed)")%string a in
    let a :=
      if String.eqb button "Right" then
        let bodies :=
          queryPoint (getAllBodies (engine this) (sys a))
            (mkVector (clientX event) (clientY event)) in
        match bodies with
        | body :: _ =>
          if negb (isStatic body)
          then withSys (removeBody (engine this) body) a
          else a
        | [] => a
        end
      else a in
    if String.eqb button "Left" && ctrlKey event then
      if unset (lastCreationTime a)
         || (currentTime - default 0%Z (lastCreationTime a) >=? 100)%Z
      then
        let '(randomBody, a) :=
          BodyFactory.createRandomBody debugControl
            (clientX event) (clientY event) draws a in
        let a :=
          withSys (addBody (engine this) [BodyFactory.Made.body randomBody]) a in
        {| sys := sys a; constraints := constraints a; mice := mice a;
           localStorage := localStorage a; console := console a;
           lastCreationTime := Some currentTime |}
      else a
    else a
  else a.

(** [handleKeyDown(event)], for the [key] of the event. *)
Definition handleKeyDown (key : string) (a : App) : App :=
  if String.eqb key "Delete" then
    match List.find (fun body => negb (isStatic body))
            (getAllBodies (engine this) (sys a)) with
    | Some body =>
      let a :=
        DebugControl.logEvent debugControl "Object Removed (DEL key)" a in
      withSys (removeBody (engine this) body) a
    | None => a
    end
  else a.

End Handlers.

End InputHandler.

(** ** Observing a drag *)

Section Drag.

Variable hit : Body -> Vector -> bool.
Variable this : InputHandler.t.
Variable debugControl : DebugControl.t.

(** Did the step from [a] to [a'] add a body to the world of the input
    handler's engine? *)
Definition created (a a' : App) : bool :=
  Nat.ltb (length (getAllBodies (InputHandler.engine this) (sys a)))
          (length (getAllBodies (InputHandler.engine this) (sys a'))).

(** The clock values of the mouse moves of a series that added a body,
    first to last; a move comes with the value of [Date.now()] and the
    numbers a random body would draw. *)
Fixpoint creationTimes
    (moves : list (Z * BodyFactory.Draws * InputHandler.MouseEvent))
    (a : App) : list Z :=
  match moves with
  | [] => []
  | (currentTime, draws, event) :: rest =>
    let a' :=
      InputHandler.handleMouseMove hit this debugControl currentTime draws
        event a in
    (if created a a' then [currentTime] else []) ++ creationTimes rest a'
  end.

End Drag.

(** Every time of the list is at least 100 after the one before it, the
    first one after [previous] if there is one. *)
Fixpoint spaced (previous : option Z) (times : list Z) : Prop :=
  match times with
  | [] => True
  | t :: rest =>
    match previous with
    | Some p => (t - p >= 100)%Z
    | None => True
    end /\ spaced (Some t) rest
  end.

(** ** A session with the debug control *)

(** What happens to a debug control after it is built: the user toggles
    its checkbox, or the page registers a callback. *)
Inductive DebugAction : Type :=
| ToggleCheckbox
| Register (callback : Callback).

Definition debugAct (run : Callback -> bool -> App -> App)
    (action : DebugAction) (state : DebugControl.t * App)
    : DebugControl.t * App :=
  match action with
  | ToggleCheckbox => DebugControl.onCheckboxChange run (fst state) (snd state)
  | Register callback => (DebugControl.onChange callback (fst state), snd state)
  end.

Definition debugSession (run : Callback -> bool -> App -> App)
    (actions : list DebugAction) (state : DebugControl.t * App)
    : DebugControl.t * App :=
  fold_left (fun state action => debugAct run action state) actions state.

(** The constraint that debug mode has put into the world, if it is on. *)
Definition debugConstraint (this : DebugControl.t) : list nat :=
  if DebugControl.isEnabled this
  then match DebugControl.mouseConstraint this with
       | Some c => [c]
       | None => []
       end
  else [].

(** ** Options of the body factory *)

(** The body [made] has got the numbers asked for in [options], with a 0
    (and a missing number) replaced by the default: 0.9 for the
    restitution, 0.1 for the friction, [line] for the line width. *)
Definition zeroReplaced (options : BodyFactory.Options.t) (line : Q)
    (made : BodyFactory.Made.t) : Prop :=
  let pick (asked : option Q) (fallback : Q) :=
    match asked with
    | Some v => if Qeq_bool v 0 then fallback else v
    | None => fallback
    end in
  BodyFactory.Made.restitution made
  = pick (BodyFactory.Options.restitution options) 0.9%Q
  /\ BodyFactory.Made.friction made
     = pick (BodyFactory.Options.friction options) 0.1%Q
  /\ BodyFactory.Made.lineWidth made
     = pick (BodyFactory.Options.render options ≫= BodyFactory.Style.lineWidth)
         line
  /\ ~ (BodyFactory.Made.restitution made == 0)%Q
  /\ ~ (BodyFactory.Made.friction made == 0)%Q
  /\ ~ (BodyFactory.Made.lineWidth made == 0)%Q.

(** * Properties *)

(** ** Comparisons *)

Lemma ltb_lt (a b : Q) : (a <.? b) = true <-> (a < b)%Q.
Proof.
  unfold Num.ltb. rewrite Qlt_alt. destruct (a ?= b)%Q; split; congruence.
Qed.

Lemma ltb_ge (a b : Q) : (a <.? b) = false <-> (b <= a)%Q.
Proof.
  rewrite <- not_true_iff_false, ltb_lt. split; intros H.
  - apply Qnot_lt_le, H.
  - apply Qle_not_lt, H.
Qed.

Lemma gtb_gt (a b : Q) : (a >.? b) = true <-> (b < a)%Q.
Proof. apply ltb_lt. Qed.

Lemma gtb_le (a b : Q) : (a >.? b) = false <-> (a <= b)%Q.
Proof. apply ltb_ge. Qed.

(** Case analysis on a comparison, leaving its meaning in the context. *)
Ltac cmp a b :=
  let H := fresh "Hcmp" in
  destruct (a <.? b) eqn:H;
  [ apply ltb_lt in H | apply ltb_ge in H ].

Ltac cmps :=
  repeat match goal with
  | |- context [ ?a <.? ?b ] => cmp a b
  | |- context [ ?a >.? ?b ] => unfold Num.gtb
  end.

(** ** Doubles *)

(** Case analysis on the comparisons of exponents and mantissas. *)
Ltac order_cases :=
  repeat match goal with
  | H : context [ (?e ?= ?e')%Z ] |- _ => destruct (Z.compare_spec e e')
  | |- context [ (?e ?= ?e')%Z ] => destruct (Z.compare_spec e e')
  | H : context [ Pos.compare_cont Eq ?m ?m' ] |- _ =>
      change (Pos.compare_cont Eq m m') with (Pos.compare m m') in *;
      destruct (Pos.compare_spec m m')
  | |- context [ Pos.compare_cont Eq ?m ?m' ] =>
      change (Pos.compare_cont Eq m m') with (Pos.compare m m') in *;
      destruct (Pos.compare_spec m m')
  end.

Section Doubles.

Local Open Scope Z_scope.

(** *** Integers are exact *)

(** The number of binary digits of a mantissa. *)
Lemma digits2_pos_log2 (p : positive) :
  Zpos (digits2_pos p) = Z.log2 (Zpos p) + 1.
Proof.
  assert (H : digits2_pos p = Pos.size p) by (induction p; cbn; congruence).
  rewrite H. destruct p; cbn [Pos.size Z.log2]; lia.
Qed.

(** Shifting a mantissa to the left. *)
Lemma iter_xO (m d : positive) :
  Zpos (Pos.iter xO m d) = Zpos m * 2 ^ Zpos d.
Proof.
  induction d as [|d IH] using Pos.peano_ind.
  - cbn [Pos.iter]. change (2 ^ 1) with 2. lia.
  - rewrite Pos.iter_succ, Pos2Z.inj_xO, IH, Pos2Z.inj_succ, Z.pow_succ_r; lia.
Qed.

Lemma iter_pos_iter {A : Type} (f : A -> A) (n : positive) (x : A) :
  SpecFloat.iter_pos f n x = Pos.iter f x n.
Proof.
  revert x. induction n as [n IH|n IH|]; intros x; cbn [SpecFloat.iter_pos Pos.iter].
  - now rewrite !IH, !Pos.iter_swap.
  - now rewrite !IH.
  - reflexivity.
Qed.

(** Shifting to the right what was shifted to the left loses nothing. *)
Lemma shr_1_exact (n q : positive) :
  Pos.iter shr_1 (Build_shr_record (Zpos (Pos.iter xO q n)) false false) n
  = Build_shr_record (Zpos q) false false.
Proof.
  revert q. induction n as [|n IH] using Pos.peano_ind; intros q.
  - reflexivity.
  - rewrite !Pos.iter_succ.
    rewrite <- (Pos.iter_swap n positive xO q), IH. reflexivity.
Qed.

Lemma fexp53 (E : Z) : -1074 <= E -> fexp Double.prec Double.emax (53 + E) = E.
Proof. intros H. unfold fexp, emin, Double.prec, Double.emax. lia. Qed.

(** A mantissa of 53 digits is not rounded. *)
Lemma round_aux_canon (s : bool) (q : positive) (E : Z) :
  Zpos (digits2_pos q) = 53 -> -1074 <= E <= 971 ->
  binary_round_aux Double.prec Double.emax s (Zpos q) E loc_Exact
  = S754_finite s q E.
Proof.
  intros Hd HE. unfold binary_round_aux, shr_fexp. cbn [Zdigits2 shr_record_of_loc].
  rewrite Hd, fexp53, Z.sub_diag by lia. cbn [shr shr_m loc_of_shr_record round_nearest_even].
  cbn [Zdigits2]. rewrite Hd, fexp53, Z.sub_diag by lia. cbn [shr shr_m].
  unfold Double.emax, Double.prec.
  destruct (Z.leb_spec E (1024 - 53)); [reflexivity|lia].
Qed.

(** Nor is one of 53 digits followed by zeros. *)
Lemma round_aux_shift (s : bool) (q n : positive) (E : Z) :
  Zpos (digits2_pos q) = 53 -> -1074 <= E <= 971 ->
  binary_round_aux Double.prec Double.emax s (Zpos (Pos.iter xO q n))
    (E - Zpos n) loc_Exact
  = S754_finite s q E.
Proof.
  intros Hd HE. unfold binary_round_aux, shr_fexp. cbn [Zdigits2 shr_record_of_loc].
  assert (Hd' : Zpos (digits2_pos (Pos.iter xO q n)) = 53 + Zpos n).
  { rewrite digits2_pos_log2 in *. rewrite iter_xO, Z.log2_mul_pow2; lia. }
  rewrite Hd'.
  replace (53 + Zpos n + (E - Zpos n)) with (53 + E) by lia.
  rewrite fexp53 by lia.
  replace (E - (E - Zpos n)) with (Zpos n) by lia.
  cbn [shr]. rewrite iter_pos_iter, shr_1_exact.
  cbn [shr_m loc_of_shr_record round_nearest_even Zdigits2].
  replace (E - Zpos n + Zpos n) with E by lia.
  rewrite Hd, fexp53, Z.sub_diag by lia. cbn [shr shr_m].
  unfold Double.emax, Double.prec.
  destruct (Z.leb_spec E (1024 - 53)); [reflexivity|lia].
Qed.

Lemma log2_below (p : positive) : Zpos p < 2 ^ 53 -> 0 <= Z.log2 (Zpos p) < 53.
Proof.
  intros H. split; [apply Z.log2_nonneg|].
  apply Z.log2_lt_pow2; lia.
Qed.

(** Rounding [p * 2^k] at exponent [-k] gives the double of [p]. *)
Lemma binary_round_scaled (s : bool) (p : positive) (k : Z) :
  Zpos p < 2 ^ 53 -> 0 <= k ->
  binary_round Double.prec Double.emax s (Z.to_pos (Zpos p * 2 ^ k)) (- k)
  = canon s p.
Proof.
  intros Hp Hk. pose proof (log2_below p Hp) as HL.
  set (L := Z.log2 (Zpos p)) in *.
  assert (Hpow : forall j, 0 <= j -> 0 < Zpos p * 2 ^ j).
  { intros j Hj. apply Z.mul_pos_pos; [lia|]. now apply Z.pow_pos_nonneg. }
  set (m := Z.to_pos (Zpos p * 2 ^ k)).
  assert (Hm : Zpos m = Zpos p * 2 ^ k) by (apply Z2Pos.id; auto).
  assert (Hdm : Zpos (digits2_pos m) = k + L + 1).
  { rewrite digits2_pos_log2, Hm, Z.log2_mul_pow2 by lia. reflexivity. }
  unfold canon. fold L.
  set (q := Z.to_pos (Zpos p * 2 ^ (52 - L))).
  assert (Hq : Zpos q = Zpos p * 2 ^ (52 - L)) by (apply Z2Pos.id; apply Hpow; lia).
  assert (Hdq : Zpos (digits2_pos q) = 53).
  { rewrite digits2_pos_log2, Hq, Z.log2_mul_pow2 by lia. fold L. lia. }
  unfold binary_round. rewrite Hdm.
  replace (k + L + 1 + - k) with (53 + (L - 52)) by lia.
  rewrite fexp53 by lia. unfold shl_align.
  destruct (L - 52 - - k) as [|n|n] eqn:Hn.
  - assert (k = 52 - L) by lia. subst k. fold q in m. subst m.
    replace (- (52 - L)) with (L - 52) by lia.
    apply round_aux_canon; [assumption|lia].
  - assert (m = Pos.iter xO q n) as ->.
    { apply Pos2Z.inj. rewrite iter_xO, Hm, Hq, <- Z.mul_assoc, <- Z.pow_add_r by lia.
      f_equal. f_equal. lia. }
    replace (- k) with (L - 52 - Zpos n) by lia.
    apply round_aux_shift; [assumption|lia].
  - assert (Pos.iter xO m n = q) as ->.
    { apply Pos2Z.inj. rewrite iter_xO, Hm, Hq, <- Z.mul_assoc, <- Z.pow_add_r by lia.
      f_equal. f_equal. lia. }
    apply round_aux_canon; [assumption|lia].
Qed.

Lemma normalize_scaled (V k : Z) :
  Z.abs V < 2 ^ 53 -> 0 <= k ->
  binary_normalize Double.prec Double.emax (V * 2 ^ k) (- k) false = Double.ofZ V.
Proof.
  intros HV Hk. unfold Double.ofZ.
  assert (H2 : 0 < 2 ^ k) by now apply Z.pow_pos_nonneg.
  destruct V as [|p|p].
  - reflexivity.
  - assert (Hm : Zpos p * 2 ^ k = Zpos (Z.to_pos (Zpos p * 2 ^ k))).
    { symmetry. apply Z2Pos.id. lia. }
    rewrite Hm. cbn [binary_normalize].
    rewrite (binary_round_scaled false p k), <- (binary_round_scaled false p 0) by lia.
    change (2 ^ 0) with 1. rewrite Z.mul_1_r. reflexivity.
  - assert (Hm : Zneg p * 2 ^ k = Zneg (Z.to_pos (Zpos p * 2 ^ k))).
    { rewrite <- !Pos2Z.opp_pos, Z2Pos.id by lia. ring. }
    rewrite Hm. cbn [binary_normalize].
    rewrite (binary_round_scaled true p k), <- (binary_round_scaled true p 0) by lia.
    change (2 ^ 0) with 1. rewrite Z.mul_1_r. reflexivity.
Qed.

Lemma ofZ_pos (p : positive) : Zpos p < 2 ^ 53 -> Double.ofZ (Zpos p) = canon false p.
Proof.
  intros H. rewrite <- (binary_round_scaled false p 0) by lia.
  change (2 ^ 0) with 1. rewrite Z.mul_1_r. reflexivity.
Qed.

Lemma ofZ_neg (p : positive) : Zpos p < 2 ^ 53 -> Double.ofZ (Zneg p) = canon true p.
Proof.
  intros H. rewrite <- (binary_round_scaled true p 0) by lia.
  change (2 ^ 0) with 1. rewrite Z.mul_1_r. reflexivity.
Qed.

(** What the double of an integer below [2^53] looks like. *)
Lemma ofZ_cases (a : Z) :
  Z.abs a < 2 ^ 53 ->
  (a = 0 /\ Double.ofZ a = S754_zero false)
  \/ (exists s q E,
        Double.ofZ a = S754_finite s q E /\ -52 <= E <= 0
        /\ cond_Zopp s (Zpos q) = a * 2 ^ (- E)).
Proof.
  intros Ha. destruct a as [|p|p]; [left; split; reflexivity| |]; right.
  - pose proof (log2_below p ltac:(lia)) as HL.
    exists false, (Z.to_pos (Zpos p * 2 ^ (52 - Z.log2 (Zpos p)))), (Z.log2 (Zpos p) - 52).
    rewrite ofZ_pos by lia. split; [reflexivity|]. split; [lia|].
    cbn [cond_Zopp]. rewrite Z2Pos.id.
    + f_equal. f_equal. lia.
    + apply Z.mul_pos_pos; [lia|]. apply Z.pow_pos_nonneg; lia.
  - pose proof (log2_below p ltac:(lia)) as HL.
    exists true, (Z.to_pos (Zpos p * 2 ^ (52 - Z.log2 (Zpos p)))), (Z.log2 (Zpos p) - 52).
    rewrite ofZ_neg by lia. split; [reflexivity|]. split; [lia|].
    cbn [cond_Zopp]. rewrite Z2Pos.id.
    + replace (- (Z.log2 (Zpos p) - 52)) with (52 - Z.log2 (Zpos p)) by lia.
      rewrite <- Pos2Z.opp_pos. ring.
    + apply Z.mul_pos_pos; [lia|]. apply Z.pow_pos_nonneg; lia.
Qed.

Lemma shl_align_fst (m : positive) (e ez : Z) :
  ez <= e -> Zpos (fst (shl_align m e ez)) = Zpos m * 2 ^ (e - ez).
Proof.
  intros H. unfold shl_align. destruct (ez - e) as [|d|d] eqn:Hd; cbn [fst].
  - replace (e - ez) with 0 by lia. change (2 ^ 0) with 1. lia.
  - lia.
  - rewrite iter_xO. f_equal. f_equal. lia.
Qed.

Lemma cond_Zopp_mul (s : bool) (a b : Z) : cond_Zopp s (a * b) = cond_Zopp s a * b.
Proof. destruct s; cbn [cond_Zopp]; ring. Qed.

Lemma aligned (s : bool) (q : positive) (E ez a : Z) :
  ez <= E <= 0 -> cond_Zopp s (Zpos q) = a * 2 ^ (- E) ->
  cond_Zopp s (Zpos (fst (shl_align q E ez))) = a * 2 ^ (- ez).
Proof.
  intros HE Hq. rewrite shl_align_fst, cond_Zopp_mul, Hq, <- Z.mul_assoc by lia.
  rewrite <- Z.pow_add_r by lia. f_equal. f_equal. lia.
Qed.

(** Sums and differences of integers are exact as long as operands and
    result stay below [2^53]. *)
Lemma add_ofZ (a b : Z) :
  Z.abs a < 2 ^ 53 -> Z.abs b < 2 ^ 53 -> Z.abs (a + b) < 2 ^ 53 ->
  Double.add (Double.ofZ a) (Double.ofZ b) = Double.ofZ (a + b).
Proof.
  intros Ha Hb Hab.
  destruct (ofZ_cases a Ha) as [[-> Ea]|(sa & qa & ea & Ea & Hea & Hqa)];
  destruct (ofZ_cases b Hb) as [[-> Eb]|(sb & qb & eb & Eb & Heb & Hqb)].
  - reflexivity.
  - rewrite Z.add_0_l, Ea, Eb. reflexivity.
  - rewrite Z.add_0_r, Ea, Eb. reflexivity.
  - rewrite Ea, Eb. unfold Double.add, SFadd.
    rewrite (aligned sa qa ea _ a), (aligned sb qb eb _ b) by (assumption || lia).
    rewrite <- Z.mul_add_distr_r.
    rewrite <- (normalize_scaled (a + b) (- Z.min ea eb)) by lia.
    f_equal. lia.
Qed.

Lemma sub_ofZ (a b : Z) :
  Z.abs a < 2 ^ 53 -> Z.abs b < 2 ^ 53 -> Z.abs (a - b) < 2 ^ 53 ->
  Double.sub (Double.ofZ a) (Double.ofZ b) = Double.ofZ (a - b).
Proof.
  intros Ha Hb Hab.
  destruct (ofZ_cases a Ha) as [[-> Ea]|(sa & qa & ea & Ea & Hea & Hqa)];
  destruct (ofZ_cases b Hb) as [[-> Eb]|(sb & qb & eb & Eb & Heb & Hqb)].
  - reflexivity.
  - destruct b as [|p|p]; [discriminate| |].
    + change (0 - Zpos p) with (Zneg p). rewrite ofZ_pos, ofZ_neg by lia. reflexivity.
    + change (0 - Zneg p) with (Zpos p). rewrite ofZ_pos, ofZ_neg by lia. reflexivity.
  - rewrite Z.sub_0_r, Ea, Eb. reflexivity.
  - rewrite Ea, Eb. unfold Double.sub, SFsub.
    rewrite (aligned sa qa ea _ a), (aligned sb qb eb _ b) by (assumption || lia).
    rewrite <- Z.mul_sub_distr_r.
    rewrite <- (normalize_scaled (a - b) (- Z.min ea eb)) by lia.
    f_equal. lia.
Qed.

(** Doubles of integers of one sign compare as the integers do. *)
Lemma compare_canon (pa pb : positive) :
  Zpos pa < 2 ^ 53 -> Zpos pb < 2 ^ 53 ->
  SFcompare (canon false pa) (canon false pb) = Some (Zpos pa ?= Zpos pb)
  /\ SFcompare (canon true pa) (canon true pb) = Some (Zpos pb ?= Zpos pa).
Proof.
  intros Ha Hb. pose proof (log2_below pa Ha) as HLa. pose proof (log2_below pb Hb) as HLb.
  assert (Hpos : forall p L, 0 <= L -> 0 < Zpos p * 2 ^ L).
  { intros p L HL. apply Z.mul_pos_pos; [lia|]. now apply Z.pow_pos_nonneg. }
  unfold canon, SFcompare.
  rewrite !Pos.compare_cont_antisym. cbn [CompOpp].
  change (Pos.compare_cont Eq) with Pos.compare.
  rewrite !Pos2Z.inj_compare, !Z2Pos.id by (apply Hpos; lia).
  destruct (Z.compare_spec (Z.log2 (Zpos pa) - 52) (Z.log2 (Zpos pb) - 52)) as [H|H|H].
  - assert (HL : Z.log2 (Zpos pa) = Z.log2 (Zpos pb)) by lia. rewrite HL.
    assert (H2 : 0 < 2 ^ (52 - Z.log2 (Zpos pb))) by (apply Z.pow_pos_nonneg; lia).
    rewrite <- !Zmult_compare_compat_r by lia. split; reflexivity.
  - assert (Hlt : Zpos pa < Zpos pb) by (apply Z.log2_lt_cancel; lia).
    rewrite (proj2 (Z.compare_lt_iff _ _) Hlt), (proj2 (Z.compare_gt_iff _ _) Hlt).
    split; reflexivity.
  - assert (Hlt : Zpos pb < Zpos pa) by (apply Z.log2_lt_cancel; lia).
    rewrite (proj2 (Z.compare_lt_iff _ _) Hlt), (proj2 (Z.compare_gt_iff _ _) Hlt).
    split; reflexivity.
Qed.

(** Doubles of integers below [2^53] compare as the integers do. *)
Lemma compare_ofZ (a b : Z) :
  Z.abs a < 2 ^ 53 -> Z.abs b < 2 ^ 53 ->
  SFcompare (Double.ofZ a) (Double.ofZ b) = Some (a ?= b).
Proof.
  intros Ha Hb.
  destruct a as [|pa|pa], b as [|pb|pb];
    rewrite ?ofZ_pos, ?ofZ_neg by lia; try reflexivity.
  - apply compare_canon; lia.
  - rewrite (proj2 (compare_canon pa pb ltac:(lia) ltac:(lia))).
    f_equal. cbn [Z.compare]. rewrite Pos.compare_antisym. reflexivity.
Qed.

Lemma ltb_ofZ (a b : Z) :
  Z.abs a < 2 ^ 53 -> Z.abs b < 2 ^ 53 ->
  Double.ltb (Double.ofZ a) (Double.ofZ b) = (a <? b).
Proof.
  intros Ha Hb. unfold Double.ltb, SFltb, Z.ltb. rewrite compare_ofZ by assumption.
  reflexivity.
Qed.

Lemma leb_ofZ (a b : Z) :
  Z.abs a < 2 ^ 53 -> Z.abs b < 2 ^ 53 ->
  Double.leb (Double.ofZ a) (Double.ofZ b) = (a <=? b).
Proof.
  intros Ha Hb. unfold Double.leb, SFleb, Z.leb. rewrite compare_ofZ by assumption.
  destruct (a ?= b); reflexivity.
Qed.

(** *** Any doubles *)

Lemma alike_refl a : alike a a.
Proof. now left. Qed.

(** The arithmetic and the comparisons do not tell such doubles apart. *)
Lemma alike_add a a' b b' : alike a a' -> alike b b' -> alike (a + b)%D (a' + b')%D.
Proof.
  intros [->|(s1 & s1' & -> & ->)] [->|(s2 & s2' & -> & ->)].
  - now left.
  - destruct a' as [s| | |s m e]; cbn; try (now left).
    right. destruct s, s2, s2'; eauto.
  - destruct b' as [s| | |s m e]; cbn; try (now left).
    right. destruct s, s1, s1'; eauto.
  - right. destruct s1, s1', s2, s2'; cbn; eauto.
Qed.

Lemma alike_sub a a' b b' : alike a a' -> alike b b' -> alike (a - b)%D (a' - b')%D.
Proof.
  intros [->|(s1 & s1' & -> & ->)] [->|(s2 & s2' & -> & ->)].
  - now left.
  - destruct a' as [s| | |s m e]; cbn; try (now left).
    right. destruct s, s2, s2'; eauto.
  - destruct b' as [s| | |s m e]; cbn; try (now left).
    right. destruct s, s1, s1'; eauto.
  - right. destruct s1, s1', s2, s2'; cbn; eauto.
Qed.

Lemma alike_compare a a' b b' :
  alike a a' -> alike b b' -> SFcompare a b = SFcompare a' b'.
Proof.
  intros [->|(s1 & s1' & -> & ->)] [->|(s2 & s2' & -> & ->)]; try reflexivity.
Qed.

Lemma compare_refl a : Double.finite a = true -> SFcompare a a = Some Eq.
Proof.
  destruct a as [s| | |s m e]; try discriminate; intros _; [reflexivity|].
  cbn. rewrite Z.compare_refl.
  change (Pos.compare_cont Eq m m) with (Pos.compare m m). rewrite Pos.compare_refl.
  destruct s; reflexivity.
Qed.

Lemma alike_eqb a b : alike a b -> Double.finite b = true -> (a === b)%D = true.
Proof.
  intros H Hb. unfold Double.eqb, SFeqb.
  rewrite (alike_compare a b b b H (alike_refl b)), compare_refl by assumption.
  reflexivity.
Qed.

Lemma alike_finite a b : alike a b -> Double.finite a = Double.finite b.
Proof. intros [->|(s & s' & -> & ->)]; reflexivity. Qed.

(** [a - a] is [0] for a finite [a]. *)
Lemma sub_diag a : Double.finite a = true -> (a - a)%D = S754_zero false.
Proof.
  destruct a as [s| | |s m e]; try discriminate; intros _.
  - destruct s; reflexivity.
  - unfold Double.sub, SFsub. rewrite Z.sub_diag. reflexivity.
Qed.

(** What [setPosition] leaves of a coordinate it is asked to keep. *)
Lemma kept a : Double.finite a = true -> alike (a + (a - a))%D a.
Proof.
  intros H. rewrite sub_diag by assumption.
  destruct a as [s| | |s m e]; try discriminate.
  - right. destruct s; cbn; eauto.
  - now left.
Qed.

(** The order of doubles: antisymmetry, and a transitivity. *)
Lemma compare_antisym a b :
  SFcompare b a = option_map CompOpp (SFcompare a b).
Proof.
  destruct a as [[]|[]| |[] m e], b as [[]|[]| |[] m' e']; cbn; try reflexivity;
    f_equal.
  - rewrite (Z.compare_antisym e e'). destruct (e ?= e'); cbn; try reflexivity.
    f_equal. symmetry. apply (Pos.compare_cont_antisym m m' Eq).
  - rewrite (Z.compare_antisym e e'). destruct (e ?= e'); cbn; try reflexivity.
    symmetry. apply (Pos.compare_cont_antisym m m' Eq).
Qed.

Lemma leb_ltb a b : (a <=? b)%D = true -> (b <? a)%D = false.
Proof.
  unfold Double.leb, Double.ltb, SFleb, SFltb. rewrite (compare_antisym a b).
  destruct (SFcompare a b) as [[]|]; cbn; congruence.
Qed.

Lemma ltb_leb_trans a b c :
  (a <=? b)%D = true -> (b <? c)%D = true -> (c <? a)%D = false.
Proof.
  unfold Double.leb, Double.ltb, SFleb, SFltb.
  destruct a as [[]|[]| |[] ma ea], b as [[]|[]| |[] mb eb], c as [[]|[]| |[] mc ec];
    cbn; try congruence; intros H1 H2; order_cases; cbn in *;
    try congruence; try lia.
Qed.

Lemma alike_trans a b c : alike a b -> alike b c -> alike a c.
Proof.
  intros [Hab|(s & s' & Ha & Hb)] [Hbc|(t & t' & Hb' & Hc)]; subst.
  - now left.
  - right; eauto.
  - right; eauto.
  - right; eauto.
Qed.

Lemma alike_ltb a a' b b' : alike a a' -> alike b b' -> (a <? b)%D = (a' <? b')%D.
Proof.
  intros Ha Hb. unfold Double.ltb, SFltb. now rewrite (alike_compare a a' b b').
Qed.

Lemma alike_kept (w : bool) a :
  Double.finite a = true -> alike (if w then (a + (a - a))%D else a) a.
Proof. intros H. destruct w; [now apply kept|apply alike_refl]. Qed.

(** The doubles of some literals: [0.1], [0.7], [-0.2], [0.5] and [790]. *)
Example literals :
  Double.decimal 1 1 = S754_finite false 7205759403792794 (-56)
  /\ Double.decimal 7 1 = S754_finite false 6305039478318694 (-53)
  /\ Double.decimal (-2) 1 = S754_finite true 7205759403792794 (-55)
  /\ (Double.toQ (Double.decimal 5 1) == 1 # 2)%Q
  /\ (Double.toQ (Double.ofZ 790) == 790 # 1)%Q.
Proof. vm_compute. repeat split. Qed.

End Doubles.

(** ** BodyWrapper *)

Lemma abs_small (n : Z) : small n -> (Z.abs n <= 1125899906842624)%Z.
Proof. exact (fun H => H). Qed.

(** Bounds on sums and differences of [small] integers. *)
Ltac sizes :=
  repeat match goal with
  | H : small _ |- _ => apply abs_small in H
  end;
  change (2 ^ 53)%Z with 9007199254740992%Z; lia.

Section Wrap.

Import F64 BodyWrapper.

Local Open Scope Z_scope.

Lemma alike_wrappedBelow lo hi c c' :
  alike c c' -> alike (wrappedBelow lo hi c) (wrappedBelow lo hi c').
Proof.
  intros H. unfold wrappedBelow.
  repeat first [apply alike_add | apply alike_sub | assumption | apply alike_refl].
Qed.

Lemma alike_wrappedAbove lo hi c c' :
  alike c c' -> alike (wrappedAbove lo hi c) (wrappedAbove lo hi c').
Proof.
  intros H. unfold wrappedAbove.
  repeat first [apply alike_add | apply alike_sub | assumption | apply alike_refl].
Qed.

(** One axis of [wrapBody]: the statement reads [c1], which is the
    coordinate [c] of the body up to the sign of a zero. *)
Lemma axis_result (lo hi c c1 : spec_float) :
  alike c1 c -> (lo <=? hi)%D = true ->
  let r :=
    if (c1 <? lo)%D then wrappedBelow lo hi c1
    else if (c1 >? hi)%D then wrappedAbove lo hi c1
    else c1 in
  ((c <? lo)%D = true -> alike r (wrappedBelow lo hi c))
  /\ ((c >? hi)%D = true -> alike r (wrappedAbove lo hi c))
  /\ ((lo <=? c)%D = true -> (c <=? hi)%D = true -> alike r c).
Proof.
  intros Hc Hle r. subst r. unfold Double.gtb.
  rewrite (alike_ltb c1 c lo lo Hc (alike_refl lo)).
  rewrite (alike_ltb hi hi c1 c (alike_refl hi) Hc).
  split; [|split].
  - intros ->. now apply alike_wrappedBelow.
  - intros H. rewrite (ltb_leb_trans lo hi c Hle H), H. now apply alike_wrappedAbove.
  - intros H1 H2. now rewrite (leb_ltb _ _ H1), (leb_ltb _ _ H2).
Qed.

Lemma eqb_of_alike a b c :
  alike a b -> alike b c -> Double.finite c = true -> (a === c)%D = true.
Proof. intros H1 H2 Hc. apply alike_eqb; [now apply (alike_trans a b c)|assumption]. Qed.

Lemma kept_ofZ (n : Z) :
  Z.abs n < 2 ^ 53 ->
  (Double.ofZ n + (Double.ofZ n - Double.ofZ n))%D = Double.ofZ n.
Proof.
  intros H. rewrite sub_ofZ, add_ofZ by (rewrite ?Z.sub_diag, ?Z.add_0_r; cbn; lia).
  f_equal. lia.
Qed.

Lemma wrappedBelow_ofZ (lo hi c : Z) :
  small lo -> small hi -> small c ->
  wrappedBelow (Double.ofZ lo) (Double.ofZ hi) (Double.ofZ c)
  = Double.ofZ (hi - (lo - c)).
Proof.
  intros Hlo Hhi Hc. unfold wrappedBelow.
  rewrite !sub_ofZ, add_ofZ by sizes. f_equal. lia.
Qed.

Lemma wrappedAbove_ofZ (lo hi c : Z) :
  small lo -> small hi -> small c ->
  wrappedAbove (Double.ofZ lo) (Double.ofZ hi) (Double.ofZ c)
  = Double.ofZ (lo + (c - hi)).
Proof.
  intros Hlo Hhi Hc. unfold wrappedAbove.
  rewrite sub_ofZ, add_ofZ, sub_ofZ, add_ofZ by sizes. f_equal. lia.
Qed.

(** One axis on the integers. *)
Lemma axis_ofZ (lo hi c : Z) :
  small lo -> small hi -> small c ->
  (if (Double.ofZ c <? Double.ofZ lo)%D
   then wrappedBelow (Double.ofZ lo) (Double.ofZ hi) (Double.ofZ c)
   else if (Double.ofZ c >? Double.ofZ hi)%D
   then wrappedAbove (Double.ofZ lo) (Double.ofZ hi) (Double.ofZ c)
   else Double.ofZ c)
  = Double.ofZ (Spec.wrap lo hi c)
  /\ Z.abs (Spec.wrap lo hi c) < 2 ^ 53.
Proof.
  intros Hlo Hhi Hc. unfold Double.gtb, Spec.wrap.
  rewrite !ltb_ofZ by sizes.
  rewrite wrappedBelow_ofZ, wrappedAbove_ofZ by assumption.
  destruct (c <? lo); [|destruct (hi <? c)]; (split; [reflexivity|sizes]).
Qed.

Variable bounds : Bounds.

(** The position after [wrapBody], spelt out: the second statement reads
    what the first has written, and [setPosition] goes over both
    coordinates each time. *)
Lemma wrapBody_position (body : Body) :
  let x0 := x (position body) in
  let y0 := y (position body) in
  let x1 :=
    if (x0 <? x (min bounds))%D then wrappedBelow (x (min bounds)) (x (max bounds)) x0
    else if (x0 >? x (max bounds))%D then wrappedAbove (x (min bounds)) (x (max bounds)) x0
    else x0 in
  let y1 :=
    if ((x0 <? x (min bounds)) || (x0 >? x (max bounds)))%D
    then (y0 + (y0 - y0))%D else y0 in
  position (wrapBody bounds body) =
    {| x := if ((y1 <? y (min bounds)) || (y1 >? y (max bounds)))%D
            then (x1 + (x1 - x1))%D else x1;
       y := if (y1 <? y (min bounds))%D
            then wrappedBelow (y (min bounds)) (y (max bounds)) y1
            else if (y1 >? y (max bounds))%D
            then wrappedAbove (y (min bounds)) (y (max bounds)) y1
            else y1 |}.
Proof.
  cbv zeta. unfold wrapBody, wrappedBelow, wrappedAbove.
  destruct (x (position body) <? x (min bounds))%D;
    [|destruct (x (position body) >? x (max bounds))%D];
    cbn [orb setPosition position x y];
    (match goal with
     | |- context [ (?c <? y (min bounds))%D ] => destruct (c <? y (min bounds))%D
     end;
     [|match goal with
       | |- context [ (?c >? y (max bounds))%D ] => destruct (c >? y (max bounds))%D
       end]); cbn [orb setPosition position x y]; try reflexivity;
    destruct body as [i [px py] st]; reflexivity.
Qed.

Lemma wrapBody_id_isStatic (body : Body) :
  id (wrapBody bounds body) = id body
  /\ isStatic (wrapBody bounds body) = isStatic body.
Proof.
  unfold wrapBody, Double.gtb.
  repeat match goal with
  | |- context [ if ?c then _ else _ ] => destruct c
  end; split; reflexivity.
Qed.


End Wrap.

Section Wrapping.

Import F64.

Local Open Scope Z_scope.

(** On the integers [wrapBody] is the specification's wrap on each axis:
    no operation rounds. *)
Lemma wrapBody_lattice (lx ly hx hy px py : Z) (i : nat) (static : bool) :
  small lx -> small ly -> small hx -> small hy -> small px -> small py ->
  BodyWrapper.wrapBody (BodyWrapper.mkBounds (lattice lx ly) (lattice hx hy))
    (F64.mkBody i (lattice px py) static)
  = F64.mkBody i (lattice (Spec.wrap lx hx px) (Spec.wrap ly hy py)) static.
Proof.
  intros Hlx Hly Hhx Hhy Hpx Hpy.
  set (bounds := BodyWrapper.mkBounds _ _). set (body := F64.mkBody _ _ _).
  pose proof (wrapBody_id_isStatic bounds body) as [Hi Hs].
  pose proof (wrapBody_position bounds body) as Hp. cbv zeta in Hp.
  destruct (BodyWrapper.wrapBody bounds body) as [i' p' s'].
  cbn [F64.id F64.isStatic F64.position] in Hi, Hs, Hp. subst i' s' p'.
  subst bounds body.
  cbn [BodyWrapper.min BodyWrapper.max F64.position F64.x F64.y lattice].
  rewrite (kept_ofZ py) by sizes.
  replace (if (_ || _)%bool then Double.ofZ py else Double.ofZ py)
    with (Double.ofZ py) by (now destruct (_ || _)%bool).
  destruct (axis_ofZ lx hx px Hlx Hhx Hpx) as [-> Hx].
  destruct (axis_ofZ ly hy py Hly Hhy Hpy) as [-> Hy].
  rewrite kept_ofZ by assumption.
  now destruct (_ || _)%bool.
Qed.

(** The claim of C4 as it is written fails on doubles.  In the region
    [0.1 .. 0.7] a body at [x = -0.2] is below the minimum; the formula
    [max - (min - x)] gives the double [0.3999999999999999], and the exact
    value of the formula is another number again, but the body ends at
    [0.39999999999999986]: [setPosition] adds the difference between the
    target and [-0.2] to [-0.2], and that sum rounds once more. *)
Theorem wrapBody_misses_formula :
  (x (position Scene.lowBall) <? x (BodyWrapper.min Scene.tenths))%D = true
  /\ x (position (BodyWrapper.wrapBody Scene.tenths Scene.lowBall))
     = S754_finite false 7205759403792791 (-54)
  /\ (x (BodyWrapper.max Scene.tenths)
      - (x (BodyWrapper.min Scene.tenths) - x (position Scene.lowBall)))%D
     = S754_finite false 7205759403792792 (-54)
  /\ (x (position (BodyWrapper.wrapBody Scene.tenths Scene.lowBall))
      === x (BodyWrapper.max Scene.tenths)
          - (x (BodyWrapper.min Scene.tenths) - x (position Scene.lowBall)))%D
     = false
  /\ ~ (Double.toQ (x (position (BodyWrapper.wrapBody Scene.tenths Scene.lowBall)))
        == Double.toQ (x (BodyWrapper.max Scene.tenths))
           - (Double.toQ (x (BodyWrapper.min Scene.tenths))
              - Double.toQ (x (position Scene.lowBall))))%Q.
Proof.
  vm_compute. repeat split; try reflexivity. discriminate.
Qed.

(** C4, amended.  [wrapBody] treats the two axes independently, in double
    arithmetic.  For a region with [min <= max] on both axes and a body
    with finite coordinates: a coordinate [p] below the region's minimum on
    its axis becomes [p + (t - p)] for the target [t = max - (min - p)], a
    coordinate above the maximum becomes [p + (t - p)] for
    [t = min + (p - max)], every operation rounded, provided the result is
    finite; a coordinate within the bounds keeps its value; nothing else of
    the body changes.  (Equality of doubles is [===], which does not tell
    [0] from [-0].)  When the bounds and the coordinates are integers of
    magnitude at most [2^50] no operation rounds, and the result is the
    formula of the specification on each axis.  In the region
    [(0,0)..(800,600)] a body at [(-10, 300)] ends at [(790, 300)]. *)
Theorem wrapBody_each_axis :
  (forall (bounds : BodyWrapper.Bounds) (body : Body),
      let lo := BodyWrapper.min bounds in
      let hi := BodyWrapper.max bounds in
      let p := position body in
      let p' := position (BodyWrapper.wrapBody bounds body) in
      Double.finite (x p) = true -> Double.finite (y p) = true ->
      (x lo <=? x hi)%D = true -> (y lo <=? y hi)%D = true ->
      ((x p <? x lo)%D = true ->
       Double.finite (wrappedBelow (x lo) (x hi) (x p)) = true ->
       (x p' === wrappedBelow (x lo) (x hi) (x p))%D = true)
      /\ ((x p >? x hi)%D = true ->
          Double.finite (wrappedAbove (x lo) (x hi) (x p)) = true ->
          (x p' === wrappedAbove (x lo) (x hi) (x p))%D = true)
      /\ ((x lo <=? x p)%D = true -> (x p <=? x hi)%D = true ->
          (x p' === x p)%D = true)
      /\ ((y p <? y lo)%D = true ->
          Double.finite (wrappedBelow (y lo) (y hi) (y p)) = true ->
          (y p' === wrappedBelow (y lo) (y hi) (y p))%D = true)
      /\ ((y p >? y hi)%D = true ->
          Double.finite (wrappedAbove (y lo) (y hi) (y p)) = true ->
          (y p' === wrappedAbove (y lo) (y hi) (y p))%D = true)
      /\ ((y lo <=? y p)%D = true -> (y p <=? y hi)%D = true ->
          (y p' === y p)%D = true)
      /\ id (BodyWrapper.wrapBody bounds body) = id body
      /\ isStatic (BodyWrapper.wrapBody bounds body) = isStatic body)
  /\ (forall (lx ly hx hy px py : Z) (i : nat) (static : bool),
        small lx -> small ly -> small hx -> small hy -> small px -> small py ->
        BodyWrapper.wrapBody (BodyWrapper.mkBounds (lattice lx ly) (lattice hx hy))
          (mkBody i (lattice px py) static)
        = mkBody i (lattice (Spec.wrap lx hx px) (Spec.wrap ly hy py)) static)
  /\ (forall (i : nat) (static : bool),
        BodyWrapper.wrapBody Scene.bounds800x600 (mkBody i (lattice (-10) 300) static)
        = mkBody i (lattice 790 300) static).
Proof.
  split; [|split].
  - intros bounds body lo hi p p' Fx Fy Lx Ly. subst p'.
    rewrite wrapBody_position. cbv zeta. cbn [x y]. subst lo hi p.
    set (lo := BodyWrapper.min bounds) in *. set (hi := BodyWrapper.max bounds) in *.
    set (x0 := x (position body)) in *. set (y0 := y (position body)) in *.
    set (wx := ((x0 <? x lo) || (x0 >? x hi))%D%bool).
    set (y1 := if wx then (y0 + (y0 - y0))%D else y0).
    assert (Hy1 : alike y1 y0) by now apply alike_kept.
    set (wy := ((y1 <? y lo) || (y1 >? y hi))%D%bool).
    pose proof (axis_result (x lo) (x hi) x0 x0 (alike_refl _) Lx) as (X1 & X2 & X3).
    pose proof (axis_result (y lo) (y hi) y0 y1 Hy1 Ly) as (Y1 & Y2 & Y3).
    cbv zeta in X1, X2, X3, Y1, Y2, Y3.
    set (x1 := if (x0 <? x lo)%D then wrappedBelow (x lo) (x hi) x0
               else if (x0 >? x hi)%D then wrappedAbove (x lo) (x hi) x0 else x0) in *.
    set (y2 := if (y1 <? y lo)%D then wrappedBelow (y lo) (y hi) y1
               else if (y1 >? y hi)%D then wrappedAbove (y lo) (y hi) y1 else y1) in *.
    assert (K : forall t, alike x1 t -> Double.finite t = true ->
                          ((if wy then (x1 + (x1 - x1))%D else x1) === t)%D = true).
    { intros t Ht Ft. apply (eqb_of_alike _ x1 t); [|assumption..].
      apply alike_kept. now rewrite (alike_finite x1 t Ht). }
    repeat split; try apply wrapBody_id_isStatic.
    + intros H F. apply K; auto.
    + intros H F. apply K; auto.
    + intros H1 H2. apply K; auto.
    + intros H F. apply alike_eqb; auto.
    + intros H F. apply alike_eqb; auto.
    + intros H1 H2. apply alike_eqb; auto.
  - apply wrapBody_lattice.
  - intros i static. apply wrapBody_lattice; vm_compute; discriminate.
Qed.

Lemma wrapBody_each_axis_witness :
  (x (position (BodyWrapper.wrapBody Scene.tenths Scene.lowBall))
   === wrappedBelow (x (BodyWrapper.min Scene.tenths)) (x (BodyWrapper.max Scene.tenths))
         (x (position Scene.lowBall)))%D = true
  /\ BodyWrapper.wrapBody (BodyWrapper.mkBounds (lattice 0 0) (lattice 800 600))
       (mkBody 1 (lattice 810 (-5)) false)
     = mkBody 1 (lattice (Spec.wrap 0 800 810) (Spec.wrap 0 600 (-5))) false.
Proof.
  split.
  - apply (proj1 wrapBody_each_axis Scene.tenths Scene.lowBall); reflexivity.
  - apply (proj1 (proj2 wrapBody_each_axis)); vm_compute; discriminate.
Defined.




(** Beyond one region width the second wrap moves the body again. *)
Example wrapBody_twice_far :
  x (position (BodyWrapper.wrapBody Scene.bounds800x600
                 (mkBody 1 (lattice (-900) 300) false)))
    = Double.ofZ (-100)
  /\ x (position (BodyWrapper.wrapBody Scene.bounds800x600
         (BodyWrapper.wrapBody Scene.bounds800x600
            (mkBody 1 (lattice (-900) 300) false))))
    = Double.ofZ 700.
Proof. split; reflexivity. Qed.

(** A body a hair below the minimum can land a hair above the maximum: in
    the region [95.345 .. 938.149] the coordinate [95.34499999999997] wraps
    to [938.1490000000001], and from there to [95.34500000000014]. *)
Example wrapBody_overshoots :
  let bounds :=
    BodyWrapper.mkBounds
      (mkVector (Double.decimal 95345 3) (Double.ofZ 0))
      (mkVector (Double.decimal 938149 3) (Double.ofZ 600)) in
  let body := mkBody 1 (mkVector (S754_finite false 6709307913619372 (-46))
                                 (Double.ofZ 300)) false in
  x (position (BodyWrapper.wrapBody bounds body))
    = S754_finite false 8252045872691414 (-43)
  /\ x (position (BodyWrapper.wrapBody bounds (BodyWrapper.wrapBody bounds body)))
     = S754_finite false 6709307913619384 (-46).
Proof. split; reflexivity. Qed.

End Wrapping.

(** ** The two containment tests *)

Section Containment.

Import BoundaryBox.

Variable this : BoundaryBox.t.

Let left : Q := Box.x (boxDimensions this).
Let right : Q := (Box.x (boxDimensions this) + Box.width (boxDimensions this))%Q.
Let top : Q := Box.y (boxDimensions this).
Let bottom : Q := (Box.y (boxDimensions this) + Box.height (boxDimensions this))%Q.

(** [isBodyInsideBox] is the open rectangle. *)
Lemma isBodyInsideBox_iff (body : Body) :
  isBodyInsideBox this body = true <->
  (left < x (position body))%Q /\ (x (position body) < right)%Q
  /\ (top < y (position body))%Q /\ (y (position body) < bottom)%Q.
Proof.
  unfold isBodyInsideBox, left, right, top, bottom.
  rewrite !andb_true_iff, !gtb_gt, !ltb_lt. tauto.
Qed.

(** [isBodyInBox] is the open rectangle whose top edge is 85 lower. *)
Lemma isBodyInBox_iff (body : Body) :
  isBodyInBox this body = true <->
  (left < x (position body))%Q /\ (x (position body) < right)%Q
  /\ (top + 85 < y (position body))%Q /\ (y (position body) < bottom)%Q.
Proof.
  unfold isBodyInBox, left, right, top, bottom.
  rewrite !andb_true_iff, !gtb_gt, !ltb_lt. tauto.
Qed.

Lemma isBodyInBox_inside (body : Body) :
  isBodyInBox this body = true -> isBodyInsideBox this body = true.
Proof.
  rewrite isBodyInBox_iff, isBodyInsideBox_iff. intros (? & ? & ? & ?).
  repeat split; try assumption. lra.
Qed.

End Containment.



(** Where [createBoxParts] puts the box: its height is 140 and its width
    180, whatever the canvas. *)
Lemma createBoxParts_dimensions (this : BoundaryBox.t) (s : Sys) :
  let d := BoundaryBox.boxDimensions (fst (BoundaryBox.createBoxParts this s)) in
  BoundaryBox.Box.width d = 180%Q /\ BoundaryBox.Box.height d = 140%Q
  /\ (BoundaryBox.Box.x d == BoundaryBox.width this - 50.5 / 1.2 - 180)%Q
  /\ (BoundaryBox.Box.y d == BoundaryBox.height this - 50.5 / 1.2 - 140)%Q.
Proof.
  cbn. unfold BoundaryBox.BoxA_width, BoundaryBox.BoxA_height.
  repeat split; field.
Qed.

(** C6.  The strict test [isBodyInsideBox] and the settled test
    [isBodyInBox] are two predicates over the same box.  Whatever passes
    the settled test passes the strict one.  On the box that
    [createBoxParts] builds (height 140, inset 85), for any canvas, some
    centre passes both and some centre passes the strict test only.  For
    the box [x: 700..880, y: 370..510]: a centre at (750, 480) passes the
    settled test and the polling pass collects it; a centre at (750, 420)
    passes the strict test and a collision with a wall collects it; a centre
    at (750, 430) passes the strict test but not the settled one, and the
    polling pass leaves it in the world. *)
Theorem two_containment_tests :
  (forall (this : BoundaryBox.t) (body : Body),
      BoundaryBox.isBodyInBox this body = true ->
      BoundaryBox.isBodyInsideBox this body = true)
  /\ (forall (this0 : BoundaryBox.t) (s0 : Sys),
        let this := fst (BoundaryBox.createBoxParts this0 s0) in
        let d := BoundaryBox.boxDimensions this in
        let at_depth (dy : Q) :=
          Scene.ball 0 (BoundaryBox.Box.x d + 90) (BoundaryBox.Box.y d + dy) in
        BoundaryBox.isBodyInBox this (at_depth 100%Q) = true
        /\ BoundaryBox.isBodyInsideBox this (at_depth 100%Q) = true
        /\ BoundaryBox.isBodyInsideBox this (at_depth 50%Q) = true
        /\ BoundaryBox.isBodyInBox this (at_depth 50%Q) = false)
  /\ (let d := BoundaryBox.boxDimensions (Scene.box []) in
      (BoundaryBox.Box.x d == 700)%Q
      /\ (BoundaryBox.Box.x d + BoundaryBox.Box.width d == 880)%Q
      /\ (BoundaryBox.Box.y d == 370)%Q
      /\ (BoundaryBox.Box.y d + BoundaryBox.Box.height d == 510)%Q)
  /\ BoundaryBox.isBodyInBox (Scene.box []) (Scene.ball 1 750 480) = true
  /\ BoundaryBox.isBodyInsideBox (Scene.box []) (Scene.ball 2 750 420) = true
  /\ BoundaryBox.isBodyInsideBox (Scene.box []) (Scene.ball 3 750 430) = true
  /\ BoundaryBox.isBodyInBox (Scene.box []) (Scene.ball 3 750 430) = false
  /\ (let bodies := [Scene.ball 1 750 480; Scene.ball 3 750 430] in
      let after :=
        BoundaryBox.checkBodiesInBox (Scene.box bodies) (Scene.start bodies) in
      nonStatic (getAllBodies Scene.theEngine after) = [Scene.ball 3 750 430]
      /\ getScore after = 1%Z
      /\ entered (trace after) = [1%nat])
  /\ (let bodies := [Scene.ball 2 750 420] in
      let after :=
        BoundaryBox.onCollisionStart (Scene.box bodies)
          [BoundaryBox.mkPair Scene.leftBox (Scene.ball 2 750 420)]
          (Scene.start bodies) in
      nonStatic (getAllBodies Scene.theEngine after) = []
      /\ getScore after = 1%Z).
Proof.
  split; [exact isBodyInBox_inside|].
  split.
  { intros this0 s0 this d at_depth.
    assert (Hd := createBoxParts_dimensions this0 s0).
    fold this in Hd. fold d in Hd. cbv zeta in Hd.
    destruct Hd as (Hw & Hh & _ & _).
    assert (Hin : forall dy, (0 < dy)%Q -> (dy < 140)%Q ->
               BoundaryBox.isBodyInsideBox this (at_depth dy) = true).
    { intros dy H0 H1. apply isBodyInsideBox_iff. fold d. rewrite Hw, Hh.
      unfold at_depth. cbn. repeat split; lra. }
    repeat split.
    - apply isBodyInBox_iff. fold d. rewrite Hw, Hh.
      unfold at_depth. cbn. repeat split; lra.
    - apply Hin; lra.
    - apply Hin; lra.
    - apply not_true_iff_false. rewrite isBodyInBox_iff. fold d.
      unfold at_depth. cbn. intros (_ & _ & H & _). lra. }
  repeat split; vm_compute; reflexivity.
Qed.

Lemma two_containment_tests_witness :
  BoundaryBox.isBodyInsideBox (Scene.box []) (Scene.ball 1 750 480) = true.
Proof.
  apply (proj1 two_containment_tests (Scene.box []) (Scene.ball 1 750 480)).
  vm_compute. reflexivity.
Defined.

(** ** GameManager *)

(** [checkGameOver] either does nothing or sets the flag, logs, and shows
    the modal. *)
Lemma checkGameOver_fires (s : Sys) :
  checkGameOver s =
    if fires s then showGameOverModal (emit LogGameOver (setIsGameOver true s))
    else s.
Proof.
  unfold checkGameOver, fires.
  destruct (isGameOver (manager s)); [reflexivity|].
  destruct (engine (manager s)); [|reflexivity].
  cbn [negb andb]. now destruct (_ && _).
Qed.

Lemma modalsShown_app (t u : list Effect) :
  modalsShown (t ++ u) = (modalsShown t + modalsShown u)%nat.
Proof. unfold modalsShown. now rewrite List.filter_app, length_app. Qed.

Lemma scoreIncreases_app (t u : list Effect) :
  scoreIncreases (t ++ u) = (scoreIncreases t + scoreIncreases u)%nat.
Proof. unfold scoreIncreases. now rewrite List.filter_app, length_app. Qed.

Lemma entered_app (t u : list Effect) : entered (t ++ u) = entered t ++ entered u.
Proof. unfold entered. apply flat_map_app. Qed.

(** Unfolds the field updates of the game manager down to the record
    projections, and counts the effects that were appended. *)
Ltac observe :=
  unfold showGameOverModal, hideGameOverModal, updateScoreDisplay,
    updateAttemptsDisplay, setScore, setAttempts, setIsGameOver,
    setInitialBodyCount, emit, withManager;
  cbn [trace manager worlds nextId score attempts engine initialBodyCount
       restartCallback isGameOver];
  rewrite ?modalsShown_app, ?scoreIncreases_app, ?entered_app;
  repeat match goal with
  | |- context [ modalsShown [?e] ] =>
      let v := eval vm_compute in (modalsShown [e]) in
      change (modalsShown [e]) with v
  | |- context [ scoreIncreases [?e] ] =>
      let v := eval vm_compute in (scoreIncreases [e]) in
      change (scoreIncreases [e]) with v
  | |- context [ entered [?e] ] =>
      let v := eval vm_compute in (entered [e]) in
      change (entered [e]) with v
  end;
  rewrite ?app_nil_r.

(** What [checkGameOver] changes: the flag and the trace, nothing else. *)
Lemma checkGameOver_frame (s : Sys) :
  let s' := checkGameOver s in
  worlds s' = worlds s /\ nextId s' = nextId s
  /\ score (manager s') = score (manager s)
  /\ attempts (manager s') = attempts (manager s)
  /\ engine (manager s') = engine (manager s)
  /\ initialBodyCount (manager s') = initialBodyCount (manager s)
  /\ restartCallback (manager s') = restartCallback (manager s)
  /\ isGameOver (manager s') = isGameOver (manager s) || fires s
  /\ modalsShown (trace s') =
       (modalsShown (trace s) + if fires s then 1 else 0)%nat
  /\ scoreIncreases (trace s') = scoreIncreases (trace s)
  /\ entered (trace s') = entered (trace s).
Proof.
  cbv zeta. rewrite checkGameOver_fires. destruct (fires s) eqn:F.
  - observe. rewrite orb_true_r. repeat split; lia.
  - rewrite orb_false_r. repeat split; lia.
Qed.

(** What [addScore] changes: the score, the flag and the trace. *)
Lemma addScore_frame (points : Z) (s : Sys) :
  let s' := addScore points s in
  worlds s' = worlds s /\ nextId s' = nextId s
  /\ score (manager s') = (score (manager s) + points)%Z
  /\ attempts (manager s') = attempts (manager s)
  /\ engine (manager s') = engine (manager s)
  /\ initialBodyCount (manager s') = initialBodyCount (manager s)
  /\ restartCallback (manager s') = restartCallback (manager s)
  /\ isGameOver (manager s') = isGameOver (manager s) || fires s
  /\ modalsShown (trace s') =
       (modalsShown (trace s) + if fires s then 1 else 0)%nat
  /\ scoreIncreases (trace s') = S (scoreIncreases (trace s))
  /\ entered (trace s') = entered (trace s).
Proof.
  cbv zeta. unfold addScore.
  set (s1 := emit _ (updateScoreDisplay (setScore _ s))).
  assert (F : fires s1 = fires s) by reflexivity.
  destruct (checkGameOver_frame s1)
    as (-> & -> & -> & -> & -> & -> & -> & -> & -> & -> & ->).
  rewrite F. subst s1. observe.
  repeat split; lia.
Qed.

(** What a step that is not a reset changes of the game manager. *)
Lemma call_frame (c : Call) (s : Sys) :
  let s' := call c s in
  engine (manager s') = engine (manager s)
  /\ restartCallback (manager s') = restartCallback (manager s)
  /\ score (manager s') =
       (score (manager s) + match c with AddScore p => p | _ => 0 end)%Z
  /\ isGameOver (manager s') = isGameOver (manager s) || (tests c && fires s)
  /\ modalsShown (trace s') =
       (modalsShown (trace s) + if tests c && fires s then 1 else 0)%nat.
Proof.
  destruct c; cbv zeta; cbn [call tests andb].
  - destruct (addScore_frame points s)
      as (_ & _ & -> & _ & -> & _ & -> & -> & -> & _). auto.
  - unfold addAttempt. observe. rewrite orb_false_r. repeat split; try reflexivity; lia.
  - destruct (checkGameOver_frame s)
      as (_ & _ & -> & _ & -> & _ & -> & -> & -> & _).
    repeat split; try reflexivity; lia.
  - observe. rewrite orb_false_r. repeat split; try reflexivity; lia.
  - unfold removeBody. observe. rewrite orb_false_r.
    repeat split; try reflexivity; lia.
  - unfold addBody. observe. rewrite orb_false_r.
    repeat split; try reflexivity; lia.
Qed.

Lemma fires_not_over (s : Sys) : fires s = true -> isGameOver (manager s) = false.
Proof.
  unfold fires. destruct (isGameOver (manager s)); [discriminate|reflexivity].
Qed.

Lemma fires_inv (s : Sys) :
  fires s = true ->
  isGameOver (manager s) = false
  /\ exists e, engine (manager s) = Some e
       /\ nonStatic (getAllBodies e s) = []
       /\ (initialBodyCount (manager s) > 0)%Z.
Proof.
  intros F. split; [now apply fires_not_over|].
  unfold fires in F. apply andb_true_iff in F as [_ F].
  destruct (engine (manager s)) as [e|]; [|discriminate].
  apply andb_true_iff in F as [F1 F2].
  exists e. repeat split.
  - apply Nat.eqb_eq in F1. now destruct (nonStatic _).
  - lia.
Qed.

Lemma run_cons (c : Call) (cs : list Call) (s : Sys) :
  run (c :: cs) s = run cs (call c s).
Proof. reflexivity. Qed.

Lemma run_app (cs ds : list Call) (s : Sys) :
  run (cs ++ ds) s = run ds (run cs s).
Proof. apply fold_left_app. Qed.

(** Over a run without reset the flag never goes back, and the modal is
    shown once if the flag went from false to true and not at all
    otherwise. *)
Lemma run_game_over (cs : list Call) (s : Sys) :
  (isGameOver (manager s) = true -> isGameOver (manager (run cs s)) = true)
  /\ modalsShown (trace (run cs s)) =
       (modalsShown (trace s)
        + if negb (isGameOver (manager s)) && isGameOver (manager (run cs s))
          then 1 else 0)%nat.
Proof.
  revert s. induction cs as [|c cs IH]; intros s.
  - cbn. split; [auto|]. destruct (isGameOver (manager s)); cbn; lia.
  - rewrite run_cons. destruct (IH (call c s)) as [IH1 IH2].
    destruct (call_frame c s) as (_ & _ & _ & Hover & Hshown).
    cbv zeta in Hover, Hshown. rewrite IH2, Hshown.
    destruct (tests c && fires s) eqn:F.
    + apply andb_true_iff in F as [_ F]. apply fires_not_over in F.
      rewrite F in *. cbn in Hover. rewrite Hover. rewrite (IH1 Hover).
      split; [discriminate|]. cbn. lia.
    + rewrite orb_false_r in Hover. rewrite Hover in IH1 |- *.
      split; [exact IH1|]. lia.
Qed.

(** ** Worlds *)

Lemma getAllBodies_removeBody (e : EngineRef) (body : Body) (s : Sys) :
  getAllBodies e (removeBody e body s) = Matter.remove (getAllBodies e s) body.
Proof.
  unfold getAllBodies, removeBody. cbn [worlds]. rewrite lookup_alter_eq.
  destruct (worlds s !! e); reflexivity.
Qed.

Lemma getAllBodies_removeBody_ne (e e' : EngineRef) (body : Body) (s : Sys) :
  e <> e' -> getAllBodies e' (removeBody e body s) = getAllBodies e' s.
Proof.
  intros H. unfold getAllBodies, removeBody. cbn [worlds].
  now rewrite lookup_alter_ne.
Qed.

(** Removing a body that is not in the world changes nothing. *)
Lemma remove_absent (w : World) (b : Body) :
  includes w b = false -> Matter.remove w b = w.
Proof.
  induction w as [|c w IH]; [reflexivity|]. cbn. unfold same at 1.
  rewrite Nat.eqb_sym. fold (same c b).
  destruct (same c b); [discriminate|]. cbn. intros H. now rewrite IH.
Qed.

Lemma includes_false (w : World) (b : Body) :
  includes w b = false <-> ~ In (id b) (map id w).
Proof.
  induction w as [|c w IH]; cbn; [tauto|].
  rewrite orb_false_iff, IH. unfold same. rewrite Nat.eqb_neq. intuition congruence.
Qed.

(** In a world where every body occurs once, removing a body removes every
    entry that has its identity. *)
Lemma remove_filter (w : World) (b : Body) :
  List.NoDup (map id w) ->
  Matter.remove w b = List.filter (fun c => negb (same c b)) w.
Proof.
  induction w as [|c w IH]; [reflexivity|]. cbn [map]. intros N.
  inversion N as [|? ? Hc N']; subst. cbn.
  destruct (same c b) eqn:E; cbn.
  - apply Nat.eqb_eq in E. rewrite <- IH by assumption.
    symmetry. apply remove_absent, includes_false. now rewrite <- E.
  - now rewrite IH.
Qed.

Lemma NoDup_ids_filter (f : Body -> bool) (w : World) :
  List.NoDup (map id w) -> List.NoDup (map id (List.filter f w)).
Proof.
  induction w as [|c w IH]; cbn; [auto|]. intros N.
  inversion N as [|? ? Hc N']; subst.
  destruct (f c); cbn; [|auto]. constructor; [|auto].
  intros Hin. apply Hc. apply in_map_iff in Hin as (d & Hd & Hin).
  apply filter_In in Hin as [Hin _]. rewrite <- Hd. now apply in_map.
Qed.

Lemma nonStatic_filter (f : Body -> bool) (w : World) :
  nonStatic (List.filter f w) = List.filter f (nonStatic w).
Proof.
  unfold nonStatic. induction w as [|c w IH]; [reflexivity|]. cbn.
  destruct (f c) eqn:F, (isStatic c) eqn:S; cbn; rewrite ?F, ?S; cbn;
    now rewrite IH.
Qed.

(** Taking out a body that is there shortens the list by one. *)
Lemma length_filter_out (l : list Body) (b : Body) :
  List.NoDup (map id l) -> includes l b = true ->
  S (length (List.filter (fun c => negb (same c b)) l)) = length l.
Proof.
  induction l as [|c l IH]; cbn [map]; [discriminate|]. intros N.
  inversion N as [|? ? Hc N']; subst. cbn.
  unfold same at 1. rewrite Nat.eqb_sym. fold (same c b).
  destruct (same c b) eqn:E; cbn.
  - intros _. f_equal. apply Nat.eqb_eq in E.
    rewrite <- (remove_filter l b N'). f_equal.
    apply remove_absent, includes_false. now rewrite <- E.
  - intros H. f_equal. now apply IH.
Qed.

(** ... and keeps every other body. *)
Lemma includes_filter_out (l : list Body) (b b' : Body) :
  id b' <> id b ->
  includes (List.filter (fun c => negb (same c b)) l) b' = includes l b'.
Proof.
  intros Hne. unfold includes.
  induction l as [|c l IH]; [reflexivity|]. cbn.
  destruct (same c b) eqn:E; cbn; rewrite IH; [|reflexivity].
  apply Nat.eqb_eq in E. unfold same at 2.
  destruct (Nat.eqb_spec (id b') (id c)); [congruence|reflexivity].
Qed.

(** The world after a removal, when every body occurs once. *)
Lemma removeBody_world (e : EngineRef) (b : Body) (s : Sys) :
  List.NoDup (map id (getAllBodies e s)) ->
  let after := getAllBodies e (removeBody e b s) in
  after = List.filter (fun c => negb (same c b)) (getAllBodies e s)
  /\ List.NoDup (map id after)
  /\ nonStatic after =
       List.filter (fun c => negb (same c b)) (nonStatic (getAllBodies e s)).
Proof.
  intros N after. subst after. rewrite getAllBodies_removeBody.
  rewrite (remove_filter _ _ N). repeat split.
  - now apply NoDup_ids_filter.
  - apply nonStatic_filter.
Qed.

Lemma fires_engine (s : Sys) (e : EngineRef) :
  engine (manager s) = Some e ->
  fires s =
    negb (isGameOver (manager s))
    && Nat.eqb (length (nonStatic (getAllBodies e s))) 0
    && (initialBodyCount (manager s) >? 0)%Z.
Proof. intros H. unfold fires. rewrite H. apply andb_assoc. Qed.

(** One collection, in either order, while the game is on: the body leaves
    the world, and the game is over afterwards exactly if it was the last
    non-static body. *)
Section Collection.

Variables (e : EngineRef) (b : Body) (s : Sys).

Hypothesis Hengine : engine (manager s) = Some e.
Hypothesis Hplaying : isGameOver (manager s) = false.
Hypothesis Hcount : (initialBodyCount (manager s) > 0)%Z.
Hypothesis Hnodup : List.NoDup (map id (getAllBodies e s)).
Hypothesis Hthere : includes (nonStatic (getAllBodies e s)) b = true.

Let last : bool := Nat.eqb (length (nonStatic (getAllBodies e s))) 1.

Lemma fires_after_removal :
  fires (removeBody e b s) = last.
Proof using Hengine Hplaying Hcount Hnodup Hthere.
  rewrite (fires_engine _ e) by exact Hengine.
  destruct (removeBody_world e b s Hnodup) as (_ & _ & ->).
  change (manager (removeBody e b s)) with (manager s).
  rewrite Hplaying. cbn [negb andb].
  assert (L := length_filter_out _ b (NoDup_ids_filter _ _ Hnodup) Hthere).
  fold (nonStatic (getAllBodies e s)) in L.
  replace (initialBodyCount (manager s) >? 0)%Z with true by lia.
  rewrite andb_true_r. unfold last. rewrite <- L. reflexivity.
Qed.

Lemma collectPolled_collected : collected e b s (collectPolled e b s).
Proof using Hengine Hplaying Hcount Hnodup Hthere.
  unfold collected, collectPolled. cbv zeta. fold last.
  destruct (addScore_frame 1 (removeBody e b s))
    as (Hw & _ & -> & _ & -> & -> & _ & -> & -> & _).
  rewrite fires_after_removal.
  change (manager (removeBody e b s)) with (manager s).
  change (trace (removeBody e b s)) with (trace s).
  rewrite Hplaying. repeat split; try assumption.
  unfold getAllBodies at 1. rewrite Hw.
  fold (getAllBodies e (removeBody e b s)).
  apply (removeBody_world e b s Hnodup).
Qed.

Lemma collectCollided_collected : collected e b s (collectCollided e b s).
Proof using Hengine Hplaying Hcount Hnodup Hthere.
  unfold collected, collectCollided. cbv zeta. fold last.
  destruct (addScore_frame 1 s)
    as (Hw & _ & Hscore & _ & He & Hc & _ & Hover & Hshown & _).
  assert (F : fires s = false).
  { rewrite (fires_engine _ e) by exact Hengine.
    destruct (nonStatic (getAllBodies e s)); [discriminate|].
    cbn. now rewrite andb_false_r. }
  rewrite F, Hplaying in Hover. rewrite F, Nat.add_0_r in Hshown.
  set (s1 := addScore 1 s) in *.
  assert (G : forall c, getAllBodies e (removeBody e c s1)
                        = getAllBodies e (removeBody e c s)).
  { intros c. rewrite !getAllBodies_removeBody. unfold getAllBodies.
    now rewrite Hw. }
  assert (F1 : fires (removeBody e b s1) = last).
  { rewrite <- fires_after_removal.
    rewrite !(fires_engine _ e), G; try assumption.
    - change (manager (removeBody e b s1)) with (manager s1).
      change (manager (removeBody e b s)) with (manager s).
      now rewrite Hover, Hc, Hplaying.
    - change (manager (removeBody e b s1)) with (manager s1). congruence. }
  destruct (checkGameOver_frame (removeBody e b s1))
    as (Hw' & _ & -> & _ & -> & -> & _ & -> & -> & _).
  rewrite F1.
  change (manager (removeBody e b s1)) with (manager s1).
  change (trace (removeBody e b s1)) with (trace s1).
  rewrite Hover, Hshown, Hscore, He, Hc. repeat split; try assumption.
  unfold getAllBodies at 1. rewrite Hw'.
  fold (getAllBodies e (removeBody e b s1)). rewrite G.
  apply (removeBody_world e b s Hnodup).
Qed.

End Collection.

(** What the next collection may rely on. *)
Lemma collected_next (e : EngineRef) (b : Body) (s s' : Sys) (n : nat) :
  collected e b s s' ->
  List.NoDup (map id (getAllBodies e s)) ->
  includes (nonStatic (getAllBodies e s)) b = true ->
  length (nonStatic (getAllBodies e s)) = S n ->
  List.NoDup (map id (getAllBodies e s'))
  /\ length (nonStatic (getAllBodies e s')) = n
  /\ (forall b', id b' <> id b ->
        includes (nonStatic (getAllBodies e s')) b'
        = includes (nonStatic (getAllBodies e s)) b')
  /\ engine (manager s') = Some e
  /\ initialBodyCount (manager s') = initialBodyCount (manager s)
  /\ isGameOver (manager s') = Nat.eqb n 0
  /\ modalsShown (trace s') =
       (modalsShown (trace s) + if Nat.eqb n 0 then 1 else 0)%nat.
Proof.
  intros (He & Hc & Hw & _ & Hover & Hshown) N Hin Hlen.
  cbv zeta in Hover, Hshown. rewrite Hlen in Hover, Hshown.
  rewrite Hw, nonStatic_filter. repeat split; try assumption.
  - now apply NoDup_ids_filter.
  - assert (L := length_filter_out _ b (NoDup_ids_filter _ _ N) Hin).
    fold (nonStatic (getAllBodies e s)) in L. lia.
  - intros b' Hne. now apply includes_filter_out.
Qed.

(** A collection after the end of the game leaves the flag set and does
    not show the modal again. *)
Lemma collect_when_over (e : EngineRef) (b : Body) (s : Sys)
      (collect : Body -> Sys -> Sys) :
  collect = collectPolled e \/ collect = collectCollided e ->
  isGameOver (manager s) = true ->
  isGameOver (manager (collect b s)) = true
  /\ modalsShown (trace (collect b s)) = modalsShown (trace s).
Proof.
  intros [->| ->] Hover.
  - destruct (run_game_over [RemoveBody e b; AddScore 1] s) as [G1 G2].
    unfold run in G1, G2. cbn [fold_left call] in G1, G2.
    fold (collectPolled e b s) in G1, G2.
    rewrite G2, Hover. cbn [negb andb]. split; [auto|lia].
  - destruct (run_game_over [AddScore 1; RemoveBody e b; CheckGameOver] s)
      as [G1 G2].
    unfold run in G1, G2. cbn [fold_left call] in G1, G2.
    fold (collectCollided e b s) in G1, G2.
    rewrite G2, Hover. cbn [negb andb]. split; [auto|lia].
Qed.

(** C1.  The game-over flag goes from false to true at most once, and only
    under the stated condition.
    (1) A step that takes the flag from false to true found an engine set,
        no non-static body in its world, and a positive initial body count.
    (2) Over any run of steps without a reset the flag never returns to
        false, and the game-over modal is shown exactly once if the flag
        went from false to true during the run, and not at all otherwise.
    (3) After [setInitialBodyCount(3)] on a running game whose world holds
        exactly three non-static bodies, three collections (one [addScore]
        each, with the removal of one of the bodies, in the order of the
        polling path or in that of the collision path) leave the game
        running after the first and the second and over after the third,
        where the modal is shown for the first time; a fourth collection
        leaves the flag set and does not show the modal again. *)
Theorem game_over_fires_once :
  (forall (c : Call) (s : Sys),
      isGameOver (manager s) = false ->
      isGameOver (manager (call c s)) = true ->
      exists e, engine (manager s) = Some e
        /\ nonStatic (getAllBodies e s) = []
        /\ (initialBodyCount (manager s) > 0)%Z)
  /\ (forall (cs : list Call) (s : Sys),
        (isGameOver (manager s) = true ->
         isGameOver (manager (run cs s)) = true)
        /\ modalsShown (trace (run cs s)) =
             (modalsShown (trace s)
              + if negb (isGameOver (manager s))
                   && isGameOver (manager (run cs s))
                then 1 else 0)%nat)
  /\ (forall (e : EngineRef) (b1 b2 b3 b4 : Body) (s : Sys)
             (collect : Body -> Sys -> Sys),
        collect = collectPolled e \/ collect = collectCollided e ->
        engine (manager s) = Some e ->
        isGameOver (manager s) = false ->
        List.NoDup (map id (getAllBodies e s)) ->
        length (nonStatic (getAllBodies e s)) = 3%nat ->
        includes (nonStatic (getAllBodies e s)) b1 = true ->
        includes (nonStatic (getAllBodies e s)) b2 = true ->
        includes (nonStatic (getAllBodies e s)) b3 = true ->
        id b1 <> id b2 -> id b1 <> id b3 -> id b2 <> id b3 ->
        let s0 := setInitialBodyCount 3 s in
        let s1 := collect b1 s0 in
        let s2 := collect b2 s1 in
        let s3 := collect b3 s2 in
        let s4 := collect b4 s3 in
        isGameOver (manager s1) = false
        /\ isGameOver (manager s2) = false
        /\ isGameOver (manager s3) = true
        /\ isGameOver (manager s4) = true
        /\ modalsShown (trace s1) = modalsShown (trace s)
        /\ modalsShown (trace s2) = modalsShown (trace s)
        /\ modalsShown (trace s3) = S (modalsShown (trace s))
        /\ modalsShown (trace s4) = S (modalsShown (trace s))).
Proof.
  split; [|split].
  - intros c s Hbefore Hafter.
    destruct (call_frame c s) as (_ & _ & _ & Hover & _). cbv zeta in Hover.
    rewrite Hafter, Hbefore in Hover. symmetry in Hover.
    apply andb_true_iff in Hover as [_ F]. now apply fires_inv in F.
  - exact run_game_over.
  - intros e b1 b2 b3 b4 s collect Hcollect He Hover N Hlen H1 H2 H3 H12 H13 H23
           s0 s1 s2 s3 s4.
    assert (Hstep : forall b s, engine (manager s) = Some e ->
              isGameOver (manager s) = false ->
              (initialBodyCount (manager s) > 0)%Z ->
              List.NoDup (map id (getAllBodies e s)) ->
              includes (nonStatic (getAllBodies e s)) b = true ->
              collected e b s (collect b s)).
    { destruct Hcollect; subst collect; intros.
      - now apply collectPolled_collected.
      - now apply collectCollided_collected. }
    assert (K0 : initialBodyCount (manager s0) = 3%Z) by reflexivity.
    assert (M0 : modalsShown (trace s0) = modalsShown (trace s)).
    { subst s0. observe. lia. }
    assert (C1 : collected e b1 s0 s1) by (apply Hstep; auto; lia).
    destruct (collected_next e b1 s0 s1 2 C1 N H1 Hlen)
      as (N1 & L1 & I1 & E1 & K1 & O1 & M1).
    assert (H2' : includes (nonStatic (getAllBodies e s1)) b2 = true)
      by (rewrite I1 by auto; exact H2).
    assert (C2 : collected e b2 s1 s2) by (apply Hstep; auto; lia).
    destruct (collected_next e b2 s1 s2 1 C2 N1 H2' L1)
      as (N2 & L2 & I2 & E2 & K2 & O2 & M2).
    assert (H3' : includes (nonStatic (getAllBodies e s2)) b3 = true)
      by (rewrite I2, I1 by auto; exact H3).
    assert (C3 : collected e b3 s2 s3) by (apply Hstep; auto; lia).
    destruct (collected_next e b3 s2 s3 0 C3 N2 H3' L2)
      as (N3 & L3 & I3 & E3 & K3 & O3 & M3).
    cbn [Nat.eqb] in O1, O2, O3, M1, M2, M3.
    destruct (collect_when_over e b4 s3 collect Hcollect O3) as [O4 M4].
    fold s4 in O4, M4.
    repeat split; try assumption; lia.
Qed.

Lemma game_over_fires_once_witness :
  let bodies := [Scene.ball 1 100 100; Scene.ball 2 200 100; Scene.ball 3 300 100] in
  let s0 := setInitialBodyCount 3 (Scene.start bodies) in
  let s1 := collectPolled Scene.theEngine (Scene.ball 1 100 100) s0 in
  let s2 := collectPolled Scene.theEngine (Scene.ball 2 200 100) s1 in
  let s3 := collectPolled Scene.theEngine (Scene.ball 3 300 100) s2 in
  isGameOver (manager s2) = false /\ isGameOver (manager s3) = true.
Proof.
  intros bodies s0 s1 s2 s3.
  assert (W := proj2 (proj2 game_over_fires_once) Scene.theEngine
                 (Scene.ball 1 100 100) (Scene.ball 2 200 100)
                 (Scene.ball 3 300 100) (Scene.ball 3 300 100)
                 (Scene.start bodies) (collectPolled Scene.theEngine)).
  cbv zeta in W. fold s0 s1 s2 s3 in W.
  destruct W as (_ & W2 & W3 & _).
  - left. reflexivity.
  - reflexivity.
  - reflexivity.
  - apply NoDup_ListNoDup, (bool_decide_unpack _). vm_compute. exact I.
  - vm_compute. reflexivity.
  - vm_compute. reflexivity.
  - vm_compute. reflexivity.
  - vm_compute. reflexivity.
  - vm_compute. lia.
  - vm_compute. lia.
  - vm_compute. lia.
  - split; assumption.
Defined.

(** The claim of C7 as it is written (every call of [addScore], whatever
    its argument, leaves the score at least as high) fails: the score goes
    from 0 to -1. *)
Lemma addScore_negative_decreases :
  getScore (initial ∅ 0) = 0%Z
  /\ getScore (addScore (-1) (initial ∅ 0)) = (-1)%Z
  /\ (getScore (run [AddScore (-1)] (initial ∅ 0)) < getScore (initial ∅ 0))%Z.
Proof. vm_compute. repeat split. Qed.

(** C7, amended.  Without a reset the score never decreases as long as no
    [addScore] is given a negative number of points: over any run of calls
    of [addScore] with points at least 0 (the default 1 among them),
    [addAttempt], [checkGameOver], [setInitialBodyCount] and changes of the
    world, the score after each call is at least the score before it. *)
Theorem score_never_decreases (before after : list Call) (c : Call) (s : Sys) :
  forallb nonNegative (before ++ c :: after) = true ->
  (getScore (run before s) <= getScore (run (before ++ [c]) s))%Z
  /\ (getScore s <= getScore (run (before ++ c :: after) s))%Z.
Proof.
  assert (Hstep : forall c s, nonNegative c = true ->
            (getScore s <= getScore (call c s))%Z).
  { intros c' s' H. unfold getScore.
    destruct (call_frame c' s') as (_ & _ & -> & _).
    destruct c'; cbn in H; lia. }
  assert (Hrun : forall cs s, forallb nonNegative cs = true ->
            (getScore s <= getScore (run cs s))%Z).
  { induction cs as [|c' cs IH]; intros s' H; [cbn; lia|].
    cbn [forallb] in H. apply andb_true_iff in H as [H1 H2].
    rewrite run_cons. specialize (IH (call c' s') H2).
    specialize (Hstep c' s' H1). lia. }
  intros H. split.
  - rewrite run_app. rewrite forallb_app in H.
    apply andb_true_iff in H as [_ H]. cbn [forallb] in H.
    apply andb_true_iff in H as [H _]. now apply Hstep.
  - now apply Hrun.
Qed.

Lemma score_never_decreases_witness :
  (getScore (run [AddScore 1; AddAttempt 1] (initial ∅ 0))
   <= getScore (run ([AddScore 1; AddAttempt 1] ++ [AddScore 2]) (initial ∅ 0)))%Z.
Proof.
  apply (score_never_decreases [AddScore 1; AddAttempt 1] [CheckGameOver]
           (AddScore 2) (initial ∅ 0)).
  reflexivity.
Defined.

(** C8.  [resetGame] sets the score to 0, the attempts to 0 and clears the
    game-over flag, whatever the state it is called in (a finished game
    included). *)
Theorem resetGame_resets (s : Sys) :
  getScore (resetGame s) = 0%Z
  /\ getAttempts (resetGame s) = 0%Z
  /\ isGameOver (manager (resetGame s)) = false.
Proof. repeat split. Qed.

(** C10.  [resetGame] writes the score, the attempts and the game-over flag
    (and refreshes the two displays) and nothing else: the initial body
    count, the engine reference, the restart callback and every world are
    as before.  So the game-over test after a reset still reads the body
    count set before it, until [setInitialBodyCount] stores a new one. *)
Theorem resetGame_frame (s : Sys) :
  initialBodyCount (manager (resetGame s)) = initialBodyCount (manager s)
  /\ engine (manager (resetGame s)) = engine (manager s)
  /\ restartCallback (manager (resetGame s)) = restartCallback (manager s)
  /\ worlds (resetGame s) = worlds s
  /\ nextId (resetGame s) = nextId s
  /\ trace (resetGame s) = trace s ++ [ScoreDisplay 0; AttemptsDisplay 0]
  /\ isGameOver (manager (checkGameOver (resetGame s))) =
       match engine (manager s) with
       | Some e =>
         Nat.eqb (length (nonStatic (getAllBodies e s))) 0
         && (initialBodyCount (manager s) >? 0)%Z
       | None => false
       end
  /\ (forall count : Z,
        initialBodyCount (manager (setInitialBodyCount count (resetGame s)))
        = count).
Proof.
  repeat split.
  - unfold resetGame, resetScore, resetAttempts. observe.
    now rewrite <- app_assoc.
  - destruct (checkGameOver_frame (resetGame s))
      as (_ & _ & _ & _ & _ & _ & _ & -> & _).
    reflexivity.
Qed.

(** ** The polling path *)

Section Polling.

Variable this : BoundaryBox.t.

Let e : EngineRef := BoundaryBox.engine this.
Let inBox : Body -> bool := BoundaryBox.isBodyInBox this.

(** One turn of the loop: a body that passes the test is removed, scored
    and announced; any other body is skipped. *)
Lemma checkBody_turn (s : Sys) (body : Body) :
  let s' := BoundaryBox.checkBody this s body in
  let n := if inBox body then 1%nat else 0%nat in
  getAllBodies e s' =
    (if inBox body then Matter.remove (getAllBodies e s) body
     else getAllBodies e s)
  /\ getScore s' = (getScore s + Z.of_nat n)%Z
  /\ scoreIncreases (trace s') = (scoreIncreases (trace s) + n)%nat
  /\ entered (trace s') =
       entered (trace s) ++ (if inBox body then [id body] else []).
Proof.
  cbv zeta. unfold BoundaryBox.checkBody. fold inBox e.
  destruct (inBox body).
  - set (r := removeBody e body s).
    destruct (addScore_frame 1 r) as (Hw & _ & Hs & _ & _ & _ & _ & _ & _ & Hi & He).
    unfold getScore. observe. rewrite Hs, Hi, He.
    change (manager r) with (manager s). change (trace r) with (trace s).
    repeat split; try (reflexivity || lia).
    unfold getAllBodies at 1. rewrite Hw.
    apply getAllBodies_removeBody.
  - rewrite app_nil_r. repeat split; lia.
Qed.

(** The loop over any list of bodies. *)
Lemma checkBody_loop (l : list Body) (s : Sys) :
  let s' := fold_left (BoundaryBox.checkBody this) l s in
  let hits := List.filter inBox l in
  getAllBodies e s' = fold_left Matter.remove hits (getAllBodies e s)
  /\ getScore s' = (getScore s + Z.of_nat (length hits))%Z
  /\ scoreIncreases (trace s') = (scoreIncreases (trace s) + length hits)%nat
  /\ entered (trace s') = entered (trace s) ++ map id hits.
Proof.
  revert s. induction l as [|body l IH]; intros s; cbv zeta.
  - cbn. rewrite app_nil_r. repeat split; lia.
  - cbn [fold_left List.filter].
    destruct (IH (BoundaryBox.checkBody this s body)) as (-> & -> & -> & ->).
    destruct (checkBody_turn s body) as (-> & -> & -> & ->).
    destruct (inBox body); cbn [fold_left map length];
      rewrite <- ?app_assoc, ?app_nil_r; repeat split; cbn; lia.
Qed.

End Polling.

(** Removing a list of bodies from a world where every body occurs once. *)
Lemma fold_remove_filter (l : list Body) (w : World) :
  List.NoDup (map id w) ->
  fold_left Matter.remove l w = List.filter (fun c => negb (includes l c)) w.
Proof.
  revert w. induction l as [|b l IH]; intros w N.
  - cbn. induction w as [|c w IHw]; [reflexivity|]. cbn. f_equal.
    inversion N; subst. now apply IHw.
  - cbn [fold_left]. rewrite (remove_filter w b N).
    rewrite IH by now apply NoDup_ids_filter.
    clear. induction w as [|c w IHw]; [reflexivity|]. cbn.
    destruct (same c b); cbn; rewrite IHw; reflexivity.
Qed.

(** In such a world a body is known by its identity. *)
Lemma same_id_same_body (w : World) (c d : Body) :
  List.NoDup (map id w) -> In c w -> In d w -> id c = id d -> c = d.
Proof.
  induction w as [|a w IH]; cbn [map]; [contradiction|]. intros N.
  inversion N as [|? ? Ha N']; subst.
  intros [->|Hc] [->|Hd] E; auto.
  - exfalso. apply Ha. rewrite E. now apply in_map.
  - exfalso. apply Ha. rewrite <- E. now apply in_map.
Qed.

Lemma includes_In (l : list Body) (c : Body) :
  includes l c = true <-> exists d, In d l /\ id c = id d.
Proof.
  unfold includes. rewrite existsb_exists. unfold same.
  setoid_rewrite Nat.eqb_eq. reflexivity.
Qed.



(** ** The collision path *)

(** One turn of the listener's loop on a pair of a wall and a movable body
    whose centre is strictly inside the box: the body is scored, whether or
    not it is still in the world. *)
Lemma collide_scores (this : BoundaryBox.t) (s : Sys) (wall b : Body) :
  includes (BoundaryBox.boxParts this) wall = true ->
  includes (BoundaryBox.boxParts this) b = false ->
  isStatic b = false ->
  BoundaryBox.isBodyInsideBox this b = true ->
  let s' := BoundaryBox.collide this s (BoundaryBox.mkPair wall b) in
  s' = collectCollided (BoundaryBox.engine this) b s
  /\ getScore s' = (getScore s + 1)%Z
  /\ scoreIncreases (trace s') = S (scoreIncreases (trace s)).
Proof.
  intros Hwall Hb Hstatic Hinside. cbv zeta.
  unfold BoundaryBox.collide. cbn [BoundaryBox.bodyA BoundaryBox.bodyB].
  rewrite Hwall, Hb, Hstatic, Hinside. cbn [negb andb].
  fold (collectCollided (BoundaryBox.engine this) b s).
  split; [reflexivity|]. unfold collectCollided, getScore.
  destruct (checkGameOver_frame
              (removeBody (BoundaryBox.engine this) b (addScore 1 s)))
    as (_ & _ & -> & _ & _ & _ & _ & _ & _ & -> & _).
  change (manager (removeBody ?e ?c ?t)) with (manager t).
  change (trace (removeBody ?e ?c ?t)) with (trace t).
  destruct (addScore_frame 1 s) as (_ & _ & -> & _ & _ & _ & _ & _ & _ & -> & _).
  split; reflexivity.
Qed.

(** Two pairs of one "collisionStart" event with the same body score it
    twice. *)
Lemma onCollisionStart_two_walls (this : BoundaryBox.t) (s : Sys)
      (wall1 wall2 b : Body) :
  includes (BoundaryBox.boxParts this) wall1 = true ->
  includes (BoundaryBox.boxParts this) wall2 = true ->
  includes (BoundaryBox.boxParts this) b = false ->
  isStatic b = false ->
  BoundaryBox.isBodyInsideBox this b = true ->
  let s' := BoundaryBox.onCollisionStart this
              [BoundaryBox.mkPair wall1 b; BoundaryBox.mkPair wall2 b] s in
  getScore s' = (getScore s + 2)%Z
  /\ scoreIncreases (trace s') = S (S (scoreIncreases (trace s))).
Proof.
  intros H1 H2 Hb Hstatic Hinside. cbv zeta.
  unfold BoundaryBox.onCollisionStart. cbn [fold_left].
  destruct (collide_scores this s wall1 b H1 Hb Hstatic Hinside) as (_ & E1 & I1).
  destruct (collide_scores this
              (BoundaryBox.collide this s (BoundaryBox.mkPair wall1 b))
              wall2 b H2 Hb Hstatic Hinside) as (_ & E2 & I2).
  cbv zeta in E1, I1, E2, I2. rewrite E2, I2, E1, I1. split; [lia|reflexivity].
Qed.

(** C3.  On the collision path one body can be scored twice.  A ball of
    radius 20 with its centre at (720, 490), strictly inside the box
    [x: 700..880, y: 370..510], touches the left wall and the bottom wall;
    a "collisionStart" event that carries both pairs removes the ball from
    the world once but raises the score from 0 to 2 and announces two score
    increases: the second pair is processed although the ball is no longer
    in the world. *)
Theorem collision_scores_one_body_twice :
  let ball := Scene.ball 1 720 490 in
  let this := Scene.box [ball] in
  let s := Scene.start [ball] in
  let pairs := [BoundaryBox.mkPair Scene.leftBox ball;
                BoundaryBox.mkPair ball Scene.bottomBox] in
  let after := BoundaryBox.onCollisionStart this pairs s in
  includes (BoundaryBox.boxParts this) Scene.leftBox = true
  /\ includes (BoundaryBox.boxParts this) Scene.bottomBox = true
  /\ BoundaryBox.isBodyInsideBox this ball = true
  /\ nonStatic (getAllBodies Scene.theEngine s) = [ball]
  /\ nonStatic (getAllBodies Scene.theEngine after) = []
  /\ getScore s = 0%Z
  /\ getScore after = 2%Z
  /\ scoreIncreases (trace s) = 0%nat
  /\ scoreIncreases (trace after) = 2%nat.
Proof. vm_compute. repeat split. Qed.

(** * Further properties *)

(** ** Totals of a game *)

Lemma call_attempts (c : Call) (s : Sys) :
  attempts (manager (call c s)) = (attempts (manager s) + attemptsOf c)%Z.
Proof.
  destruct c; cbn [call attemptsOf].
  - destruct (addScore_frame points s) as (_ & _ & _ & -> & _). lia.
  - unfold addAttempt. observe. reflexivity.
  - destruct (checkGameOver_frame s) as (_ & _ & _ & -> & _). lia.
  - observe. lia.
  - unfold removeBody. observe. lia.
  - unfold addBody. observe. lia.
Qed.

Lemma staysSafe_end (cs : list Call) (s : Sys) :
  staysSafe cs s = true ->
  safeInteger (getScore (run cs s)) = true
  /\ safeInteger (getAttempts (run cs s)) = true.
Proof.
  revert s. induction cs as [|c cs IH]; intros s H.
  - cbn in H. apply andb_prop in H as [H _]. apply andb_prop in H as [H1 H2].
    now split.
  - rewrite run_cons. apply IH. cbn [staysSafe] in H.
    apply andb_prop in H as [_ H]. now apply andb_prop in H as [_ H].
Qed.

(** X1.  Over any run of steps without a reset, whether or not the game
    ends on the way, in which the amounts given and the two counters stay
    safe integers (magnitude below [2^53], where the additions of the code
    are exact): the score grows by the sum of the points given to
    [addScore] and the attempts by the sum of the counts given to
    [addAttempt]; right after a reset both totals are these sums. *)
Theorem run_totals (cs : list Call) (s : Sys) :
  (staysSafe cs s = true ->
   getScore (run cs s) = (getScore s + total pointsOf cs)%Z
   /\ getAttempts (run cs s) = (getAttempts s + total attemptsOf cs)%Z
   /\ safeInteger (getScore (run cs s)) = true
   /\ safeInteger (getAttempts (run cs s)) = true)
  /\ (staysSafe cs (resetGame s) = true ->
      getScore (run cs (resetGame s)) = total pointsOf cs
      /\ getAttempts (run cs (resetGame s)) = total attemptsOf cs
      /\ safeInteger (total pointsOf cs) = true
      /\ safeInteger (total attemptsOf cs) = true).
Proof.
  assert (H : forall cs s,
             getScore (run cs s) = (getScore s + total pointsOf cs)%Z
             /\ getAttempts (run cs s) = (getAttempts s + total attemptsOf cs)%Z).
  { clear. induction cs as [|c cs IH]; intros s.
    - cbn. unfold total. cbn. split; lia.
    - rewrite run_cons. destruct (IH (call c s)) as [-> ->].
      unfold getScore, getAttempts, total. cbn [map fold_right].
      rewrite call_attempts.
      destruct (call_frame c s) as (_ & _ & -> & _).
      fold (pointsOf c). split; lia. }
  split; intros Hsafe; apply staysSafe_end in Hsafe as [S1 S2].
  - destruct (H cs s) as [E1 E2]. repeat split; assumption.
  - destruct (H cs (resetGame s)) as [E1 E2].
    assert (Z1 : getScore (resetGame s) = 0%Z) by reflexivity.
    assert (Z2 : getAttempts (resetGame s) = 0%Z) by reflexivity.
    rewrite Z1 in E1. rewrite Z2 in E2. cbn [Z.add] in E1, E2.
    rewrite E1 in S1. rewrite E2 in S2. repeat split; assumption.
Qed.

Lemma run_totals_witness :
  getScore (run [AddScore 2; AddAttempt 1; AddScore 3] (initial ∅ 0)) = 5%Z.
Proof.
  destruct (proj1 (run_totals [AddScore 2; AddAttempt 1; AddScore 3] (initial ∅ 0)))
    as [H _]; [vm_compute; reflexivity|exact H].
Defined.

(** ** The guards of the game-over test *)

Lemma call_initialBodyCount (c : Call) (s : Sys) :
  initialBodyCount (manager (call c s)) =
    match c with
    | SetInitialBodyCount count => count
    | _ => initialBodyCount (manager s)
    end.
Proof.
  destruct c; cbn [call].
  - now destruct (addScore_frame points s) as (_ & _ & _ & _ & _ & -> & _).
  - reflexivity.
  - now destruct (checkGameOver_frame s) as (_ & _ & _ & _ & _ & -> & _).
  - reflexivity.
  - reflexivity.
  - reflexivity.
Qed.

Lemma fires_unarmed (s : Sys) :
  engine (manager s) = None \/ (initialBodyCount (manager s) <= 0)%Z ->
  fires s = false.
Proof.
  unfold fires. intros [-> | H].
  - apply andb_false_r.
  - destruct (engine (manager s)); [|apply andb_false_r].
    replace (initialBodyCount (manager s) >? 0)%Z with false by lia.
    now rewrite !andb_false_r.
Qed.

(** X2.  A game whose manager has no engine set, or whose initial body
    count is 0 or less and stays so, never ends: whatever steps follow,
    even with every body removed from every world, the flag stays clear
    and the modal is not shown. *)
Theorem unarmed_game_never_ends (cs : list Call) (s : Sys) :
  isGameOver (manager s) = false ->
  engine (manager s) = None
  \/ ((initialBodyCount (manager s) <= 0)%Z
      /\ forallb keepsCountLow cs = true) ->
  isGameOver (manager (run cs s)) = false
  /\ modalsShown (trace (run cs s)) = modalsShown (trace s).
Proof.
  revert s. induction cs as [|c cs IH]; intros s Hover Hguard; [auto|].
  rewrite run_cons.
  assert (F : fires s = false) by (apply fires_unarmed; tauto).
  destruct (call_frame c s) as (He & _ & _ & Ho & Hm). cbv zeta in *.
  rewrite F, andb_false_r in Ho, Hm. rewrite orb_false_r in Ho.
  rewrite Nat.add_0_r in Hm. rewrite <- Hm. apply IH; [congruence|].
  destruct Hguard as [Hnone | [Hcount Hlow]].
  - left. congruence.
  - right. cbn [forallb] in Hlow. apply andb_true_iff in Hlow as [Hc Hlow].
    split; [|exact Hlow]. rewrite call_initialBodyCount.
    destruct c; cbn in Hc; lia.
Qed.

Lemma unarmed_game_never_ends_witness :
  isGameOver (manager (run [RemoveBody 0 (Scene.ball 1 100 100); AddScore 1;
                            CheckGameOver]
                         (initial {[ 0%nat := [Scene.ball 1 100 100] ]} 2)))
  = false.
Proof.
  apply (unarmed_game_never_ends
           [RemoveBody 0 (Scene.ball 1 100 100); AddScore 1; CheckGameOver]
           (initial {[ 0%nat := [Scene.ball 1 100 100] ]} 2)).
  - reflexivity.
  - left. reflexivity.
Defined.

(** ** What the page shows *)

Lemma shownScore_snoc (t : list Effect) (e : Effect) :
  shownScore (t ++ [e]) =
    match e with ScoreDisplay n => Some n | _ => shownScore t end.
Proof.
  unfold shownScore. rewrite flat_map_app, last_app.
  destruct e; reflexivity.
Qed.

Lemma shownAttempts_snoc (t : list Effect) (e : Effect) :
  shownAttempts (t ++ [e]) =
    match e with AttemptsDisplay n => Some n | _ => shownAttempts t end.
Proof.
  unfold shownAttempts. rewrite flat_map_app, last_app.
  destruct e; reflexivity.
Qed.

Lemma modalUp_snoc (t : list Effect) (e : Effect) :
  modalUp (t ++ [e]) =
    match e with
    | ModalShown => Some true
    | ModalHidden => Some false
    | _ => modalUp t
    end.
Proof.
  unfold modalUp. rewrite flat_map_app, last_app.
  destruct e; reflexivity.
Qed.

Lemma shownFinal_snoc (t : list Effect) (e : Effect) :
  shownFinal (t ++ [e]) =
    match e with FinalStats sc n => Some (sc, n) | _ => shownFinal t end.
Proof.
  unfold shownFinal. rewrite flat_map_app, last_app.
  destruct e; reflexivity.
Qed.

(** What the page shows after [checkGameOver]. *)
Lemma checkGameOver_shows (s : Sys) :
  let s' := checkGameOver s in
  shownScore (trace s') = shownScore (trace s)
  /\ shownAttempts (trace s') = shownAttempts (trace s)
  /\ modalUp (trace s') = (if fires s then Some true else modalUp (trace s))
  /\ shownFinal (trace s') =
       (if fires s then Some (score (manager s), attempts (manager s))
        else shownFinal (trace s)).
Proof.
  cbv zeta. rewrite checkGameOver_fires. destruct (fires s); [|auto].
  unfold showGameOverModal, setIsGameOver, emit, withManager.
  cbn [trace manager score attempts].
  now rewrite !shownScore_snoc, !shownAttempts_snoc, !modalUp_snoc,
    !shownFinal_snoc.
Qed.

(** What the page shows after a step. *)
Lemma call_shows (c : Call) (s : Sys) :
  let s' := call c s in
  shownScore (trace s') =
    match c with
    | AddScore _ => Some (score (manager s'))
    | _ => shownScore (trace s)
    end
  /\ shownAttempts (trace s') =
       match c with
       | AddAttempt _ => Some (attempts (manager s'))
       | _ => shownAttempts (trace s)
       end
  /\ modalUp (trace s') =
       (if tests c && fires s then Some true else modalUp (trace s))
  /\ shownFinal (trace s') =
       (if tests c && fires s
        then Some (score (manager s'), attempts (manager s'))
        else shownFinal (trace s)).
Proof.
  destruct c; cbv zeta; cbn [call tests andb].
  - unfold addScore.
    set (s1 := emit _ (updateScoreDisplay (setScore _ s))).
    assert (F : fires s1 = fires s) by reflexivity.
    destruct (checkGameOver_shows s1) as (-> & -> & -> & ->).
    destruct (checkGameOver_frame s1) as (_ & _ & -> & -> & _).
    rewrite F. subst s1.
    unfold updateScoreDisplay, setScore, emit, withManager.
    cbn [trace manager score attempts].
    now rewrite !shownScore_snoc, !shownAttempts_snoc, !modalUp_snoc,
      !shownFinal_snoc.
  - unfold addAttempt, updateAttemptsDisplay, setAttempts, emit, withManager.
    cbn [trace manager score attempts].
    now rewrite !shownScore_snoc, !shownAttempts_snoc, !modalUp_snoc,
      !shownFinal_snoc.
  - destruct (checkGameOver_shows s) as (-> & -> & -> & ->).
    destruct (checkGameOver_frame s) as (_ & _ & -> & -> & _).
    auto.
  - unfold setInitialBodyCount, emit, withManager. cbn [trace].
    now rewrite !shownScore_snoc, !shownAttempts_snoc, !modalUp_snoc,
      !shownFinal_snoc.
  - auto.
  - auto.
Qed.

Lemma resetGame_shows (s : Sys) :
  shownScore (trace (resetGame s)) = Some 0%Z
  /\ shownAttempts (trace (resetGame s)) = Some 0%Z
  /\ modalUp (trace (resetGame s)) = modalUp (trace s).
Proof.
  unfold resetGame, resetScore, resetAttempts, updateScoreDisplay,
    updateAttemptsDisplay, setScore, setAttempts, setIsGameOver, emit,
    withManager.
  cbn [trace manager score attempts].
  now rewrite !shownScore_snoc, !shownAttempts_snoc, !modalUp_snoc.
Qed.

Section Page.

(** What a registered restart callback does to the system. *)
Variable run : Callback -> Sys -> Sys.

Lemma restartGame_unfold (s : Sys) :
  restartGame run s =
    match restartCallback (manager s) with
    | Some callback =>
      run callback (emit (Restarted callback) (resetGame (hideGameOverModal s)))
    | None => resetGame (hideGameOverModal s)
    end.
Proof. reflexivity. Qed.

(** X3.  The score display and the attempts display always show the score
    and the attempts of the game manager: this holds once the singleton is
    built, and every step of the game, every click on the restart button
    and every [resetGame] keeps it (given that the restart callback, if one
    is registered, keeps it). *)
Theorem displays_stay_in_sync :
  (forall callback s, displaysInSync s -> displaysInSync (run callback s)) ->
  (forall ws fresh, displaysInSync (initial ws fresh))
  /\ (forall actions s,
        displaysInSync s -> displaysInSync (play run actions s)).
Proof.
  intros Hrun. split.
  - intros ws fresh. split; reflexivity.
  - assert (Hreset : forall s, displaysInSync (resetGame s)).
    { intros s. destruct (resetGame_shows s) as (H1 & H2 & _).
      split; assumption. }
    induction actions as [|a actions IH]; intros s Hs; [exact Hs|].
    cbn [play fold_left]. apply IH. destruct a as [c| |]; cbn [act].
    + destruct Hs as [H1 H2].
      destruct (call_shows c s) as (E1 & E2 & _). cbv zeta in E1, E2.
      destruct (call_frame c s) as (_ & _ & Hsc & _). cbv zeta in Hsc.
      assert (Hat := call_attempts c s).
      split.
      * rewrite E1. destruct c; try reflexivity;
          rewrite H1, Hsc; f_equal; lia.
      * rewrite E2. destruct c; try reflexivity;
          rewrite H2, Hat; cbn [attemptsOf]; f_equal; lia.
    + rewrite restartGame_unfold.
      destruct (restartCallback (manager s)); [|apply Hreset].
      apply Hrun. destruct (Hreset (hideGameOverModal s)) as [H1 H2].
      split; unfold emit; cbn [trace manager].
      * rewrite shownScore_snoc. exact H1.
      * rewrite shownAttempts_snoc. exact H2.
    + apply Hreset.
Qed.

(** X4.  The game-over modal is up exactly while the game is over, as
    long as the game is reset through the restart button: every step and
    every click on the button keeps this (given that the restart callback,
    if there is one, keeps it).  The statistics written to the modal when
    the game ends are the score and the attempts right after the ending
    step.  A direct call of [resetGame] on a finished game breaks the
    agreement: the flag is cleared but the modal stays up. *)
Theorem modal_follows_game_over :
  (forall callback s, modalInSync s -> modalInSync (run callback s)) ->
  (forall ws fresh, modalInSync (initial ws fresh))
  /\ (forall actions s,
        forallb notResetGame actions = true ->
        modalInSync s -> modalInSync (play run actions s))
  /\ (forall c s,
        isGameOver (manager s) = false ->
        isGameOver (manager (call c s)) = true ->
        shownFinal (trace (call c s))
        = Some (getScore (call c s), getAttempts (call c s)))
  /\ (forall s,
        isGameOver (manager s) = true -> modalInSync s ->
        modalUp (trace (resetGame s)) = Some true
        /\ isGameOver (manager (resetGame s)) = false).
Proof.
  intros Hrun. split; [|split; [|split]].
  - intros ws fresh. reflexivity.
  - induction actions as [|a actions IH]; intros s Hall Hs; [exact Hs|].
    cbn [forallb] in Hall. apply andb_true_iff in Hall as [Ha Hall].
    cbn [play fold_left]. apply IH; [exact Hall|].
    destruct a as [c| |]; cbn [act]; [| |discriminate].
    + unfold modalInSync in *.
      destruct (call_shows c s) as (_ & _ & -> & _).
      destruct (call_frame c s) as (_ & _ & _ & -> & _).
      destruct (tests c && fires s); [now rewrite orb_true_r|].
      now rewrite orb_false_r.
    + rewrite restartGame_unfold.
      assert (H : forall e, e <> ModalShown ->
                modalInSync (emit e (resetGame (hideGameOverModal s)))).
      { intros e He. unfold modalInSync, emit. cbn [trace manager].
        rewrite modalUp_snoc.
        assert (E : modalUp (trace (resetGame (hideGameOverModal s)))
                    = Some false).
        { destruct (resetGame_shows (hideGameOverModal s)) as (_ & _ & ->).
          unfold hideGameOverModal, emit. cbn [trace]. apply modalUp_snoc. }
        destruct e; rewrite ?E; try reflexivity; congruence. }
      destruct (restartCallback (manager s)) as [callback|].
      * apply Hrun, H. discriminate.
      * unfold modalInSync.
        destruct (resetGame_shows (hideGameOverModal s)) as (_ & _ & ->).
        unfold hideGameOverModal, emit. cbn [trace].
        now rewrite modalUp_snoc.
  - intros c s Hbefore Hafter.
    destruct (call_shows c s) as (_ & _ & _ & ->).
    destruct (call_frame c s) as (_ & _ & _ & Ho & _). cbv zeta in Ho.
    rewrite Hafter, Hbefore in Ho. cbn in Ho. now rewrite <- Ho.
  - intros s Hover Hs. unfold modalInSync in Hs. rewrite Hover in Hs.
    destruct (resetGame_shows s) as (_ & _ & ->).
    split; [|reflexivity].
    destruct (modalUp (trace s)) as [[|]|]; cbn in Hs; congruence.
Qed.

End Page.

Lemma displays_stay_in_sync_witness :
  displaysInSync
    (play (fun _ s => s)
       [Step (AddScore 1); Step (AddAttempt 2); ClickRestart; Step (AddScore 3)]
       (initial ∅ 0)).
Proof.
  apply (proj2 (displays_stay_in_sync (fun _ s => s) (fun _ _ H => H))).
  apply (proj1 (displays_stay_in_sync (fun _ s => s) (fun _ _ H => H))).
Defined.

Lemma modal_follows_game_over_witness :
  modalInSync
    (play (fun _ s => s)
       [Step (SetInitialBodyCount 1); Step (AddScore 1); ClickRestart]
       (setEngine 0 (initial ∅ 0))).
Proof.
  apply (proj1 (proj2 (modal_follows_game_over (fun _ s => s) (fun _ _ H => H)))).
  - reflexivity.
  - reflexivity.
Defined.

(** ** More on the polling path *)

(** The world after a polling pass, when every body occurs once. *)
Lemma checkBodiesInBox_world (this : BoundaryBox.t) (s : Sys) :
  List.NoDup (map id (getAllBodies (BoundaryBox.engine this) s)) ->
  getAllBodies (BoundaryBox.engine this) (BoundaryBox.checkBodiesInBox this s)
  = List.filter (fun b => negb (settled this b))
      (getAllBodies (BoundaryBox.engine this) s).
Proof.
  intros N. set (before := getAllBodies (BoundaryBox.engine this) s) in *.
  unfold BoundaryBox.checkBodiesInBox. fold before.
  destruct (checkBody_loop this (nonStatic before) s) as (-> & _).
  fold before. rewrite (fold_remove_filter _ before N).
  apply filter_ext_in. intros c Hc. f_equal.
  apply eq_true_iff_eq. rewrite includes_In. unfold settled, nonStatic. split.
  - intros (d & Hd & E). apply filter_In in Hd as [Hd Hs].
    apply filter_In in Hd as [Hd Hm].
    rewrite (same_id_same_body before c d N Hc Hd E). now rewrite Hm, Hs.
  - intros Hs. apply andb_true_iff in Hs as [Hm Hs].
    exists c. split; [|reflexivity]. apply filter_In. split; [|exact Hs].
    apply filter_In. now split.
Qed.

(** A loop over bodies of which none passes the test does nothing. *)
Lemma checkBody_loop_none (this : BoundaryBox.t) (l : list Body) (s : Sys) :
  forallb (fun b => negb (BoundaryBox.isBodyInBox this b)) l = true ->
  fold_left (BoundaryBox.checkBody this) l s = s.
Proof.
  induction l as [|b l IH]; [reflexivity|]. cbn [forallb fold_left].
  intros H. apply andb_true_iff in H as [Hb H].
  unfold BoundaryBox.checkBody at 2.
  destruct (BoundaryBox.isBodyInBox this b); [discriminate|]. now apply IH.
Qed.

(** X5.  A second polling pass right after the first finds nothing left to
    collect: on a world in which every body occurs once, two passes in a
    row leave the system exactly as one pass does (no further removal, no
    further point, nothing more written). *)
Theorem checkBodiesInBox_idempotent (this : BoundaryBox.t) (s : Sys) :
  List.NoDup (map id (getAllBodies (BoundaryBox.engine this) s)) ->
  BoundaryBox.checkBodiesInBox this (BoundaryBox.checkBodiesInBox this s)
  = BoundaryBox.checkBodiesInBox this s.
Proof.
  intros N. unfold BoundaryBox.checkBodiesInBox at 1.
  rewrite (checkBodiesInBox_world this s N).
  apply checkBody_loop_none. apply forallb_forall. intros b Hb.
  unfold nonStatic in Hb. apply filter_In in Hb as [Hb Hm].
  apply filter_In in Hb as [_ Hs]. unfold settled in Hs.
  rewrite Hm in Hs. exact Hs.
Qed.

Lemma checkBodiesInBox_idempotent_witness :
  let bodies := [Scene.ball 1 750 480; Scene.ball 2 750 430] in
  let once := BoundaryBox.checkBodiesInBox (Scene.box bodies) (Scene.start bodies) in
  BoundaryBox.checkBodiesInBox (Scene.box bodies) once = once.
Proof.
  intros bodies once.
  apply (checkBodiesInBox_idempotent (Scene.box bodies) (Scene.start bodies)).
  apply NoDup_ListNoDup, (bool_decide_unpack _). vm_compute. exact I.
Defined.

Lemma nonStatic_remove_nil (w : World) (b : Body) :
  nonStatic w = [] -> nonStatic (Matter.remove w b) = [].
Proof.
  induction w as [|c w IH]; [reflexivity|]. unfold nonStatic in *. cbn.
  destruct (isStatic c) eqn:S; cbn; [|discriminate]. intros H.
  destruct (same c b); [exact H|]. cbn. rewrite S. cbn. now apply IH.
Qed.

(** A removal never brings a movable body into a world. *)
Lemma noneMovable_removeBody (e e' : EngineRef) (b : Body) (s : Sys) :
  noneMovable e' s = true -> noneMovable e' (removeBody e b s) = true.
Proof.
  unfold noneMovable. destruct (decide (e = e')) as [->|Hne].
  - rewrite getAllBodies_removeBody. intros H. apply Nat.eqb_eq in H.
    rewrite nonStatic_remove_nil; [reflexivity|].
    now destruct (nonStatic (getAllBodies e' s)).
  - now rewrite getAllBodies_removeBody_ne.
Qed.

Lemma fires_noneMovable (s : Sys) (e : EngineRef) :
  engine (manager s) = Some e ->
  fires s = negb (isGameOver (manager s)) && noneMovable e s
            && (initialBodyCount (manager s) >? 0)%Z.
Proof. apply fires_engine. Qed.

Section PollingAndGameOver.

Variable this : BoundaryBox.t.
Variable e' : EngineRef.

(** One turn of the loop, as far as the game manager is concerned. *)
Lemma checkBody_turn_flag (s : Sys) (body : Body) :
  engine (manager s) = Some e' ->
  let s' := BoundaryBox.checkBody this s body in
  let hit := BoundaryBox.isBodyInBox this body in
  engine (manager s') = Some e'
  /\ initialBodyCount (manager s') = initialBodyCount (manager s)
  /\ (noneMovable e' s = true -> noneMovable e' s' = true)
  /\ isGameOver (manager s') =
       isGameOver (manager s)
       || (hit && noneMovable e' s' && (initialBodyCount (manager s) >? 0)%Z)
  /\ modalsShown (trace s') =
       (modalsShown (trace s)
        + if negb (isGameOver (manager s)) && isGameOver (manager s')
          then 1 else 0)%nat.
Proof.
  intros He. cbv zeta. unfold BoundaryBox.checkBody.
  destruct (BoundaryBox.isBodyInBox this body).
  - set (r := removeBody (BoundaryBox.engine this) body s).
    destruct (addScore_frame 1 r)
      as (Hw & _ & _ & _ & Hen & Hc & _ & Ho & Hm & _).
    assert (Hnm : noneMovable e' (emit (LogEntered (id body)) (addScore 1 r))
                  = noneMovable e' r).
    { unfold noneMovable, getAllBodies, emit. cbn [worlds]. now rewrite Hw. }
    rewrite Hnm. unfold emit at 1 2 3 4 5. cbn [manager trace].
    rewrite modalsShown_app, Hen, Hc, Ho, Hm.
    change (manager r) with (manager s). change (trace r) with (trace s).
    rewrite (fires_noneMovable r e') by exact He.
    change (manager r) with (manager s).
    repeat split; try assumption.
    + intros H. now apply noneMovable_removeBody.
    + now destruct (isGameOver (manager s)).
    + cbn. destruct (isGameOver (manager s)),
        (noneMovable e' r && (initialBodyCount (manager s) >? 0)%Z);
        cbn; lia.
  - rewrite orb_false_r. repeat split; try assumption; try tauto.
    destruct (isGameOver (manager s)); cbn; lia.
Qed.

(** The loop, as far as the game manager is concerned. *)
Lemma checkBody_loop_flag (l : list Body) (s : Sys) :
  engine (manager s) = Some e' ->
  let s' := fold_left (BoundaryBox.checkBody this) l s in
  engine (manager s') = Some e'
  /\ initialBodyCount (manager s') = initialBodyCount (manager s)
  /\ (noneMovable e' s = true -> noneMovable e' s' = true)
  /\ isGameOver (manager s') =
       isGameOver (manager s)
       || (existsb (BoundaryBox.isBodyInBox this) l && noneMovable e' s'
           && (initialBodyCount (manager s) >? 0)%Z)
  /\ modalsShown (trace s') =
       (modalsShown (trace s)
        + if negb (isGameOver (manager s)) && isGameOver (manager s')
          then 1 else 0)%nat.
Proof.
  intros He. induction l as [|b l IH] using rev_ind; cbv zeta.
  - cbn. rewrite orb_false_r. repeat split; try assumption; try tauto.
    destruct (isGameOver (manager s)); cbn; lia.
  - rewrite fold_left_app, existsb_app. cbn [fold_left existsb].
    cbv zeta in IH. destruct IH as (E1 & C1 & N1 & O1 & M1).
    set (sl := fold_left (BoundaryBox.checkBody this) l s) in *.
    destruct (BoundaryBox.isBodyInBox this b) eqn:Hb.
    + destruct (checkBody_turn_flag sl b E1) as (E2 & C2 & N2 & O2 & M2).
      cbv zeta in C2, N2, O2, M2. rewrite Hb in O2.
      set (s' := BoundaryBox.checkBody this sl b) in *.
      rewrite C1 in O2. rewrite C2, C1, M2, M1, O2, O1.
      repeat split; try assumption; try tauto;
        destruct (isGameOver (manager s)), (existsb _ l),
          (noneMovable e' sl) eqn:A, (noneMovable e' s') eqn:B,
          (initialBodyCount (manager s) >? 0)%Z;
          try reflexivity; try (cbn; lia); specialize (N2 eq_refl);
          discriminate.
    + assert (Hsame : BoundaryBox.checkBody this sl b = sl)
        by (unfold BoundaryBox.checkBody; now rewrite Hb).
      rewrite Hsame, !orb_false_r. repeat split; assumption.
Qed.

End PollingAndGameOver.

Lemma length_filter_negb_zero {A : Type} (f : A -> bool) (l : list A) :
  Nat.eqb (length (List.filter (fun a => negb (f a)) l)) 0 = forallb f l.
Proof.
  induction l as [|a l IH]; [reflexivity|]. cbn.
  destruct (f a); cbn; [exact IH|reflexivity].
Qed.

Lemma existsb_forallb {A : Type} (f : A -> bool) (l : list A) :
  existsb f l && forallb f l = negb (Nat.eqb (length l) 0) && forallb f l.
Proof.
  destruct l as [|a l]; [reflexivity|]. cbn.
  destruct (f a); cbn; [reflexivity|]. now rewrite andb_false_r.
Qed.

(** After a polling pass no movable body is left exactly if every movable
    body passed the test. *)
Lemma noneMovable_after_pass (this : BoundaryBox.t) (s : Sys) :
  let e := BoundaryBox.engine this in
  List.NoDup (map id (getAllBodies e s)) ->
  noneMovable e (BoundaryBox.checkBodiesInBox this s)
  = forallb (BoundaryBox.isBodyInBox this) (nonStatic (getAllBodies e s)).
Proof.
  intros e N. subst e. unfold noneMovable.
  rewrite (checkBodiesInBox_world this s N), nonStatic_filter.
  rewrite <- length_filter_negb_zero. do 2 f_equal.
  apply filter_ext_in. intros b Hb. unfold nonStatic in Hb.
  apply filter_In in Hb as [_ Hm]. unfold settled. now rewrite Hm.
Qed.

(** X6.  The polling pass ends the game exactly when it collects the last
    movable bodies.  With the game manager wired to the engine of the box
    and every body occurring once in its world: after the pass the game is
    over if it was over before, or if the world held at least one movable
    body, every movable body passed the settled test, and the initial body
    count is positive; the modal is shown once if the pass ended the game
    and not otherwise. *)
Theorem polling_pass_ends_game (this : BoundaryBox.t) (s : Sys) :
  let e := BoundaryBox.engine this in
  let movable := nonStatic (getAllBodies e s) in
  let after := BoundaryBox.checkBodiesInBox this s in
  List.NoDup (map id (getAllBodies e s)) ->
  engine (manager s) = Some e ->
  isGameOver (manager after) =
    isGameOver (manager s)
    || (negb (noneMovable e s)
        && forallb (BoundaryBox.isBodyInBox this) movable
        && (initialBodyCount (manager s) >? 0)%Z)
  /\ modalsShown (trace after) =
       (modalsShown (trace s)
        + if negb (isGameOver (manager s)) && isGameOver (manager after)
          then 1 else 0)%nat.
Proof.
  intros e movable after N He.
  destruct (checkBody_loop_flag this e movable s He) as (_ & _ & _ & Ho & Hm).
  cbv zeta in Ho, Hm.
  change (fold_left (BoundaryBox.checkBody this) movable s) with after
    in Ho, Hm.
  split; [|exact Hm].
  rewrite Ho. f_equal. f_equal.
  assert (Hn := noneMovable_after_pass this s N). cbv zeta in Hn.
  fold e movable after in Hn. rewrite Hn, existsb_forallb. reflexivity.
Qed.

Lemma polling_pass_ends_game_witness :
  let bodies := [Scene.ball 1 750 480; Scene.ball 2 800 500] in
  isGameOver
    (manager (BoundaryBox.checkBodiesInBox (Scene.box bodies)
                (setInitialBodyCount 2 (Scene.start bodies))))
  = true.
Proof.
  intros bodies.
  destruct (polling_pass_ends_game (Scene.box bodies)
              (setInitialBodyCount 2 (Scene.start bodies))) as [H _].
  - apply NoDup_ListNoDup, (bool_decide_unpack _). vm_compute. exact I.
  - reflexivity.
  - rewrite H. vm_compute. reflexivity.
Defined.

(** ** More on the collision path *)

(** One turn of the listener's loop. *)
Lemma collide_scoring (this : BoundaryBox.t) (s : Sys) (pair : BoundaryBox.Pair) :
  BoundaryBox.collide this s pair =
    if scoring this pair
    then collectCollided (BoundaryBox.engine this) (otherBody this pair) s
    else s.
Proof.
  unfold BoundaryBox.collide, scoring, otherBody, collectCollided.
  destruct (includes (BoundaryBox.boxParts this) (BoundaryBox.bodyA pair)),
    (includes (BoundaryBox.boxParts this) (BoundaryBox.bodyB pair));
    cbn [negb andb orb]; try reflexivity.
  - destruct (isStatic (BoundaryBox.bodyB pair)); [reflexivity|].
    now destruct (BoundaryBox.isBodyInsideBox this (BoundaryBox.bodyB pair)).
  - destruct (isStatic (BoundaryBox.bodyB pair)); [reflexivity|].
    now destruct (BoundaryBox.isBodyInsideBox this (BoundaryBox.bodyB pair)).
  - destruct (isStatic (BoundaryBox.bodyA pair)); [reflexivity|].
    now destruct (BoundaryBox.isBodyInsideBox this (BoundaryBox.bodyA pair)).
Qed.



(** ** Building and resizing the box and the walls *)

Lemma fold_removeBody (e : EngineRef) (l : list Body) (s : Sys) :
  let s' := fold_left (fun s b => removeBody e b s) l s in
  getAllBodies e s' = fold_left Matter.remove l (getAllBodies e s)
  /\ manager s' = manager s /\ trace s' = trace s /\ nextId s' = nextId s.
Proof.
  revert s. induction l as [|b l IH]; intros s; [now cbn|].
  cbn [fold_left]. destruct (IH (removeBody e b s)) as (-> & -> & -> & ->).
  now rewrite getAllBodies_removeBody.
Qed.

Lemma getAllBodies_addBody (e : EngineRef) (bodies : list Body) (s : Sys) :
  getAllBodies e (addBody e bodies s) = getAllBodies e s ++ bodies.
Proof.
  unfold getAllBodies at 1, addBody. cbn [worlds].
  now rewrite lookup_insert_eq.
Qed.

Lemma getAllBodies_addBody_ne (e e' : EngineRef) (bodies : list Body) (s : Sys) :
  e <> e' -> getAllBodies e' (addBody e bodies s) = getAllBodies e' s.
Proof.
  intros H. unfold getAllBodies at 1, addBody. cbn [worlds].
  now rewrite lookup_insert_ne.
Qed.

(** A centre on the line of the left, right or bottom edge of the box fails
    both containment tests. *)
Lemma on_edge_outside (this : BoundaryBox.t) (body : Body) :
  let d := BoundaryBox.boxDimensions this in
  (x (position body) == BoundaryBox.Box.x d)%Q
  \/ (x (position body) == BoundaryBox.Box.x d + BoundaryBox.Box.width d)%Q
  \/ (y (position body) == BoundaryBox.Box.y d + BoundaryBox.Box.height d)%Q ->
  BoundaryBox.isBodyInsideBox this body = false
  /\ BoundaryBox.isBodyInBox this body = false.
Proof.
  intros d H. subst d. split; apply not_true_iff_false.
  - rewrite isBodyInsideBox_iff. intros (? & ? & ? & ?).
    destruct H as [H|[H|H]]; lra.
  - rewrite isBodyInBox_iff. intros (? & ? & ? & ?).
    destruct H as [H|[H|H]]; lra.
Qed.

(** X8.  What [createBoxParts] builds, on any canvas and whatever the box
    held before: three new static walls with fresh identities are pushed
    onto the box parts; their centres are the middle of the bottom edge,
    of the left edge and of the right edge of the box region; being on the
    edges, none of them passes either containment test; the world of the
    engine gets the whole list of box parts appended, and the game manager
    is not touched. *)
Theorem createBoxParts_walls (this0 : BoundaryBox.t) (s0 : Sys) :
  let this := fst (BoundaryBox.createBoxParts this0 s0) in
  let s := snd (BoundaryBox.createBoxParts this0 s0) in
  let d := BoundaryBox.boxDimensions this in
  let e := BoundaryBox.engine this0 in
  exists bottomBox leftBox rightBox,
    BoundaryBox.boxParts this
    = BoundaryBox.boxParts this0 ++ [bottomBox; leftBox; rightBox]
    /\ map id [bottomBox; leftBox; rightBox]
       = [nextId s0; S (nextId s0); S (S (nextId s0))]
    /\ nextId s = S (S (S (nextId s0)))
    /\ forallb isStatic [bottomBox; leftBox; rightBox] = true
    /\ (x (position bottomBox)
          == BoundaryBox.Box.x d + BoundaryBox.Box.width d / 2)%Q
    /\ (y (position bottomBox)
          == BoundaryBox.Box.y d + BoundaryBox.Box.height d)%Q
    /\ (x (position leftBox) == BoundaryBox.Box.x d)%Q
    /\ (y (position leftBox)
          == BoundaryBox.Box.y d + BoundaryBox.Box.height d / 2)%Q
    /\ (x (position rightBox)
          == BoundaryBox.Box.x d + BoundaryBox.Box.width d)%Q
    /\ (y (position rightBox)
          == BoundaryBox.Box.y d + BoundaryBox.Box.height d / 2)%Q
    /\ forallb (fun wall => negb (BoundaryBox.isBodyInsideBox this wall)
                            && negb (BoundaryBox.isBodyInBox this wall))
         [bottomBox; leftBox; rightBox] = true
    /\ getAllBodies e s = getAllBodies e s0 ++ BoundaryBox.boxParts this
    /\ manager s = manager s0.
Proof.
  cbv zeta. unfold BoundaryBox.createBoxParts. cbn [fst snd].
  do 3 eexists. split; [reflexivity|].
  cbn [BoundaryBox.boxDimensions BoundaryBox.boxParts BoundaryBox.engine].
  unfold BoundaryBox.BoxA_width, BoundaryBox.BoxA_height, rectangle.
  cbn [map id position isStatic forallb x y BoundaryBox.Box.x BoundaryBox.Box.y
       BoundaryBox.Box.width BoundaryBox.Box.height andb].
  repeat split; try reflexivity; try field.
  - rewrite !andb_true_r, !andb_true_iff, !negb_true_iff.
    repeat split; apply on_edge_outside;
      cbn [BoundaryBox.boxDimensions position x y BoundaryBox.Box.x
           BoundaryBox.Box.y BoundaryBox.Box.width BoundaryBox.Box.height].
    + right; right. field.
    + right; right. field.
    + left. field.
    + left. field.
    + right; left. field.
    + right; left. field.
  - rewrite getAllBodies_addBody. reflexivity.
Qed.

(** X9.  [BoundaryBox.resize] does not let go of the old walls.  The box
    parts are never emptied, so after a resize they are the old parts
    followed by three new walls; the old parts are taken out of the world
    and put back with the new ones, so every old wall is in the world
    after the resize (and still counts as a part of the box), while the
    box region follows the new canvas size. *)
Theorem BoundaryBox_resize_keeps_old_walls (w h : Q) (this : BoundaryBox.t)
    (s : Sys) :
  let this' := fst (BoundaryBox.resize w h this s) in
  let s' := snd (BoundaryBox.resize w h this s) in
  let e := BoundaryBox.engine this in
  let d := BoundaryBox.boxDimensions this' in
  length (BoundaryBox.boxParts this') = (length (BoundaryBox.boxParts this) + 3)%nat
  /\ firstn (length (BoundaryBox.boxParts this)) (BoundaryBox.boxParts this')
     = BoundaryBox.boxParts this
  /\ getAllBodies e s' =
       fold_left Matter.remove (BoundaryBox.boxParts this) (getAllBodies e s)
       ++ BoundaryBox.boxParts this'
  /\ (forall wall, In wall (BoundaryBox.boxParts this) ->
        In wall (getAllBodies e s')
        /\ includes (BoundaryBox.boxParts this') wall = true)
  /\ (BoundaryBox.Box.x d == w - 50.5 / 1.2 - 180)%Q
  /\ (BoundaryBox.Box.y d == h - 50.5 / 1.2 - 140)%Q
  /\ manager s' = manager s.
Proof.
  cbv zeta. unfold BoundaryBox.resize. cbn [BoundaryBox.engine BoundaryBox.boxParts].
  set (this1 := BoundaryBox.mk _ _ w h _).
  set (s1 := fold_left _ (BoundaryBox.boxParts this) s).
  destruct (fold_removeBody (BoundaryBox.engine this) (BoundaryBox.boxParts this) s)
    as (Hw & Hm & _ & _). fold s1 in Hw, Hm.
  destruct (createBoxParts_dimensions this1 s1) as (_ & _ & Hx & Hy).
  cbv zeta in Hx, Hy.
  assert (Hparts : BoundaryBox.boxParts (fst (BoundaryBox.createBoxParts this1 s1))
                   = BoundaryBox.boxParts this
                     ++ skipn (length (BoundaryBox.boxParts this))
                          (BoundaryBox.boxParts
                             (fst (BoundaryBox.createBoxParts this1 s1)))
                   /\ length (BoundaryBox.boxParts
                                (fst (BoundaryBox.createBoxParts this1 s1)))
                      = (length (BoundaryBox.boxParts this) + 3)%nat).
  { cbn [BoundaryBox.createBoxParts fst BoundaryBox.boxParts this1].
    unfold BoundaryBox.createBoxParts. cbn [fst BoundaryBox.boxParts].
    subst this1. cbn [BoundaryBox.boxParts].
    rewrite skipn_app, skipn_all, Nat.sub_diag, length_app. cbn. split; reflexivity. }
  destruct Hparts as [Hparts Hlen].
  assert (Hworld : getAllBodies (BoundaryBox.engine this)
                     (snd (BoundaryBox.createBoxParts this1 s1))
                   = getAllBodies (BoundaryBox.engine this) s1
                     ++ BoundaryBox.boxParts (fst (BoundaryBox.createBoxParts this1 s1))).
  { unfold BoundaryBox.createBoxParts. cbn [fst snd BoundaryBox.boxParts].
    rewrite getAllBodies_addBody. reflexivity. }
  repeat split.
  - exact Hlen.
  - rewrite Hparts at 1. rewrite firstn_app, firstn_all, Nat.sub_diag. cbn.
    apply app_nil_r.
  - rewrite Hworld, Hw. reflexivity.
  - rewrite Hworld. apply in_or_app. right. rewrite Hparts.
    apply in_or_app. now left.
  - apply includes_In. exists wall. split; [|reflexivity].
    rewrite Hparts. apply in_or_app. now left.
  - exact Hx.
  - exact Hy.
  - unfold BoundaryBox.createBoxParts. cbn [snd]. exact Hm.
Qed.

(** The same, with the walls of a box that was built and is resized for the
    first time: six walls are in the world afterwards. *)
Example BoundaryBox_resize_six_walls :
  let built := Scene.scene [] in
  let resized := BoundaryBox.resize 1000 700 (fst built) (snd built) in
  map id (getAllBodies Scene.theEngine (snd built)) = [100; 101; 102]%nat
  /\ map id (getAllBodies Scene.theEngine (snd resized))
     = [100; 101; 102; 103; 104; 105]%nat.
Proof. vm_compute. split; reflexivity. Qed.

(** X10.  [BoundaryWalls.resize] replaces the walls.  On a world in which
    every body occurs once and whose identities are all below the next
    fresh one, with the old walls among its bodies: after the resize the
    world is the old one without the old walls, followed by four new
    static walls at the middles of the four edges of the new canvas; no old
    wall is left in the world, and no other body is touched. *)
Theorem BoundaryWalls_resize_replaces (w h : Q) (this : BoundaryWalls.t)
    (s : Sys) :
  let this' := fst (BoundaryWalls.resize w h this s) in
  let s' := snd (BoundaryWalls.resize w h this s) in
  let e := BoundaryWalls.engine this in
  List.NoDup (map id (getAllBodies e s)) ->
  idsBelow e s ->
  Forall (fun wall => In wall (getAllBodies e s)) (BoundaryWalls.walls this) ->
  getAllBodies e s' =
    List.filter (fun b => negb (includes (BoundaryWalls.walls this) b))
      (getAllBodies e s)
    ++ BoundaryWalls.getWalls this'
  /\ map position (BoundaryWalls.getWalls this')
     = [mkVector (w / 2) h; mkVector 0 (h / 2); mkVector w (h / 2);
        mkVector (w / 2) 0]
  /\ forallb isStatic (BoundaryWalls.getWalls this') = true
  /\ Forall (fun wall => includes (getAllBodies e s') wall = false)
       (BoundaryWalls.walls this)
  /\ List.NoDup (map id (getAllBodies e s'))
  /\ idsBelow e s'.
Proof.
  intros this' s' e N B Hin.
  destruct (fold_removeBody e (BoundaryWalls.walls this) s) as (Hw & _ & _ & Hn).
  cbv zeta in Hw, Hn.
  set (s1 := fold_left (fun s b => removeBody e b s) (BoundaryWalls.walls this) s)
    in *.
  assert (Hworld : getAllBodies e s' =
            List.filter (fun b => negb (includes (BoundaryWalls.walls this) b))
              (getAllBodies e s)
            ++ BoundaryWalls.getWalls this').
  { subst s' this'. unfold BoundaryWalls.resize, BoundaryWalls.createWalls.
    cbn [fst snd BoundaryWalls.engine BoundaryWalls.walls BoundaryWalls.getWalls].
    fold e. fold s1. rewrite getAllBodies_addBody.
    change (getAllBodies e (mkSys (worlds s1) (manager s1) (trace s1) _))
      with (getAllBodies e s1).
    rewrite Hw, (fold_remove_filter _ _ N). reflexivity. }
  assert (Hids : map id (BoundaryWalls.getWalls this')
                 = [nextId s; S (nextId s); S (S (nextId s)); S (S (S (nextId s)))]).
  { subst this'. unfold BoundaryWalls.resize, BoundaryWalls.createWalls.
    cbn [fst BoundaryWalls.getWalls BoundaryWalls.walls BoundaryWalls.engine].
    fold e. fold s1. rewrite Hn. reflexivity. }
  assert (Hnext : nextId s' = S (S (S (S (nextId s))))).
  { subst s'. unfold BoundaryWalls.resize, BoundaryWalls.createWalls.
    cbn [snd BoundaryWalls.engine BoundaryWalls.walls]. fold e. fold s1.
    unfold addBody. cbn [nextId]. now rewrite Hn. }
  assert (Hold : forall b, In b (List.filter
                     (fun b => negb (includes (BoundaryWalls.walls this) b))
                     (getAllBodies e s)) -> (id b < nextId s)%nat).
  { intros b Hb. apply filter_In in Hb as [Hb _].
    unfold idsBelow in B. rewrite List.Forall_forall in B. apply B, Hb. }
  split; [exact Hworld|]. split; [reflexivity|]. split; [reflexivity|].
  split; [|split].
  - rewrite List.Forall_forall. intros wall Hwall.
    apply includes_false. rewrite Hworld, map_app, in_app_iff, Hids.
    intros [H|H].
    + apply in_map_iff in H as (b & Hb & H). apply filter_In in H as [_ H].
      apply negb_true_iff in H. apply includes_false in H.
      apply H. rewrite Hb. now apply in_map.
    + rewrite List.Forall_forall in Hin. specialize (Hin wall Hwall).
      unfold idsBelow in B. rewrite List.Forall_forall in B.
      assert (id wall < nextId s)%nat by (apply B, Hin).
      cbn in H. lia.
  - rewrite Hworld, map_app, Hids. apply NoDup_ListNoDup, NoDup_app.
    split; [apply NoDup_ListNoDup; now apply NoDup_ids_filter|]. split.
    + intros i Hi Hi'. apply list_elem_of_In in Hi, Hi'.
      apply in_map_iff in Hi as (b & <- & Hb). apply Hold in Hb.
      cbn in Hi'. lia.
    + apply NoDup_ListNoDup. repeat constructor; cbn; lia.
  - unfold idsBelow. rewrite Hworld, Hnext, Forall_app. split.
    + rewrite List.Forall_forall. intros b Hb.
      apply Hold in Hb. lia.
    + assert (F : Forall (fun i => (i < S (S (S (S (nextId s)))))%nat)
                    (map id (BoundaryWalls.getWalls this'))).
      { rewrite Hids. repeat constructor; lia. }
      rewrite List.Forall_forall in F |- *. intros b Hb. apply F.
      now apply in_map.
Qed.

Lemma BoundaryWalls_resize_replaces_witness :
  let built := BoundaryWalls.new 0 800 600 (initial {[ 0%nat := [Scene.ball 1 100 100] ]} 2) in
  let resized := BoundaryWalls.resize 1000 700 (fst built) (snd built) in
  map id (getAllBodies 0 (snd resized)) = [1; 6; 7; 8; 9]%nat.
Proof.
  intros built resized.
  destruct (BoundaryWalls_resize_replaces 1000 700 (fst built) (snd built))
    as (W & _).
  - apply NoDup_ListNoDup, (bool_decide_unpack _). vm_compute. exact I.
  - unfold idsBelow. apply (bool_decide_unpack _). vm_compute. exact I.
  - vm_compute. repeat (apply List.Forall_cons; [cbn; auto 10|]).
    apply List.Forall_nil.
  - change (BoundaryWalls.engine (fst built)) with 0%nat in W.
    fold resized in W. rewrite W. vm_compute. reflexivity.
Defined.

(** ** Adding and removing bodies *)

Lemma remove_app_absent (w l : World) (b : Body) :
  includes w b = false -> Matter.remove (w ++ l) b = w ++ Matter.remove l b.
Proof.
  induction w as [|c w IH]; [reflexivity|]. cbn. unfold same at 1.
  rewrite Nat.eqb_sym. fold (same c b).
  destruct (same c b); [discriminate|]. cbn. intros H. now rewrite IH.
Qed.

(** X11.  [Engine.removeBody] undoes [Engine.addBody], is harmless on a
    body that is not in the world, and is idempotent: removing a body that
    is absent leaves the world as it is; adding an absent body and removing
    it again gives the world back; in a world where every body occurs once
    a second removal of the same body changes nothing; and neither
    operation touches the world of another engine. *)
Theorem addBody_removeBody (e : EngineRef) (b : Body) (s : Sys) :
  (includes (getAllBodies e s) b = false ->
   getAllBodies e (removeBody e b s) = getAllBodies e s
   /\ getAllBodies e (removeBody e b (addBody e [b] s)) = getAllBodies e s)
  /\ (List.NoDup (map id (getAllBodies e s)) ->
      getAllBodies e (removeBody e b (removeBody e b s))
      = getAllBodies e (removeBody e b s)
      /\ includes (getAllBodies e (removeBody e b s)) b = false)
  /\ (forall e', e <> e' ->
        getAllBodies e' (removeBody e b s) = getAllBodies e' s
        /\ getAllBodies e' (addBody e [b] s) = getAllBodies e' s).
Proof.
  split; [|split].
  - intros H. rewrite !getAllBodies_removeBody, getAllBodies_addBody. split.
    + now apply remove_absent.
    + rewrite (remove_app_absent _ _ _ H). cbn. unfold same.
      rewrite Nat.eqb_refl. apply app_nil_r.
  - intros N.
    assert (H : includes (getAllBodies e (removeBody e b s)) b = false).
    { rewrite getAllBodies_removeBody, (remove_filter _ _ N).
      apply includes_false. intros Hin.
      apply in_map_iff in Hin as (c & Hc & Hin).
      apply filter_In in Hin as [_ Hin]. apply negb_true_iff in Hin.
      unfold same in Hin. apply Nat.eqb_neq in Hin. congruence. }
    split; [|exact H].
    rewrite (getAllBodies_removeBody e b (removeBody e b s)).
    now apply remove_absent.
  - intros e' Hne. split.
    + now apply getAllBodies_removeBody_ne.
    + now apply getAllBodies_addBody_ne.
Qed.

Lemma addBody_removeBody_witness :
  getAllBodies 0
    (removeBody 0 (Scene.ball 7 10 10)
       (addBody 0 [Scene.ball 7 10 10] (Scene.start [Scene.ball 1 100 100])))
  = getAllBodies 0 (Scene.start [Scene.ball 1 100 100]).
Proof.
  apply (proj1 (addBody_removeBody 0 (Scene.ball 7 10 10)
                  (Scene.start [Scene.ball 1 100 100]))).
  vm_compute. reflexivity.
Defined.

(** ** More on the wrap *)

Section Landing.

Import F64.

Local Open Scope Z_scope.

(** X12.  On integer coordinates, where the arithmetic of the wrap is
    exact (bounds and position of magnitude at most [2^50]): a wrap moves a
    coordinate by exactly one region width (height) or not at all; and a
    body that was at most one region width and height outside the region is
    inside it (edges included) after the wrap, by the code's own
    comparisons. *)
Theorem wrapBody_lands_inside (lx ly hx hy px py : Z) (i : nat) (static : bool) :
  let bounds := BodyWrapper.mkBounds (lattice lx ly) (lattice hx hy) in
  let p' := position (BodyWrapper.wrapBody bounds (mkBody i (lattice px py) static)) in
  small lx -> small ly -> small hx -> small hy -> small px -> small py ->
  (x p' = Double.ofZ px \/ x p' = Double.ofZ (px + (hx - lx))
   \/ x p' = Double.ofZ (px - (hx - lx)))
  /\ (y p' = Double.ofZ py \/ y p' = Double.ofZ (py + (hy - ly))
      \/ y p' = Double.ofZ (py - (hy - ly)))
  /\ (lx - (hx - lx) <= px <= hx + (hx - lx) ->
      ly - (hy - ly) <= py <= hy + (hy - ly) ->
      (Double.ofZ lx <=? x p')%D = true /\ (x p' <=? Double.ofZ hx)%D = true
      /\ (Double.ofZ ly <=? y p')%D = true /\ (y p' <=? Double.ofZ hy)%D = true).
Proof.
  intros bounds p' Hlx Hly Hhx Hhy Hpx Hpy. subst bounds p'.
  rewrite wrapBody_lattice by assumption. cbn [position lattice x y].
  split; [|split].
  - unfold Spec.wrap. destruct (px <? lx); [|destruct (hx <? px)].
    + right; left. f_equal. lia.
    + right; right. f_equal. lia.
    + now left.
  - unfold Spec.wrap. destruct (py <? ly); [|destruct (hy <? py)].
    + right; left. f_equal. lia.
    + right; right. f_equal. lia.
    + now left.
  - intros Wx Wy.
    assert (Ix : lx <= Spec.wrap lx hx px <= hx)
      by (unfold Spec.wrap; destruct (Z.ltb_spec px lx), (Z.ltb_spec hx px); lia).
    assert (Iy : ly <= Spec.wrap ly hy py <= hy)
      by (unfold Spec.wrap; destruct (Z.ltb_spec py ly), (Z.ltb_spec hy py); lia).
    rewrite !leb_ofZ by sizes. rewrite !Z.leb_le. lia.
Qed.

Lemma wrapBody_lands_inside_witness :
  (Double.ofZ 0 <=? x (position (BodyWrapper.wrapBody
                                   (BodyWrapper.mkBounds (lattice 0 0) (lattice 800 600))
                                   (mkBody 1 (lattice (-10) 650) false))))%D = true.
Proof.
  apply (wrapBody_lands_inside 0 0 800 600 (-10) 650 1%nat false);
    unfold small; try (vm_compute; discriminate); lia.
Defined.

End Landing.

(** ** Input handling *)

Lemma logEvent_sys (debug : DebugControl.t) (name : string) (a : App) :
  sys (DebugControl.logEvent debug name a) = sys a
  /\ lastCreationTime (DebugControl.logEvent debug name a) = lastCreationTime a
  /\ constraints (DebugControl.logEvent debug name a) = constraints a
  /\ localStorage (DebugControl.logEvent debug name a) = localStorage a.
Proof. unfold DebugControl.logEvent. now destruct (DebugControl.isDebugMode debug). Qed.

Lemma logEvent_console (debug : DebugControl.t) (name : string) (a : App) :
  console (DebugControl.logEvent debug name a) =
    console a ++ (if DebugControl.isEnabled debug then [name] else []).
Proof.
  unfold DebugControl.logEvent, DebugControl.isEnabled.
  destruct (DebugControl.isDebugMode debug); [reflexivity|].
  now rewrite app_nil_r.
Qed.

Lemma logEvent_off (debug : DebugControl.t) (name : string) (a : App) :
  DebugControl.isEnabled debug = false -> DebugControl.logEvent debug name a = a.
Proof.
  unfold DebugControl.logEvent, DebugControl.isEnabled. now intros ->.
Qed.

(** What making a random body changes of the system: one identity is
    taken. *)
Lemma createRandomBody_sys (debug : DebugControl.t) (cx cy : Q)
    (d : BodyFactory.Draws) (a : App) :
  let made := fst (BodyFactory.createRandomBody debug cx cy d a) in
  let a' := snd (BodyFactory.createRandomBody debug cx cy d a) in
  BodyFactory.Made.body made = BodyFactory.movable (nextId (sys a)) cx cy
  /\ sys a' = takeId (sys a)
  /\ lastCreationTime a' = lastCreationTime a
  /\ (DebugControl.isEnabled debug = false -> console a' = console a).
Proof.
  cbv zeta. unfold BodyFactory.createRandomBody, BodyFactory.createCircle,
    BodyFactory.createPolygon, BodyFactory.createRectangle, BodyFactory.create.
  destruct (_ <.? _); [|destruct (_ <.? _)]; cbn [fst snd BodyFactory.Made.body];
    (split; [reflexivity|]);
    match goal with
    | |- context [ DebugControl.logEvent ?dbg ?n ?b ] =>
        destruct (logEvent_sys dbg n b) as (-> & -> & _);
        split; [reflexivity|]; split; [reflexivity|];
        intros Hoff; now rewrite (logEvent_off dbg n b Hoff)
    end.
Qed.

Section Input.

Variable hit : Body -> Vector -> bool.
Variable this : InputHandler.t.
Variable debug : DebugControl.t.

Let e : EngineRef := InputHandler.engine this.

(** The loop of [handleMouseDown] over the bodies under the pointer. *)
Lemma mouseDown_loop (bodies : list Body) (a : App) :
  let step := fun a body =>
    if negb (isStatic body) then
      withSys (removeBody e body)
        (DebugControl.logEvent debug "Object Removed" a)
    else a in
  let a' := fold_left step bodies a in
  manager (sys a') = manager (sys a)
  /\ trace (sys a') = trace (sys a)
  /\ nextId (sys a') = nextId (sys a)
  /\ lastCreationTime a' = lastCreationTime a
  /\ getAllBodies e (sys a') =
       fold_left Matter.remove (nonStatic bodies) (getAllBodies e (sys a))
  /\ (DebugControl.isEnabled debug = false -> console a' = console a).
Proof.
  cbv zeta. revert a. induction bodies as [|b bodies IH]; intros a.
  - cbn. repeat split; auto.
  - cbn [fold_left]. unfold nonStatic. cbn [List.filter].
    destruct (isStatic b); cbn [negb]; [apply IH|].
    fold (nonStatic bodies). cbn [fold_left].
    destruct (IH (withSys (removeBody e b)
                    (DebugControl.logEvent debug "Object Removed" a)))
      as (-> & -> & -> & -> & -> & Hc).
    unfold withSys at 1 2 3 4 5. cbn [sys lastCreationTime].
    destruct (logEvent_sys debug "Object Removed" a) as (-> & -> & _).
    rewrite getAllBodies_removeBody. repeat split.
    intros Hoff. rewrite (Hc Hoff). unfold withSys. cbn [console].
    now rewrite (logEvent_off _ _ _ Hoff).
Qed.

Lemma handleMouseDown_unfold (event : InputHandler.MouseEvent) (a : App) :
  InputHandler.handleMouseDown hit this debug event a =
    if (InputHandler.button event =? 2)%Z then
      fold_left
        (fun a body =>
           if negb (isStatic body) then
             withSys (removeBody e body)
               (DebugControl.logEvent debug "Object Removed" a)
           else a)
        (InputHandler.queryPoint hit (getAllBodies e (sys a))
           (mkVector (InputHandler.clientX event) (InputHandler.clientY event)))
        (DebugControl.logEvent debug "Query Bodies"
           (DebugControl.logEvent debug "Mouse Down" a))
    else DebugControl.logEvent debug "Mouse Down" a.
Proof.
  unfold InputHandler.handleMouseDown. cbv zeta.
  destruct (logEvent_sys debug "Mouse Down" a) as (-> & _). reflexivity.
Qed.


End Input.

(** Removing the bodies picked by a test from a world where every body
    occurs once. *)
Lemma remove_selected (sel : Body -> bool) (w : World) :
  List.NoDup (map id w) ->
  fold_left Matter.remove (List.filter sel w) w
  = List.filter (fun b => negb (sel b)) w.
Proof.
  intros N. rewrite (fold_remove_filter _ w N).
  apply filter_ext_in. intros c Hc. f_equal.
  apply eq_true_iff_eq. rewrite includes_In. split.
  - intros (d & Hd & E). apply filter_In in Hd as [Hd Hs].
    now rewrite (same_id_same_body w c d N Hc Hd E).
  - intros Hs. exists c. split; [|reflexivity]. apply filter_In. now split.
Qed.

Lemma filter_filter {A : Type} (f g : A -> bool) (l : list A) :
  List.filter f (List.filter g l) = List.filter (fun a => g a && f a) l.
Proof.
  induction l as [|a l IH]; [reflexivity|]. cbn.
  destruct (g a); cbn; [destruct (f a)|]; now rewrite IH.
Qed.

Lemma find_head_filter {A : Type} (f : A -> bool) (l : list A) :
  List.find f l = head (List.filter f l).
Proof.
  induction l as [|a l IH]; [reflexivity|]. cbn. now destruct (f a).
Qed.

Section Removal.

Variable hit : Body -> Vector -> bool.
Variable this : InputHandler.t.
Variable debug : DebugControl.t.

Let e : EngineRef := InputHandler.engine this.

(** X14.  The Delete key removes the first movable body of the world and
    nothing else.  On a world in which every body occurs once: any other
    key changes nothing; Delete on a world without a movable body changes
    nothing; otherwise the first movable body, in the order of the world,
    is removed, and every other body, static or movable, stays. *)
Theorem delete_key_removes_first_movable (key : string) (a : App) :
  let w := getAllBodies e (sys a) in
  let a' := InputHandler.handleKeyDown this debug key a in
  List.NoDup (map id w) ->
  (key <> "Delete"%string -> a' = a)
  /\ (nonStatic w = [] -> a' = a)
  /\ (forall b rest,
        key = "Delete"%string -> nonStatic w = b :: rest ->
        getAllBodies e (sys a') = List.filter (fun c => negb (same c b)) w
        /\ nonStatic (getAllBodies e (sys a')) = rest
        /\ List.filter isStatic (getAllBodies e (sys a')) = List.filter isStatic w).
Proof.
  intros w a' N. subst a'. unfold InputHandler.handleKeyDown. fold e. fold w.
  rewrite find_head_filter. fold (nonStatic w). split; [|split].
  - intros Hkey. apply String.eqb_neq in Hkey. now rewrite Hkey.
  - intros ->. now destruct (String.eqb key "Delete").
  - intros b rest -> Hw. rewrite Hw. cbn [head]. rewrite String.eqb_refl.
    unfold withSys. cbn [sys].
    destruct (logEvent_sys debug "Object Removed (DEL key)" a) as (-> & _).
    rewrite getAllBodies_removeBody. fold w. rewrite (remove_filter w b N).
    assert (Nm : List.NoDup (map id (nonStatic w))) by now apply NoDup_ids_filter.
    split; [reflexivity|]. split.
    + rewrite nonStatic_filter, <- (remove_filter _ b Nm), Hw. cbn.
      unfold same. now rewrite Nat.eqb_refl.
    + rewrite filter_filter. apply filter_ext_in. intros c Hc.
      destruct (isStatic c) eqn:S; [|apply andb_false_r].
      rewrite andb_true_r. apply negb_true_iff, not_true_iff_false.
      intros E. apply Nat.eqb_eq in E.
      assert (Hb : In b w).
      { assert (H : In b (nonStatic w)) by (rewrite Hw; now left).
        unfold nonStatic in H. now apply filter_In in H. }
      assert (Hm : isStatic b = false).
      { assert (H : In b (nonStatic w)) by (rewrite Hw; now left).
        unfold nonStatic in H. apply filter_In in H as [_ H].
        now apply negb_true_iff in H. }
      rewrite (same_id_same_body w c b N Hc Hb E) in S. congruence.
Qed.

(** X15.  A press of the right mouse button removes every movable body
    under the pointer, and no other body; a press of another button removes
    nothing.  (The world is one in which every body occurs once.) *)
Theorem right_press_removes_movable_under_pointer
    (event : InputHandler.MouseEvent) (a : App) :
  let w := getAllBodies e (sys a) in
  let pointer := mkVector (InputHandler.clientX event) (InputHandler.clientY event) in
  let a' := InputHandler.handleMouseDown hit this debug event a in
  List.NoDup (map id w) ->
  (InputHandler.button event = 2%Z ->
   getAllBodies e (sys a')
   = List.filter (fun b => negb (hit b pointer && negb (isStatic b))) w)
  /\ (InputHandler.button event <> 2%Z -> sys a' = sys a).
Proof.
  intros w pointer a' N. subst a'. rewrite handleMouseDown_unfold. fold e. split.
  - intros ->. cbn [Z.eqb Pos.eqb].
    destruct (mouseDown_loop this debug
                (InputHandler.queryPoint hit (getAllBodies e (sys a)) pointer)
                (DebugControl.logEvent debug "Query Bodies"
                   (DebugControl.logEvent debug "Mouse Down" a)))
      as (_ & _ & _ & _ & Hw & _).
    cbv zeta in Hw. fold e in Hw. fold pointer. rewrite Hw.
    destruct (logEvent_sys debug "Query Bodies"
                (DebugControl.logEvent debug "Mouse Down" a)) as (-> & _).
    destruct (logEvent_sys debug "Mouse Down" a) as (-> & _).
    fold w. unfold InputHandler.queryPoint, nonStatic.
    rewrite filter_filter. now apply remove_selected.
  - intros Hb. apply Z.eqb_neq in Hb. rewrite Hb. apply logEvent_sys.
Qed.

End Removal.

Lemma delete_key_removes_first_movable_witness :
  let a := mkApp (Scene.start [Scene.ball 1 100 100; Scene.ball 2 200 100])
             [] 0 ∅ [] None in
  let this := InputHandler.mk Scene.theEngine (mkVector 0 0) in
  let debug := DebugControl.mk false (DebugControl.mkOptions false false false
                 false false false false) None None None false [] in
  map id (getAllBodies Scene.theEngine
            (sys (InputHandler.handleKeyDown this debug "Delete" a)))
  = [2; 100; 101; 102]%nat.
Proof.
  intros a this debug.
  destruct (delete_key_removes_first_movable this debug "Delete" a)
    as (_ & _ & H).
  - apply NoDup_ListNoDup, (bool_decide_unpack _). vm_compute. exact I.
  - destruct (H (Scene.ball 1 100 100) [Scene.ball 2 200 100] eq_refl eq_refl)
      as (W & _).
    change (InputHandler.engine this) with Scene.theEngine in W.
    rewrite W. vm_compute. reflexivity.
Defined.

Lemma right_press_removes_movable_under_pointer_witness :
  let a := mkApp (Scene.start [Scene.ball 1 100 100; Scene.ball 2 200 100])
             [] 0 ∅ [] None in
  let this := InputHandler.mk Scene.theEngine (mkVector 0 0) in
  let debug := DebugControl.mk false (DebugControl.mkOptions false false false
                 false false false false) None None None false [] in
  let hit := fun (b : Body) (p : Vector) => Qeq_bool (x (position b)) (x p) in
  map id (getAllBodies Scene.theEngine
            (sys (InputHandler.handleMouseDown hit this debug
                    (InputHandler.mkMouseEvent 200 100 2 2 false) a)))
  = [1; 100; 101; 102]%nat.
Proof.
  intros a this debug hit.
  destruct (right_press_removes_movable_under_pointer hit this debug
              (InputHandler.mkMouseEvent 200 100 2 2 false) a) as (H & _).
  - apply NoDup_ListNoDup, (bool_decide_unpack _). vm_compute. exact I.
  - change (InputHandler.engine this) with Scene.theEngine in H.
    rewrite (H eq_refl). vm_compute. reflexivity.
Defined.

(** With no movable body in the world of its engine, a polling pass
    changes nothing. *)
Lemma checkBodiesInBox_noneMovable (box : BoundaryBox.t) (s : Sys) :
  noneMovable (BoundaryBox.engine box) s = true ->
  BoundaryBox.checkBodiesInBox box s = s.
Proof.
  unfold noneMovable, BoundaryBox.checkBodiesInBox. intros H.
  apply Nat.eqb_eq in H.
  now destruct (nonStatic (getAllBodies (BoundaryBox.engine box) s)).
Qed.

(** A "collisionStart" event between static bodies changes nothing. *)
Lemma onCollisionStart_static (box : BoundaryBox.t)
    (pairs : list BoundaryBox.Pair) (s : Sys) :
  forallb (fun p => isStatic (BoundaryBox.bodyA p) && isStatic (BoundaryBox.bodyB p))
    pairs = true ->
  BoundaryBox.onCollisionStart box pairs s = s.
Proof.
  unfold BoundaryBox.onCollisionStart. revert s.
  induction pairs as [|p pairs IH]; intros s; [reflexivity|].
  cbn [forallb fold_left]. intros H. apply andb_true_iff in H as [Hp H].
  apply andb_true_iff in Hp as [HA HB].
  rewrite collide_scoring. unfold scoring, otherBody.
  destruct (includes _ (BoundaryBox.bodyA p)); rewrite ?HA, ?HB;
    cbn [negb andb]; rewrite ?andb_false_r; now apply IH.
Qed.

(** X16.  Deleting the last movable body with the Delete key strands the
    game.  The key handler does not run the game-over test, so after the
    deletion no movable body is left and yet the game is not over; from
    then on a polling pass of a box on that engine and a collision event
    among the remaining static bodies change nothing, so the game is not
    ended by them either, although a direct [checkGameOver] would end it
    (for a manager wired to that engine with a positive initial body
    count). *)
Theorem deleting_last_body_strands_game (this : InputHandler.t)
    (debug : DebugControl.t) (a : App) (b : Body) :
  let e := InputHandler.engine this in
  let a' := InputHandler.handleKeyDown this debug "Delete" a in
  List.NoDup (map id (getAllBodies e (sys a))) ->
  nonStatic (getAllBodies e (sys a)) = [b] ->
  isGameOver (manager (sys a)) = false ->
  noneMovable e (sys a') = true
  /\ isGameOver (manager (sys a')) = false
  /\ modalsShown (trace (sys a')) = modalsShown (trace (sys a))
  /\ (forall box, BoundaryBox.engine box = e ->
        BoundaryBox.checkBodiesInBox box (sys a') = sys a')
  /\ (forall box pairs,
        forallb (fun p => isStatic (BoundaryBox.bodyA p)
                          && isStatic (BoundaryBox.bodyB p)) pairs = true ->
        BoundaryBox.onCollisionStart box pairs (sys a') = sys a')
  /\ (engine (manager (sys a)) = Some e ->
      (initialBodyCount (manager (sys a)) > 0)%Z ->
      isGameOver (manager (checkGameOver (sys a'))) = true).
Proof.
  intros e a' N Hw Hover.
  assert (Hs : sys a' = removeBody e b (sys a)).
  { subst a'. unfold InputHandler.handleKeyDown. fold e.
    rewrite find_head_filter. fold (nonStatic (getAllBodies e (sys a))).
    rewrite Hw, String.eqb_refl. cbn [head].
    unfold withSys. cbn [sys].
    now destruct (logEvent_sys debug "Object Removed (DEL key)" a) as (-> & _). }
  assert (Hnone : noneMovable e (sys a') = true).
  { rewrite Hs. unfold noneMovable.
    destruct (removeBody_world e b (sys a) N) as (_ & _ & ->).
    rewrite Hw. cbn. unfold same. now rewrite Nat.eqb_refl. }
  split; [exact Hnone|]. rewrite Hs. repeat split.
  - exact Hover.
  - intros box Hbox. apply checkBodiesInBox_noneMovable. rewrite Hbox.
    now rewrite <- Hs.
  - intros box pairs. apply onCollisionStart_static.
  - intros He Hc.
    destruct (checkGameOver_frame (removeBody e b (sys a)))
      as (_ & _ & _ & _ & _ & _ & _ & -> & _).
    rewrite (fires_noneMovable _ e) by exact He. rewrite <- Hs, Hnone, Hs.
    change (manager (removeBody e b (sys a))) with (manager (sys a)).
    rewrite Hover. cbn. lia.
Qed.

Lemma deleting_last_body_strands_game_witness :
  let a := mkApp (setInitialBodyCount 1 (Scene.start [Scene.ball 1 100 100]))
             [] 0 ∅ [] None in
  let this := InputHandler.mk Scene.theEngine (mkVector 0 0) in
  let debug := DebugControl.mk false (DebugControl.mkOptions false false false
                 false false false false) None None None false [] in
  let a' := InputHandler.handleKeyDown this debug "Delete" a in
  noneMovable Scene.theEngine (sys a') = true
  /\ isGameOver (manager (sys a')) = false.
Proof.
  intros a this debug a'.
  destruct (deleting_last_body_strands_game this debug a (Scene.ball 1 100 100))
    as (H1 & H2 & _).
  - apply NoDup_ListNoDup, (bool_decide_unpack _). vm_compute. exact I.
  - vm_compute. reflexivity.
  - reflexivity.
  - split; assumption.
Defined.

Lemma length_remove_le (w : World) (b : Body) :
  (length (Matter.remove w b) <= length w)%nat.
Proof.
  induction w as [|c w IH]; [reflexivity|]. cbn.
  destruct (same c b); cbn; lia.
Qed.

Section DragRate.

Variable hit : Body -> Vector -> bool.
Variable this : InputHandler.t.
Variable debug : DebugControl.t.

Let e : EngineRef := InputHandler.engine this.

(** When a mouse move makes a body. *)
Lemma handleMouseMove_creates (now : Z) (draws : BodyFactory.Draws)
    (event : InputHandler.MouseEvent) (a : App) :
  let a' := InputHandler.handleMouseMove hit this debug now draws event a in
  let creates :=
    (InputHandler.buttons event =? 1)%Z && InputHandler.ctrlKey event
    && (InputHandler.unset (lastCreationTime a)
        || (now - default 0%Z (lastCreationTime a) >=? 100)%Z) in
  created this a a' = creates
  /\ lastCreationTime a' = (if creates then Some now else lastCreationTime a)
  /\ (creates = true ->
      getAllBodies e (sys a')
      = getAllBodies e (sys a)
        ++ [BodyFactory.movable (nextId (sys a))
              (InputHandler.clientX event) (InputHandler.clientY event)]).
Proof.
  cbv zeta. unfold InputHandler.handleMouseMove, InputHandler.pressed, created.
  fold e.
  destruct (InputHandler.buttons event =? 1)%Z eqn:B1.
  - apply Z.eqb_eq in B1. rewrite B1. cbn [Z.gtb Z.compare Pos.compare].
    cbn [String.eqb Ascii.eqb Bool.eqb andb].
    set (a1 := DebugControl.logEvent debug _ a).
    assert (Hs : sys a1 = sys a) by (subst a1; apply logEvent_sys).
    assert (Hl : lastCreationTime a1 = lastCreationTime a)
      by (subst a1; apply logEvent_sys).
    destruct (InputHandler.ctrlKey event); cbn [andb].
    + rewrite Hl.
      destruct (InputHandler.unset (lastCreationTime a) || _).
      * destruct (createRandomBody_sys debug (InputHandler.clientX event)
                    (InputHandler.clientY event) draws a1) as (Hb & Hs2 & _).
        cbv zeta in Hb, Hs2.
        destruct (BodyFactory.createRandomBody debug _ _ draws a1) as [made a2].
        cbn [fst snd] in *. cbn [sys lastCreationTime]. unfold withSys.
        cbn [sys]. rewrite Hs2, Hb, Hs.
        assert (W : getAllBodies e (addBody e
                      [BodyFactory.movable (nextId (sys a))
                         (InputHandler.clientX event)
                         (InputHandler.clientY event)] (takeId (sys a)))
                    = getAllBodies e (sys a)
                      ++ [BodyFactory.movable (nextId (sys a))
                            (InputHandler.clientX event)
                            (InputHandler.clientY event)]).
        { rewrite getAllBodies_addBody. reflexivity. }
        rewrite W, length_app. cbn [length]. repeat split.
        apply Nat.ltb_lt. lia.
      * rewrite Hs, Hl. repeat split; [|discriminate]. apply Nat.ltb_irrefl.
    + rewrite Hs, Hl. repeat split; [|discriminate]. apply Nat.ltb_irrefl.
  - cbn [andb].
    destruct (InputHandler.buttons event >? 0)%Z;
      [|repeat split; [apply Nat.ltb_irrefl|discriminate]].
    assert (Hright : forall a0,
              sys a0 = sys a -> lastCreationTime a0 = lastCreationTime a ->
              let a2 :=
                match InputHandler.queryPoint hit (getAllBodies e (sys a0))
                        (mkVector (InputHandler.clientX event)
                           (InputHandler.clientY event)) with
                | [] => a0
                | body :: _ =>
                  if negb (isStatic body)
                  then withSys (removeBody e body) a0 else a0
                end in
              (length (getAllBodies e (sys a)) <? length (getAllBodies e (sys a2)))%nat
              = false
              /\ lastCreationTime a2 = lastCreationTime a).
    { intros a0 Hs Hl. cbv zeta.
      destruct (InputHandler.queryPoint hit _ _) as [|body rest].
      - rewrite Hs, Hl. split; [apply Nat.ltb_irrefl|reflexivity].
      - destruct (negb (isStatic body)).
        + unfold withSys. cbn [sys lastCreationTime].
          rewrite getAllBodies_removeBody, Hs, Hl. split; [|reflexivity].
          apply Nat.ltb_ge, length_remove_le.
        + rewrite Hs, Hl. split; [apply Nat.ltb_irrefl|reflexivity]. }
    destruct (InputHandler.buttons event =? 4)%Z.
    + cbn [String.eqb Ascii.eqb Bool.eqb andb].
      set (a1 := DebugControl.logEvent debug _ a).
      assert (Hs : sys a1 = sys a) by (subst a1; apply logEvent_sys).
      assert (Hl : lastCreationTime a1 = lastCreationTime a)
        by (subst a1; apply logEvent_sys).
      rewrite Hs, Hl.
      repeat split; [apply Nat.ltb_irrefl|discriminate].
    + cbn [String.eqb Ascii.eqb Bool.eqb andb].
      set (a1 := DebugControl.logEvent debug _ a).
      assert (Hs : sys a1 = sys a) by (subst a1; apply logEvent_sys).
      assert (Hl : lastCreationTime a1 = lastCreationTime a)
        by (subst a1; apply logEvent_sys).
      destruct (Hright a1 Hs Hl) as [H1 H2]. cbv zeta in H1, H2.
      rewrite H1, H2. repeat split. discriminate.
Qed.

(** X17.  Bodies made by dragging with Ctrl and the left button are at
    least 100 ms apart.  One mouse move makes a body exactly if the left
    button alone is pressed with Ctrl and either no creation time is stored
    (or a stored 0) or at least 100 ms have passed since the stored one,
    and it then stores its own clock value.  So over any series of mouse
    moves whose clock values are not 0, each move that makes a body comes at
    least 100 ms after the one before it that made one. *)
Theorem drag_creations_are_spaced
    (moves : list (Z * BodyFactory.Draws * InputHandler.MouseEvent))
    (a : App) :
  lastCreationTime a <> Some 0%Z ->
  Forall (fun move => fst (fst move) <> 0%Z) moves ->
  spaced (lastCreationTime a) (creationTimes hit this debug moves a).
Proof.
  revert a. induction moves as [|[[now draws] event] moves IH]; intros a Ha Hm.
  - exact I.
  - apply Forall_cons in Hm as [Hnow Hm]. cbn [fst] in Hnow.
    cbn [creationTimes].
    destruct (handleMouseMove_creates now draws event a) as (-> & Hl & _).
    cbv zeta in Hl.
    set (a' := InputHandler.handleMouseMove hit this debug now draws event a) in *.
    destruct (_ && _ && _) eqn:C.
    + cbn [app spaced]. split.
      * apply andb_true_iff in C as [_ C].
        destruct (lastCreationTime a) as [t|]; [|exact I].
        cbn [default InputHandler.unset] in C. unfold Datatypes.id in C.
        apply orb_true_iff in C as [C|C]; [|lia].
        apply Z.eqb_eq in C. congruence.
      * rewrite <- Hl. apply IH; [|exact Hm]. rewrite Hl. congruence.
    + cbn [app]. rewrite <- Hl. apply IH; [|exact Hm]. now rewrite Hl.
Qed.

End DragRate.

Lemma drag_creations_are_spaced_witness :
  let a := mkApp (Scene.start []) [] 0 ∅ [] None in
  let this := InputHandler.mk Scene.theEngine (mkVector 0 0) in
  let debug := DebugControl.mk false (DebugControl.mkOptions false false false
                 false false false false) None None None false [] in
  let hit := fun (b : Body) (p : Vector) => false in
  let draws := BodyFactory.mkDraws 0.5 0.5 0.5 0.5 in
  let drag := InputHandler.mkMouseEvent 10 10 0 1 true in
  spaced None
    (creationTimes hit this debug
       [(1000%Z, draws, drag); (1050%Z, draws, drag); (1100%Z, draws, drag)] a).
Proof.
  intros a this debug hit draws drag.
  apply (drag_creations_are_spaced hit this debug
           [(1000%Z, draws, drag); (1050%Z, draws, drag); (1100%Z, draws, drag)] a).
  - discriminate.
  - repeat constructor; discriminate.
Defined.

Example drag_creation_times :
  let a := mkApp (Scene.start []) [] 0 ∅ [] None in
  let this := InputHandler.mk Scene.theEngine (mkVector 0 0) in
  let debug := DebugControl.mk false (DebugControl.mkOptions false false false
                 false false false false) None None None false [] in
  let hit := fun (b : Body) (p : Vector) => false in
  let draws := BodyFactory.mkDraws 0.5 0.5 0.5 0.5 in
  let drag := InputHandler.mkMouseEvent 10 10 0 1 true in
  creationTimes hit this debug
    [(1000%Z, draws, drag); (1050%Z, draws, drag); (1100%Z, draws, drag)] a
  = [1000%Z; 1100%Z].
Proof. vm_compute. reflexivity. Qed.

(** ** The debug control *)

Lemma removeFirst_snoc (c : nat) (l : list nat) :
  ~ In c l -> removeFirst c (l ++ [c]) = l.
Proof.
  induction l as [|d l IH]; cbn.
  - intros _. now rewrite Nat.eqb_refl.
  - intros H. destruct (Nat.eqb_spec d c) as [->|_]; [tauto|].
    f_equal. apply IH. tauto.
Qed.

Section Debug.

Variable run : Callback -> bool -> App -> App.

Lemma updateDebugMode_mode (this : DebugControl.t) (a : App) :
  let this' := fst (DebugControl.updateDebugMode run this a) in
  DebugControl.isDebugMode this' = DebugControl.checked this
  /\ DebugControl.checked this' = DebugControl.checked this
  /\ DebugControl.onChangeCallbacks this' = DebugControl.onChangeCallbacks this
  /\ DebugControl.options this'
     = (let c := DebugControl.checked this in
        DebugControl.mkOptions c c c c c c c).
Proof.
  cbv zeta. unfold DebugControl.updateDebugMode.
  destruct (DebugControl.checked this) eqn:C; cbn [fst]; cbn;
    rewrite ?C; repeat split.
Qed.

(** X18.  Debug mode survives a reload of the page.  [updateDebugMode]
    makes the mode equal to the state of the checkbox, sets the seven
    renderer options to it and stores it; a debug control built later from
    a local storage with that entry starts in the same mode, and one built
    from a storage without the entry starts with debug mode off.
    (Callbacks are taken to leave the local storage alone.) *)
Theorem debug_mode_persists :
  (forall callback b a, localStorage (run callback b a) = localStorage a) ->
  forall (this : DebugControl.t) (a : App),
    let this1 := fst (DebugControl.updateDebugMode run this a) in
    let a1 := snd (DebugControl.updateDebugMode run this a) in
    let c := DebugControl.checked this in
    DebugControl.isEnabled this1 = c
    /\ DebugControl.options this1 = DebugControl.mkOptions c c c c c c c
    /\ localStorage a1 !! "debugMode"%string = Some (stringOfBool c)
    /\ (forall opts m a2,
          localStorage a2 !! "debugMode"%string
          = localStorage a1 !! "debugMode"%string ->
          DebugControl.isEnabled (fst (DebugControl.new run opts m a2)) = c)
    /\ (forall opts m a0,
          localStorage a0 !! "debugMode"%string = None ->
          DebugControl.isEnabled (fst (DebugControl.new run opts m a0)) = false).
Proof.
  intros Hstore this a this1 a1 c.
  assert (Hfold : forall b l a,
            localStorage (fold_left (fun a cb => run cb b a) l a) = localStorage a).
  { intros b l. induction l as [|cb l IH]; intros a0; [reflexivity|].
    cbn [fold_left]. now rewrite IH, Hstore. }
  destruct (updateDebugMode_mode this a) as (Hm & _ & _ & Ho).
  fold this1 c in Hm, Ho. cbv zeta in Ho.
  assert (Hs : localStorage a1 !! "debugMode"%string = Some (stringOfBool c)).
  { subst a1. unfold DebugControl.updateDebugMode. fold c.
    destruct c; cbn [snd]; rewrite Hfold; cbn [localStorage DebugControl.isDebugMode];
      apply lookup_insert_eq. }
  assert (Hnew : forall opts m a2,
            DebugControl.isEnabled (fst (DebugControl.new run opts m a2))
            = bool_decide (localStorage a2 !! "debugMode"%string
                           = Some "true"%string)).
  { intros opts m a2. unfold DebugControl.new, DebugControl.isEnabled.
    now rewrite (proj1 (updateDebugMode_mode _ a2)). }
  repeat split; try assumption.
  - intros opts m a2 E. rewrite Hnew, E, Hs.
    destruct c; [now apply bool_decide_eq_true_2|].
    now apply bool_decide_eq_false_2.
  - intros opts m a0 E. rewrite Hnew, E. now apply bool_decide_eq_false_2.
Qed.

(** X19.  Debug mode keeps at most one mouse constraint in the world.
    From a world whose constraints have identities below the next fresh
    one, after the debug control is built and the checkbox toggled any
    number of times (with callbacks registered in between), the constraints
    of the world are those of the start, followed by the current mouse
    constraint if debug mode is on and by nothing if it is off.
    (Callbacks are taken to leave the constraints alone and not to lower
    the identity counter.) *)
Theorem debug_keeps_one_mouse_constraint :
  (forall callback b a, constraints (run callback b a) = constraints a) ->
  (forall callback b a, (nextId (sys a) <= nextId (sys (run callback b a)))%nat) ->
  forall (opts : DebugControl.RenderOptions) (m : option nat) (a0 : App)
         (actions : list DebugAction),
    Forall (fun c => (c < nextId (sys a0))%nat) (constraints a0) ->
    let final := debugSession run actions (DebugControl.new run opts m a0) in
    constraints (snd final) = constraints a0 ++ debugConstraint (fst final)
    /\ (length (debugConstraint (fst final))
        = if DebugControl.isEnabled (fst final) then 1 else 0)%nat.
Proof.
  intros Hc Hn opts m a0 actions Hbase.
  assert (Hfold : forall b l a,
            let a' := fold_left (fun a cb => run cb b a) l a in
            constraints a' = constraints a
            /\ (nextId (sys a) <= nextId (sys a'))%nat).
  { intros b l. induction l as [|cb l IH]; intros a; cbv zeta; [auto|].
    cbn [fold_left]. destruct (IH (run cb b a)) as [-> H].
    split; [apply Hc|]. specialize (Hn cb b a). lia. }
  set (Inv := fun st : DebugControl.t * App =>
    constraints (snd st) = constraints a0 ++ debugConstraint (fst st)
    /\ (DebugControl.isDebugMode (fst st) = true ->
        is_Some (DebugControl.mouseConstraint (fst st)))
    /\ (forall c, DebugControl.mouseConstraint (fst st) = Some c ->
          (nextId (sys a0) <= c)%nat)
    /\ (nextId (sys a0) <= nextId (sys (snd st)))%nat
    /\ DebugControl.checked (fst st) = DebugControl.isDebugMode (fst st)).
  assert (Hupdate : forall this a,
            (nextId (sys a0) <= nextId (sys a))%nat ->
            (forall c, DebugControl.mouseConstraint this = Some c ->
               (nextId (sys a0) <= c)%nat) ->
            (if DebugControl.checked this
             then constraints a = constraints a0
             else match DebugControl.mouseConstraint this with
                  | Some c => constraints a = constraints a0 ++ [c]
                  | None => constraints a = constraints a0
                  end) ->
            Inv (DebugControl.updateDebugMode run this a)).
  { intros this a I4 I3 Hpre.
    unfold Inv, DebugControl.updateDebugMode, debugConstraint,
      DebugControl.isEnabled.
    destruct (DebugControl.checked this) eqn:Hcheck.
    - cbn [fst snd DebugControl.isDebugMode DebugControl.mouseConstraint
           DebugControl.checked DebugControl.onChangeCallbacks].
      match goal with
      | |- context [ fold_left ?f ?l ?b ] =>
          set (a1 := b); destruct (Hfold true l a1) as [F1 F2]
      end.
      cbv zeta in F1, F2. rewrite F1.
      assert (E1 : constraints a1 = constraints a0 ++ [nextId (sys a)])
        by (subst a1; cbn; now rewrite Hpre).
      assert (E2 : nextId (sys a1) = S (nextId (sys a))) by reflexivity.
      rewrite E1. repeat split; try eauto.
      + intros c [= <-]. exact I4.
      + lia.
    - cbn [fst snd DebugControl.isDebugMode DebugControl.mouseConstraint
           DebugControl.checked DebugControl.onChangeCallbacks].
      match goal with
      | |- context [ fold_left ?f ?l ?b ] =>
          set (a1 := b); destruct (Hfold false l a1) as [F1 F2]
      end.
      cbv zeta in F1, F2. rewrite F1, app_nil_r.
      assert (E2 : nextId (sys a1) = nextId (sys a))
        by (subst a1; now destruct (DebugControl.mouseConstraint this)).
      assert (E1 : constraints a1 = constraints a0).
      { subst a1. destruct (DebugControl.mouseConstraint this) as [c|] eqn:Hmc;
          cbn; rewrite Hpre; [|reflexivity].
        apply removeFirst_snoc. intros Hin. rewrite List.Forall_forall in Hbase.
        specialize (Hbase c Hin). specialize (I3 c eq_refl). lia. }
      rewrite E1. repeat split; try assumption; try discriminate. lia. }
  assert (Hnew : Inv (DebugControl.new run opts m a0)).
  { unfold DebugControl.new. apply Hupdate; cbn; [lia|discriminate|].
    now destruct (bool_decide _). }
  assert (Hall : Inv (debugSession run actions (DebugControl.new run opts m a0))).
  { unfold debugSession.
    revert Hnew. generalize (DebugControl.new run opts m a0).
    induction actions as [|action actions IH]; intros st Hst; [exact Hst|].
    cbn [fold_left]. apply IH. destruct st as [this a].
    destruct Hst as (I1 & I2 & I3 & I4 & I5). cbn [fst snd] in *.
    destruct action as [|callback]; cbn [debugAct fst snd].
    - unfold DebugControl.onCheckboxChange. apply Hupdate; cbn; try assumption.
      unfold debugConstraint, DebugControl.isEnabled in I1. rewrite I5.
      destruct (DebugControl.isDebugMode this); cbn.
      + destruct (I2 eq_refl) as [c Hmc]. now rewrite Hmc in *.
      + now rewrite app_nil_r in I1.
    - unfold Inv, DebugControl.onChange, debugConstraint, DebugControl.isEnabled.
      cbn. repeat split; assumption. }
  destruct Hall as (I1 & I2 & _).
  split; [exact I1|].
  unfold debugConstraint, DebugControl.isEnabled.
  destruct (DebugControl.isDebugMode _) eqn:M; [|reflexivity].
  now destruct (I2 eq_refl) as [c ->].
Qed.

End Debug.

Lemma debug_mode_persists_witness :
  let this := DebugControl.mk true (DebugControl.mkOptions false false false
                false false false false) None None None false [] in
  let a := mkApp (initial ∅ 0) [] 0 ∅ [] None in
  DebugControl.isEnabled
    (fst (DebugControl.new (fun _ _ a => a)
            (DebugControl.mkOptions false false false false false false false)
            None
            (snd (DebugControl.updateDebugMode (fun _ _ a => a) this a))))
  = true.
Proof.
  intros this a.
  apply (debug_mode_persists (fun _ _ a => a) (fun _ _ _ => eq_refl) this a).
  reflexivity.
Defined.

Lemma debug_keeps_one_mouse_constraint_witness :
  let a0 := mkApp (initial ∅ 5) [3%nat] 0 ∅ [] None in
  let opts := DebugControl.mkOptions false false false false false false false in
  constraints
    (snd (debugSession (fun _ _ a => a)
            [ToggleCheckbox; ToggleCheckbox; Register 1%nat; ToggleCheckbox]
            (DebugControl.new (fun _ _ a => a) opts None a0)))
  = [3; 6]%nat.
Proof.
  intros a0 opts.
  destruct (debug_keeps_one_mouse_constraint (fun _ _ a => a)
              (fun _ _ _ => eq_refl) (fun _ _ _ => le_n _) opts None a0
              [ToggleCheckbox; ToggleCheckbox; Register 1%nat; ToggleCheckbox])
    as [H _].
  - repeat constructor.
  - rewrite H. vm_compute. reflexivity.
Defined.

(** ** The body factory *)

Lemma random_range (lo hi r : Q) :
  (lo <= hi)%Q -> (0 <= r)%Q -> (r < 1)%Q ->
  (lo <= BodyFactory.random lo hi r)%Q
  /\ (lo < hi -> BodyFactory.random lo hi r < hi)%Q.
Proof.
  unfold BodyFactory.random. intros H0 H1 H2. split; [nra|]. intros H. nra.
Qed.

Lemma Qfloor_range (lo hi : Z) (q : Q) :
  (inject_Z lo <= q)%Q -> (q < inject_Z hi)%Q -> (lo <= Qfloor q < hi)%Z.
Proof.
  intros H1 H2. split.
  - rewrite <- (Qfloor_Z lo). now apply Qfloor_resp_le.
  - rewrite Zlt_Qlt. eapply Qle_lt_trans; [apply Qfloor_le|exact H2].
Qed.

Lemma choose_In (colours : list string) (r : Q) :
  colours <> [] -> (0 <= r)%Q -> (r < 1)%Q ->
  In (BodyFactory.choose colours r) colours.
Proof.
  intros Hne H0 H1. unfold BodyFactory.choose. apply nth_In.
  set (n := Z.of_nat (length colours)).
  assert (Hn : (0 < n)%Z) by (destruct colours; [congruence|subst n; cbn; lia]).
  assert (Hq : (inject_Z 0 < inject_Z n)%Q) by (rewrite <- Zlt_Qlt; lia).
  change (inject_Z 0) with 0%Q in Hq.
  destruct (Qfloor_range 0 n (r * inject_Z n)) as [F1 F2].
  - change (inject_Z 0) with 0%Q. nra.
  - nra.
  - subst n. lia.
Qed.

(** X20.  What [createRandomBody] can make, for numbers drawn from
    [0, 1): a movable body with a fresh identity and its centre at the
    point given, restitution 0.9 and friction 0.1, and
    - a circle of radius in [10, 40) if the type drawn is below 0.33,
    - a polygon with 3 to 7 sides (never 8) and radius in [20, 50) if it
      is in [0.33, 0.66),
    - a rectangle with width and height in [30, 80) otherwise,
    in a colour of the list of its kind. *)
Theorem createRandomBody_ranges (debug : DebugControl.t) (cx cy : Q)
    (d : BodyFactory.Draws) (a : App) :
  let made := fst (BodyFactory.createRandomBody debug cx cy d a) in
  Forall (fun r => 0 <= r /\ r < 1)%Q
    [BodyFactory.type d; BodyFactory.first d; BodyFactory.second d;
     BodyFactory.third d] ->
  BodyFactory.Made.body made = BodyFactory.movable (nextId (sys a)) cx cy
  /\ BodyFactory.Made.restitution made = 0.9%Q
  /\ BodyFactory.Made.friction made = 0.1%Q
  /\ match BodyFactory.Made.shape made with
     | BodyFactory.Circle radius =>
       (BodyFactory.type d < 0.33)%Q /\ (10 <= radius)%Q /\ (radius < 40)%Q
       /\ In (BodyFactory.Made.fillStyle made)
            ["#F44336"; "#E53935"; "#D32F2F"; "#C62828"; "#B71C1C"]%string
     | BodyFactory.Polygon sides radius =>
       (0.33 <= BodyFactory.type d)%Q /\ (BodyFactory.type d < 0.66)%Q
       /\ (3 <= sides <= 7)%Z /\ (20 <= radius)%Q /\ (radius < 50)%Q
       /\ In (BodyFactory.Made.fillStyle made)
            ["#4CAF50"; "#8BC34A"; "#66BB6A"; "#43A047"; "#388E3C"]%string
     | BodyFactory.Rectangle width height =>
       (0.66 <= BodyFactory.type d)%Q
       /\ (30 <= width)%Q /\ (width < 80)%Q
       /\ (30 <= height)%Q /\ (height < 80)%Q
       /\ In (BodyFactory.Made.fillStyle made)
            ["#2196F3"; "#64B5F6"; "#42A5F5"; "#1E88E5"; "#1565C0"]%string
     end.
Proof.
  intros made H. subst made.
  apply List.Forall_cons_iff in H as [[T0 T1] H].
  apply List.Forall_cons_iff in H as [[A0 A1] H].
  apply List.Forall_cons_iff in H as [[B0 B1] H].
  apply List.Forall_cons_iff in H as [[C0 C1] _].
  unfold BodyFactory.createRandomBody.
  cmp (BodyFactory.type d) 0.33%Q; [|cmp (BodyFactory.type d) 0.66%Q];
    unfold BodyFactory.createCircle, BodyFactory.createPolygon,
      BodyFactory.createRectangle, BodyFactory.create;
    cbn [fst BodyFactory.Made.body BodyFactory.Made.restitution
         BodyFactory.Made.friction BodyFactory.Made.shape
         BodyFactory.Made.fillStyle BodyFactory.Options.empty
         BodyFactory.Options.restitution BodyFactory.Options.friction
         BodyFactory.Options.render mbind option_bind];
    (split; [reflexivity|]); (split; [reflexivity|]); (split; [reflexivity|]).
  - destruct (random_range 10 40 (BodyFactory.first d)) as [R1 R2]; try lra.
    repeat split; try lra.
    apply choose_In; [discriminate|assumption..].
  - destruct (random_range 3 8 (BodyFactory.first d)) as [S1 S2]; try lra.
    destruct (random_range 20 50 (BodyFactory.second d)) as [R1 R2]; try lra.
    destruct (Qfloor_range 3 8 (BodyFactory.random 3 8 (BodyFactory.first d)))
      as [F1 F2]; [exact S1|apply S2; lra|].
    repeat split; try lra; try lia.
    apply choose_In; [discriminate|assumption..].
  - destruct (random_range 30 80 (BodyFactory.first d)) as [W1 W2]; try lra.
    destruct (random_range 30 80 (BodyFactory.second d)) as [H1 H2]; try lra.
    repeat split; try lra.
    apply choose_In; [discriminate|assumption..].
Qed.

Lemma createRandomBody_ranges_witness :
  let debug := DebugControl.mk false (DebugControl.mkOptions false false false
                 false false false false) None None None false [] in
  let a := mkApp (initial ∅ 7) [] 0 ∅ [] None in
  BodyFactory.Made.body
    (fst (BodyFactory.createRandomBody debug 10 20
            (BodyFactory.mkDraws 0.5 0.99 0.5 0.5) a))
  = BodyFactory.movable 7 10 20.
Proof.
  intros debug a.
  apply (createRandomBody_ranges debug 10 20
           (BodyFactory.mkDraws 0.5 0.99 0.5 0.5) a).
  repeat constructor; cbn; lra.
Defined.

Lemma orNumber_default (value : option Q) (fallback : Q) :
  ~ (fallback == 0)%Q ->
  ~ (BodyFactory.orNumber value fallback == 0)%Q
  /\ (forall v, value = Some v -> ~ (v == 0)%Q ->
        BodyFactory.orNumber value fallback = v)
  /\ (forall v, value = Some v -> (v == 0)%Q ->
        BodyFactory.orNumber value fallback = fallback)
  /\ (value = None -> BodyFactory.orNumber value fallback = fallback).
Proof.
  intros Hf. unfold BodyFactory.orNumber. destruct value as [v|].
  - destruct (Qeq_bool v 0) eqn:E.
    + apply Qeq_bool_iff in E. repeat split; try tauto; try discriminate.
      intros w [= <-] Hw. tauto.
    + apply Qeq_bool_neq in E. repeat split; try tauto; try discriminate.
      * now intros w [= <-] _.
      * intros w [= <-] Hw. tauto.
  - repeat split; try tauto; discriminate.
Qed.

(** X21.  A restitution, friction or line width of 0 cannot be asked of
    the factory.  For each of [createCircle], [createPolygon] and
    [createRectangle]: a number other than 0 given in the options is taken
    as it is, a 0 given in the options is replaced by the default (0.9,
    0.1, and the line width 1 for a circle and 2 otherwise) just as a
    missing number is, and so the restitution, the friction and the line
    width of the body made are never 0. *)
Theorem factory_replaces_zero (debug : DebugControl.t) (cx cy p q : Q)
    (sides : Z) (options : BodyFactory.Options.t) (colour : Q) (a : App) :
  zeroReplaced options 1
    (fst (BodyFactory.createCircle debug cx cy p options colour a))
  /\ zeroReplaced options 2
       (fst (BodyFactory.createPolygon debug cx cy sides p options colour a))
  /\ zeroReplaced options 2
       (fst (BodyFactory.createRectangle debug cx cy p q options colour a)).
Proof.
  assert (H : forall shape name colours stroke line,
            ~ (line == 0)%Q ->
            zeroReplaced options line
              (fst (BodyFactory.create debug shape name colours stroke
                      line cx cy options colour a))).
  { intros shape name colours stroke line Hline.
    unfold zeroReplaced, BodyFactory.create.
    cbn [fst BodyFactory.Made.restitution BodyFactory.Made.friction
         BodyFactory.Made.lineWidth].
    repeat split.
    - apply orNumber_default. intros E. discriminate E.
    - apply orNumber_default. intros E. discriminate E.
    - now apply orNumber_default. }
  repeat split; apply H; intros E; discriminate E.
Qed.

Section Click.

Variable hit : Body -> Vector -> bool.
Variable this : InputHandler.t.
Variable debug : DebugControl.t.

(** X22.  A click never removes a body, and adds one only with Ctrl on
    empty space.  The pointer is looked up relative to the canvas; if a
    body is under it the world stays as it is; if none is and Ctrl is held,
    one new movable body is appended, its centre at the client coordinates
    of the event (not at the canvas-relative ones that were looked up);
    otherwise nothing changes.  The handler remembers the canvas-relative
    position. *)
Theorem click_adds_only_with_ctrl (rect : Vector) (draws : BodyFactory.Draws)
    (event : InputHandler.MouseEvent) (a : App) :
  let e := InputHandler.engine this in
  let w := getAllBodies e (sys a) in
  let pointer :=
    mkVector (InputHandler.clientX event - x rect)
             (InputHandler.clientY event - y rect) in
  let result := InputHandler.handleClick hit this debug rect draws event a in
  InputHandler.mousePosition (fst result) = pointer
  /\ InputHandler.engine (fst result) = e
  /\ getAllBodies e (sys (snd result)) =
       match InputHandler.queryPoint hit w pointer with
       | _ :: _ => w
       | [] =>
         if InputHandler.ctrlKey event
         then w ++ [BodyFactory.movable (nextId (sys a))
                      (InputHandler.clientX event) (InputHandler.clientY event)]
         else w
       end.
Proof.
  cbv zeta. unfold InputHandler.handleClick. cbn [InputHandler.engine].
  destruct (InputHandler.queryPoint hit _ _) as [|clicked rest].
  - destruct (InputHandler.ctrlKey event); [|cbn; auto].
    destruct (createRandomBody_sys debug (InputHandler.clientX event)
                (InputHandler.clientY event) draws a) as (Hb & Hs & _).
    cbv zeta in Hb, Hs.
    destruct (BodyFactory.createRandomBody debug _ _ draws a) as [made a1].
    cbn [fst snd] in *. unfold withSys. cbn [sys].
    rewrite Hs, Hb, getAllBodies_addBody. repeat split.
  - destruct (isStatic clicked); [cbn; auto|]. cbn [fst snd].
    destruct (logEvent_sys debug "Body Repelled" (withSys (addAttempt 1) a))
      as (-> & _).
    repeat split.
Qed.

End Click.

(** ** Instances *)


Lemma BoundaryBox_resize_keeps_old_walls_witness :
  In Scene.leftBox
    (getAllBodies Scene.theEngine
       (snd (BoundaryBox.resize 1000 700 (Scene.box []) (Scene.start [])))).
Proof.
  apply (BoundaryBox_resize_keeps_old_walls 1000 700 (Scene.box [])
           (Scene.start [])).
  vm_compute. auto.
Defined.


(** ** The two paths in one step *)




